(** * spek-audio: stream resolution, sample reading and interval planning

    A shallow embedding of [src/spek-audio.cc] (class [AudioFileImpl] and
    [Audio::open]) together with the properties its specification states.

    Conventions of the embedding:
    - C++ [int] and [int64_t] values are [Z]; every arithmetic operation that
      can leave the range of its type is wrapped with [Int.wrap32] or
      [Int.wrap64] (two's complement);
    - C++ [float] and [double] values are [spec_float] (IEEE 754 binary32 and
      binary64), computed with the rounding operations of [SpecFloat];
    - the media library (libavformat, libavcodec, libavutil) is an interface,
      [LibAV.Library]: its functions are fields of a record, its private
      state (demuxer, decoder) is abstract;
    - a call that would abort the process (a failed [assert], a null
      dereference, an integer division by zero) is [Fault]; loops that need
      not terminate take fuel and answer [OutOfFuel] when it is used up. *)

From Stdlib Require Import ZArith List Bool String Lia.
From Stdlib Require Import Strings.Byte.
From Stdlib Require Import Floats.SpecFloat.
Import ListNotations.
Local Open Scope Z_scope.

(** ** Machine integers *)

Module Int.

Definition INT16_MAX : Z := 32767.
Definition INT32_MAX : Z := 2147483647.
Definition INT32_MIN : Z := -2147483648.
Definition INT64_MAX : Z := 9223372036854775807.
Definition INT64_MIN : Z := -9223372036854775808.

(** Two's complement reduction of [x] to a signed integer of [w] bits. *)
Definition wrap (w : Z) (x : Z) : Z :=
  (x + 2 ^ (w - 1)) mod 2 ^ w - 2 ^ (w - 1).

Definition wrap16 : Z -> Z := wrap 16.
Definition wrap32 : Z -> Z := wrap 32.
Definition wrap64 : Z -> Z := wrap 64.

Definition is_int32 (x : Z) : Prop := INT32_MIN <= x <= INT32_MAX.
Definition is_int64 (x : Z) : Prop := INT64_MIN <= x <= INT64_MAX.

(** The [%] operator on [int64_t]: truncated remainder; a zero divisor and
    [INT64_MIN % -1] trap. *)
Definition rem64 (a b : Z) : option Z :=
  if (b =? 0) || ((a =? INT64_MIN) && (b =? -1)) then None
  else Some (Z.rem a b).

End Int.

(** ** Floating point values *)

Module IEEE.

(** [float] is binary32, [double] is binary64. *)
Definition float : Type := spec_float.
Definition double : Type := spec_float.

Definition f32_of_int (z : Z) : float := binary_normalize 24 128 z 0 false.
Definition f32_div : float -> float -> float := SFdiv 24 128.
Definition f32_zero : float := S754_zero false.

Definition f64_of_int (z : Z) : double := binary_normalize 53 1024 z 0 false.
Definition f64_mul : double -> double -> double := SFmul 53 1024.
Definition f64_div : double -> double -> double := SFdiv 53 1024.
Definition f64_zero : double := S754_zero false.

(** Conversion [double] to [float] (round to nearest, ties to even). *)
Definition f32_of_f64 (x : double) : float :=
  match x with
  | S754_finite s m e => binary_round 24 128 s m e
  | _ => x
  end.

(** The integer part of a finite value, rounded toward zero. *)
Definition truncate (x : spec_float) : option Z :=
  match x with
  | S754_zero _ => Some 0
  | S754_finite s m e =>
      let a := if 0 <=? e then Z.pos m * 2 ^ e else Z.pos m / 2 ^ (- e) in
      Some (if s then - a else a)
  | _ => None
  end.

(** The cast [(int64_t) x]: truncation toward zero; for a NaN, an infinity or
    a value out of range the x86-64 conversion instruction yields
    [INT64_MIN]. *)
Definition int64_of_f64 (x : double) : Z :=
  match truncate x with
  | Some z =>
      if (Int.INT64_MIN <=? z) && (z <=? Int.INT64_MAX) then z
      else Int.INT64_MIN
  | None => Int.INT64_MIN
  end.

(** A [float] from its 32-bit pattern, a [double] from its 64-bit pattern. *)
Definition of_bits (mant_bits exp_bits : Z) (n : Z) : spec_float :=
  let s := Z.testbit n (mant_bits + exp_bits) in
  let e := Z.land (Z.shiftr n mant_bits) (2 ^ exp_bits - 1) in
  let m := Z.land n (2 ^ mant_bits - 1) in
  let bias := 2 ^ (exp_bits - 1) - 1 in
  if e =? 0 then
    match m with
    | Z.pos p => S754_finite s p (1 - bias - mant_bits)
    | _ => S754_zero s
    end
  else if e =? 2 ^ exp_bits - 1 then
    if m =? 0 then S754_infinity s else S754_nan
  else
    match m + 2 ^ mant_bits with
    | Z.pos p => S754_finite s p (e - bias - mant_bits)
    | _ => S754_nan
    end.

Definition f32_of_bits : Z -> float := of_bits 23 8.
Definition f64_of_bits : Z -> double := of_bits 52 11.

End IEEE.

(** ** Outcome of a call *)

Inductive Run (A : Type) : Type :=
| Done (a : A)
| Fault
| OutOfFuel.

Arguments Done {A} a.
Arguments Fault {A}.
Arguments OutOfFuel {A}.

Definition bind {A B : Type} (r : Run A) (k : A -> Run B) : Run B :=
  match r with
  | Done a => k a
  | Fault => Fault
  | OutOfFuel => OutOfFuel
  end.

Notation "x <- r ;; k" := (bind r (fun x => k))
  (at level 61, r at next level, right associativity).
Notation "' p <- r ;; k" := (bind r (fun x => let p := x in k))
  (at level 61, p pattern, r at next level, right associativity).

(** ** The media library, as far as spek-audio.cc uses it *)

Module LibAV.

Definition AV_NOPTS_VALUE : Z := Int.INT64_MIN.
Definition AV_TIME_BASE : Z := 1000000.

Inductive AVMediaType : Set :=
| AVMEDIA_TYPE_UNKNOWN
| AVMEDIA_TYPE_VIDEO
| AVMEDIA_TYPE_AUDIO
| AVMEDIA_TYPE_DATA
| AVMEDIA_TYPE_SUBTITLE
| AVMEDIA_TYPE_ATTACHMENT.

(** The codec identifiers the source names; the others are told apart by
    their number. *)
Inductive AVCodecID : Set :=
| AV_CODEC_ID_AAC
| AV_CODEC_ID_MUSEPACK8
| AV_CODEC_ID_WMAV1
| AV_CODEC_ID_WMAV2
| AV_CODEC_ID_other (id : Z).

Inductive AVSampleFormat : Set :=
| AV_SAMPLE_FMT_NONE
| AV_SAMPLE_FMT_U8
| AV_SAMPLE_FMT_S16
| AV_SAMPLE_FMT_S32
| AV_SAMPLE_FMT_FLT
| AV_SAMPLE_FMT_DBL
| AV_SAMPLE_FMT_U8P
| AV_SAMPLE_FMT_S16P
| AV_SAMPLE_FMT_S32P
| AV_SAMPLE_FMT_FLTP
| AV_SAMPLE_FMT_DBLP
| AV_SAMPLE_FMT_S64
| AV_SAMPLE_FMT_S64P
| AV_SAMPLE_FMT_other (tag : Z).

(** [av_sample_fmt_is_planar]: 1 for the planar formats, 0 otherwise. *)
Definition av_sample_fmt_is_planar (fmt : AVSampleFormat) : bool :=
  match fmt with
  | AV_SAMPLE_FMT_U8P | AV_SAMPLE_FMT_S16P | AV_SAMPLE_FMT_S32P
  | AV_SAMPLE_FMT_FLTP | AV_SAMPLE_FMT_DBLP | AV_SAMPLE_FMT_S64P => true
  | _ => false
  end.

Inductive AVRounding : Set :=
| AV_ROUND_ZERO
| AV_ROUND_INF
| AV_ROUND_DOWN
| AV_ROUND_UP
| AV_ROUND_NEAR_INF.

(** [a / c] rounded as [rnd] asks, for [0 < c]. *)
Definition div_rnd (rnd : AVRounding) (a c : Z) : Z :=
  match rnd with
  | AV_ROUND_ZERO => Z.quot a c
  | AV_ROUND_INF => Z.sgn a * ((Z.abs a + c - 1) / c)
  | AV_ROUND_DOWN => a / c
  | AV_ROUND_UP => - ((- a) / c)
  | AV_ROUND_NEAR_INF => Z.sgn a * ((2 * Z.abs a + c) / (2 * c))
  end.

(** [av_rescale_rnd a b c rnd]: [a * b / c] computed without intermediate
    overflow and rounded as [rnd] asks; [INT64_MIN] when [c <= 0], [b < 0]
    or the result does not fit [int64_t]; [a = INT64_MIN] is taken as
    [- INT64_MAX]. *)
Definition av_rescale_rnd (a b c : Z) (rnd : AVRounding) : Z :=
  if (c <=? 0) || (b <? 0) then Int.INT64_MIN
  else
    let r := div_rnd rnd (Z.max a (- Int.INT64_MAX) * b) c in
    if (- Int.INT64_MAX <=? r) && (r <=? Int.INT64_MAX) then r
    else Int.INT64_MIN.

Record AVRational : Set := { num : Z; den : Z }.

(** [av_q2d]: the rational as a [double]. *)
Definition av_q2d (a : AVRational) : IEEE.double :=
  IEEE.f64_div (IEEE.f64_of_int (num a)) (IEEE.f64_of_int (den a)).

Record AVInputFormat : Set := { name : string }.

Record AVCodec : Set := { long_name : string }.

(** A packet: [buf] is the referenced buffer ([None] when [data] is null),
    [pos] is how far [data] points into it, [size] is the field [size]. *)
Record AVPacket : Set := {
  buf : option (list byte);
  pos : Z;
  size : Z;
  stream_index : Z
}.

(** A packet after [av_init_packet] with null data, or [av_packet_unref]. *)
Definition blank_packet : AVPacket :=
  {| buf := None; pos := 0; size := 0; stream_index := 0 |}.

(** A decoded frame; [data] lists the planes. *)
Record AVFrame : Set := {
  nb_samples : Z;
  format : AVSampleFormat;
  data : list (list byte)
}.

(** A frame after [av_frame_alloc] or [av_frame_unref]. *)
Definition blank_frame : AVFrame :=
  {| nb_samples := 0; format := AV_SAMPLE_FMT_NONE; data := [] |}.

Section Contexts.

Variables Demuxer Decoder : Type.

Record AVCodecContext : Type := {
  codec_type : AVMediaType;
  codec_id : AVCodecID;
  bit_rate : Z;
  sample_rate : Z;
  bits_per_raw_sample : Z;
  bits_per_coded_sample : Z;
  channels : Z;
  sample_fmt : AVSampleFormat;
  priv_data : Decoder
}.

Record AVStream : Type := {
  codec : AVCodecContext;
  duration : Z;
  time_base : AVRational
}.

Record AVFormatContext : Type := {
  streams : list AVStream;
  fc_duration : Z;
  priv_demux : Demuxer
}.

(** [nb_streams], an [unsigned int]. *)
Definition nb_streams (fc : AVFormatContext) : Z :=
  Z.of_nat (List.length (streams fc)).

(** [fc->streams[i]]; there is no such object when [i] is out of range. *)
Definition stream_at (fc : AVFormatContext) (i : Z) : option AVStream :=
  if i <? 0 then None else nth_error (streams fc) (Z.to_nat i).

Definition set_stream_codec (st : AVStream) (c : AVCodecContext) : AVStream :=
  {| codec := c; duration := duration st; time_base := time_base st |}.

Fixpoint update_nth {A : Type} (n : nat) (f : A -> A) (l : list A) : list A :=
  match l, n with
  | [], _ => []
  | x :: l', O => f x :: l'
  | x :: l', S n' => x :: update_nth n' f l'
  end.

(** The effect of a library call that writes [fc->streams[i]->codec]. *)
Definition set_codec (fc : AVFormatContext) (i : Z) (c : AVCodecContext)
  : AVFormatContext :=
  {| streams := update_nth (Z.to_nat i) (fun st => set_stream_codec st c)
                  (streams fc);
     fc_duration := fc_duration fc;
     priv_demux := priv_demux fc |}.

(** The functions of the library that spek-audio.cc calls.  A function that
    writes through a pointer argument returns the new value of the object. *)
Record Library : Type := {
  av_find_input_format : string -> option AVInputFormat;
  avformat_open_input :
    string -> option AVInputFormat -> option AVFormatContext;
  avformat_find_stream_info : AVFormatContext -> Z * AVFormatContext;
  avcodec_find_decoder : AVCodecID -> option AVCodec;
  avcodec_open2 : AVCodecContext -> AVCodec -> Z * AVCodecContext;
  av_read_frame : AVFormatContext -> Z * AVPacket * AVFormatContext;
  avcodec_decode_audio4 :
    AVCodecContext -> AVPacket -> Z * Z * AVFrame * AVCodecContext
}.

End Contexts.

Arguments codec_type {Decoder} _.
Arguments codec_id {Decoder} _.
Arguments bit_rate {Decoder} _.
Arguments sample_rate {Decoder} _.
Arguments bits_per_raw_sample {Decoder} _.
Arguments bits_per_coded_sample {Decoder} _.
Arguments channels {Decoder} _.
Arguments sample_fmt {Decoder} _.
Arguments priv_data {Decoder} _.
Arguments codec {Decoder} _.
Arguments duration {Decoder} _.
Arguments time_base {Decoder} _.
Arguments streams {Demuxer Decoder} _.
Arguments fc_duration {Demuxer Decoder} _.
Arguments priv_demux {Demuxer Decoder} _.
Arguments nb_streams {Demuxer Decoder} _.
Arguments stream_at {Demuxer Decoder} _ _.
Arguments set_stream_codec {Decoder} _ _.
Arguments set_codec {Demuxer Decoder} _ _ _.
Arguments av_find_input_format {Demuxer Decoder} _ _.
Arguments avformat_open_input {Demuxer Decoder} _ _ _.
Arguments avformat_find_stream_info {Demuxer Decoder} _ _.
Arguments avcodec_find_decoder {Demuxer Decoder} _ _.
Arguments avcodec_open2 {Demuxer Decoder} _ _ _.
Arguments av_read_frame {Demuxer Decoder} _ _.
Arguments avcodec_decode_audio4 {Demuxer Decoder} _ _ _.

End LibAV.

(** ** Error codes *)

(** Modelled from the spec: the enumeration [AudioError] is declared in
    spek-audio.h, which is not among the sources; these are the codes that
    spek-audio.cc assigns, and they are the error taxonomy of the spec. *)
Inductive AudioError : Set :=
| OK
| CANNOT_OPEN_FILE
| CANNOT_OPEN_DEVICE
| NO_STREAMS
| NO_AUDIO
| NO_DECODER
| NO_DURATION
| NO_CHANNELS
| CANNOT_OPEN_DECODER
| BAD_SAMPLE_FORMAT.

(** Modelled from the spec: [operator!] on [AudioError], declared in
    spek-audio.h; [!error] holds when no error is set. *)
Definition not_error (e : AudioError) : bool :=
  match e with
  | OK => true
  | _ => false
  end.

(** ** The session object *)

Section Spek.

Variables Demuxer Decoder : Type.
Variable lib : LibAV.Library Demuxer Decoder.

Record AudioFileImpl : Type := {
  error : AudioError;
  format_context : option (LibAV.AVFormatContext Demuxer Decoder);
  audio_stream : Z;
  codec_name : string;
  bit_rate : Z;
  sample_rate : Z;
  bits_per_sample : Z;
  streams : Z;
  channels : Z;
  duration : IEEE.double;
  channel : Z;
  packet : LibAV.AVPacket;
  offset : Z;
  frame : LibAV.AVFrame;
  buffer_len : Z;
  buffer : list IEEE.float;
  frames_per_interval : Z;
  error_per_interval : Z;
  error_base : Z
}.

(** The constructor [AudioFileImpl::AudioFileImpl].  It leaves [channel]
    uninitialised; 0 stands for that indeterminate value. *)
Definition new_AudioFileImpl (error : AudioError)
  (format_context : option (LibAV.AVFormatContext Demuxer Decoder))
  (audio_stream : Z) (codec_name : string)
  (bit_rate sample_rate bits_per_sample streams channels : Z)
  (duration : IEEE.double) : AudioFileImpl :=
  {| error := error; format_context := format_context;
     audio_stream := audio_stream; codec_name := codec_name;
     bit_rate := bit_rate; sample_rate := sample_rate;
     bits_per_sample := bits_per_sample; streams := streams;
     channels := channels; duration := duration;
     channel := 0;
     packet := LibAV.blank_packet; offset := 0;
     frame := LibAV.blank_frame;
     buffer_len := 0; buffer := [];
     frames_per_interval := 0; error_per_interval := 0; error_base := 0 |}.

Definition set_error (e : AudioError) (s : AudioFileImpl) : AudioFileImpl :=
  {| error := e; format_context := format_context s;
     audio_stream := audio_stream s; codec_name := codec_name s;
     bit_rate := bit_rate s; sample_rate := sample_rate s;
     bits_per_sample := bits_per_sample s; streams := streams s;
     channels := channels s; duration := duration s;
     channel := channel s; packet := packet s; offset := offset s;
     frame := frame s; buffer_len := buffer_len s; buffer := buffer s;
     frames_per_interval := frames_per_interval s;
     error_per_interval := error_per_interval s;
     error_base := error_base s |}.

Definition set_channel (c : Z) (s : AudioFileImpl) : AudioFileImpl :=
  {| error := error s; format_context := format_context s;
     audio_stream := audio_stream s; codec_name := codec_name s;
     bit_rate := bit_rate s; sample_rate := sample_rate s;
     bits_per_sample := bits_per_sample s; streams := streams s;
     channels := channels s; duration := duration s;
     channel := c; packet := packet s; offset := offset s;
     frame := frame s; buffer_len := buffer_len s; buffer := buffer s;
     frames_per_interval := frames_per_interval s;
     error_per_interval := error_per_interval s;
     error_base := error_base s |}.

Definition set_plan (fpi epi base : Z) (s : AudioFileImpl) : AudioFileImpl :=
  {| error := error s; format_context := format_context s;
     audio_stream := audio_stream s; codec_name := codec_name s;
     bit_rate := bit_rate s; sample_rate := sample_rate s;
     bits_per_sample := bits_per_sample s; streams := streams s;
     channels := channels s; duration := duration s;
     channel := channel s; packet := packet s; offset := offset s;
     frame := frame s; buffer_len := buffer_len s; buffer := buffer s;
     frames_per_interval := fpi;
     error_per_interval := epi;
     error_base := base |}.

Definition set_packet (p : LibAV.AVPacket) (off : Z) (s : AudioFileImpl)
  : AudioFileImpl :=
  {| error := error s; format_context := format_context s;
     audio_stream := audio_stream s; codec_name := codec_name s;
     bit_rate := bit_rate s; sample_rate := sample_rate s;
     bits_per_sample := bits_per_sample s; streams := streams s;
     channels := channels s; duration := duration s;
     channel := channel s; packet := p; offset := off;
     frame := frame s; buffer_len := buffer_len s; buffer := buffer s;
     frames_per_interval := frames_per_interval s;
     error_per_interval := error_per_interval s;
     error_base := error_base s |}.

Definition set_decoded (fc : LibAV.AVFormatContext Demuxer Decoder)
  (f : LibAV.AVFrame) (s : AudioFileImpl) : AudioFileImpl :=
  {| error := error s; format_context := Some fc;
     audio_stream := audio_stream s; codec_name := codec_name s;
     bit_rate := bit_rate s; sample_rate := sample_rate s;
     bits_per_sample := bits_per_sample s; streams := streams s;
     channels := channels s; duration := duration s;
     channel := channel s; packet := packet s; offset := offset s;
     frame := f; buffer_len := buffer_len s; buffer := buffer s;
     frames_per_interval := frames_per_interval s;
     error_per_interval := error_per_interval s;
     error_base := error_base s |}.

Definition set_buffer (len : Z) (b : list IEEE.float) (s : AudioFileImpl)
  : AudioFileImpl :=
  {| error := error s; format_context := format_context s;
     audio_stream := audio_stream s; codec_name := codec_name s;
     bit_rate := bit_rate s; sample_rate := sample_rate s;
     bits_per_sample := bits_per_sample s; streams := streams s;
     channels := channels s; duration := duration s;
     channel := channel s; packet := packet s; offset := offset s;
     frame := frame s; buffer_len := len; buffer := b;
     frames_per_interval := frames_per_interval s;
     error_per_interval := error_per_interval s;
     error_base := error_base s |}.

(** [this->format_context->streams[this->audio_stream]]. *)
Definition session_stream (s : AudioFileImpl)
  : option (LibAV.AVStream Decoder) :=
  match format_context s with
  | Some fc => LibAV.stream_at fc (audio_stream s)
  | None => None
  end.

(** ** [AudioFileImpl::start] *)

(** The local [duration] of [start]: the duration in ticks of the time base,
    [(int64_t)(this->duration * time_base.den / time_base.num)]. *)
Definition duration_ticks (d : IEEE.double) (tb : LibAV.AVRational) : Z :=
  IEEE.int64_of_f64
    (IEEE.f64_div (IEEE.f64_mul d (IEEE.f64_of_int (LibAV.den tb)))
       (IEEE.f64_of_int (LibAV.num tb))).

(** [ndebug] tells whether assertions are compiled out ([-DNDEBUG]); when
    they are not, [assert(false)] aborts. *)
Definition start (ndebug : bool) (s : AudioFileImpl) (channel samples : Z)
  : Run AudioFileImpl :=
  let s := set_channel channel s in
  let misuse := (channel <? 0) || (channels s <=? channel) in
  if misuse && negb ndebug then Fault
  else
    let s := if misuse then set_error NO_CHANNELS s else s in
    match session_stream s with
    | None => Fault
    | Some stream =>
        let tb := LibAV.time_base stream in
        let rate := Int.wrap64 (sample_rate s * LibAV.num tb) in
        let duration := duration_ticks (duration s) tb in
        let error_base := Int.wrap64 (samples * LibAV.den tb) in
        let frames_per_interval :=
          LibAV.av_rescale_rnd duration rate error_base LibAV.AV_ROUND_DOWN in
        match Int.rem64 (Int.wrap64 (duration * rate)) error_base with
        | None => Fault
        | Some error_per_interval =>
            Done (set_plan frames_per_interval error_per_interval error_base s)
        end
    end.

(** Modelled from the spec: the consumer of the plan (the pipeline stage) is
    not among the sources.  It keeps an error accumulator that starts at 0;
    each interval consumes [fpi] frames, then [epi] is added to the
    accumulator, and when the accumulator reaches [base] the interval
    consumes one more frame and [base] is subtracted.  The result lists the
    frames consumed by each of [n] intervals. *)
Fixpoint interval_frames (n : nat) (fpi epi base acc : Z) : list Z :=
  match n with
  | O => []
  | S n' =>
      let acc' := acc + epi in
      if base <=? acc' then
        (fpi + 1) :: interval_frames n' fpi epi base (acc' - base)
      else fpi :: interval_frames n' fpi epi base acc'
  end.

Definition sum_frames (l : list Z) : Z := fold_right Z.add 0 l.

(** The frames consumed over [n] intervals under the plan of session [s]. *)
Definition planned_frames (s : AudioFileImpl) (n : Z) : Z :=
  sum_frames
    (interval_frames (Z.to_nat n) (frames_per_interval s)
       (error_per_interval s) (error_base s) 0).

(** ** Reading samples out of a frame *)

Definition byte_at (data : list byte) (i : Z) : Z :=
  if i <? 0 then 0
  else Z.of_N (Byte.to_N (nth (Z.to_nat i) data Byte.x00)).

(** The [n] bytes at [addr], little endian, as an unsigned number.  Bytes
    past the end of the modelled plane read as 0. *)
Fixpoint load_le (data : list byte) (addr : Z) (n : nat) : Z :=
  match n with
  | O => 0
  | S n' => byte_at data addr + 256 * load_le data (addr + 1) n'
  end.

(** [reinterpret_cast<T*>(data)[offset]] for the four element types. *)
Definition load_int16 (data : list byte) (offset : Z) : Z :=
  Int.wrap16 (load_le data (2 * offset) 2).

Definition load_int32 (data : list byte) (offset : Z) : Z :=
  Int.wrap32 (load_le data (4 * offset) 4).

Definition load_float (data : list byte) (offset : Z) : IEEE.float :=
  IEEE.f32_of_bits (load_le data (4 * offset) 4).

Definition load_double (data : list byte) (offset : Z) : IEEE.double :=
  IEEE.f64_of_bits (load_le data (8 * offset) 8).

(** [frame->data[i]]. *)
Definition plane (f : LibAV.AVFrame) (i : Z) : list byte :=
  if i <? 0 then [] else nth (Z.to_nat i) (LibAV.data f) [].

(** The [if (is_planar)] statement of the sample loop: the plane to read
    and the element offset in it; an offset is the pair of the plane's index
    in [frame->data] and the element index. *)
Definition sample_source (is_planar : bool) (channel channels sample : Z)
  : Z * Z :=
  if is_planar then (channel, sample)
  else (0, Int.wrap32 (sample * channels)).

(** The [switch (format)] of the sample loop. *)
Definition sample_value (format : LibAV.AVSampleFormat) (data : list byte)
  (offset : Z) : IEEE.float :=
  match format with
  | LibAV.AV_SAMPLE_FMT_S16 | LibAV.AV_SAMPLE_FMT_S16P =>
      IEEE.f32_div (IEEE.f32_of_int (load_int16 data offset))
        (IEEE.f32_of_int Int.INT16_MAX)
  | LibAV.AV_SAMPLE_FMT_S32 | LibAV.AV_SAMPLE_FMT_S32P =>
      IEEE.f32_div (IEEE.f32_of_int (load_int32 data offset))
        (IEEE.f32_of_int Int.INT32_MAX)
  | LibAV.AV_SAMPLE_FMT_FLT | LibAV.AV_SAMPLE_FMT_FLTP =>
      load_float data offset
  | LibAV.AV_SAMPLE_FMT_DBL | LibAV.AV_SAMPLE_FMT_DBLP =>
      IEEE.f32_of_f64 (load_double data offset)
  | _ => IEEE.f32_zero
  end.

(** One iteration of the sample loop: the value stored in
    [buffer[sample]]. *)
Definition frame_sample (f : LibAV.AVFrame) (channel channels sample : Z)
  : IEEE.float :=
  let format := LibAV.format f in
  let is_planar := LibAV.av_sample_fmt_is_planar format in
  let '(p, offset) := sample_source is_planar channel channels sample in
  sample_value format (plane f p) offset.

(** The indices [0 <= sample < samples] in order. *)
Definition sample_indices (samples : Z) : list Z :=
  map Z.of_nat (seq 0 (Z.to_nat samples)).

(** The part of [read] after a frame was decoded: grow the buffer when the
    frame is longer, then overwrite its first [samples] cells. *)
Definition store_frame (s : AudioFileImpl) : AudioFileImpl :=
  let samples := LibAV.nb_samples (frame s) in
  let len := if buffer_len s <? samples then samples else buffer_len s in
  let values :=
    map (frame_sample (frame s) (channel s) (channels s))
      (sample_indices samples) in
  set_buffer len (values ++ skipn (Z.to_nat samples) (buffer s)) s.

(** ** [AudioFileImpl::read] *)

(** How the inner [while (this->packet.size > 0)] loop is left. *)
Inductive Decoded : Set :=
| FrameReady (samples : Z)
| PacketDone.

(** [packet.data += len; packet.size -= len; offset += len]. *)
Definition consume (len : Z) (s : AudioFileImpl) : AudioFileImpl :=
  let p := packet s in
  set_packet
    {| LibAV.buf := LibAV.buf p;
       LibAV.pos := LibAV.pos p + len;
       LibAV.size := Int.wrap32 (LibAV.size p - len);
       LibAV.stream_index := LibAV.stream_index p |}
    (Int.wrap32 (offset s + len)) s.

(** [av_packet_unref]. *)
Definition av_packet_unref (p : LibAV.AVPacket) : LibAV.AVPacket :=
  LibAV.blank_packet.

(** The [if (this->packet.data)] statement after the inner loop: the packet
    is put back to where it began and released. *)
Definition release_packet (s : AudioFileImpl) : AudioFileImpl :=
  match LibAV.buf (packet s) with
  | Some b =>
      let p := packet s in
      let restored :=
        {| LibAV.buf := Some b;
           LibAV.pos := LibAV.pos p - offset s;
           LibAV.size := Int.wrap32 (LibAV.size p + offset s);
           LibAV.stream_index := LibAV.stream_index p |} in
      set_packet (av_packet_unref restored) 0 s
  | None => s
  end.

(** The inner [while (this->packet.size > 0)] loop. *)
Fixpoint decode_packet (fuel : nat) (s : AudioFileImpl)
  : Run (Decoded * AudioFileImpl) :=
  match fuel with
  | O => OutOfFuel
  | S fuel' =>
      if 0 <? LibAV.size (packet s) then
        match format_context s, session_stream s with
        | Some fc, Some st =>
            let '(len, got_frame, f, ctx) :=
              LibAV.avcodec_decode_audio4 lib (LibAV.codec st) (packet s) in
            let s := set_decoded (LibAV.set_codec fc (audio_stream s) ctx) f s in
            if len <? 0 then Done (PacketDone, s)
            else
              let s := consume len s in
              if got_frame =? 0 then decode_packet fuel' s
              else
                let s := store_frame s in
                Done (FrameReady (LibAV.nb_samples (frame s)), s)
        | _, _ => Fault
        end
      else Done (PacketDone, s)
  end.

(** The [while ((res = av_read_frame (...)) >= 0)] loop: packets of other
    streams are released and skipped. *)
Fixpoint next_packet (fuel : nat) (s : AudioFileImpl)
  : Run (Z * AudioFileImpl) :=
  match fuel with
  | O => OutOfFuel
  | S fuel' =>
      match format_context s with
      | Some fc =>
          let '(res, p, fc') := LibAV.av_read_frame lib fc in
          let s := set_packet p (offset s) (set_decoded fc' (frame s) s) in
          if 0 <=? res then
            if LibAV.stream_index p =? audio_stream s then Done (res, s)
            else
              next_packet fuel'
                (set_packet (av_packet_unref p) (offset s) s)
          else Done (res, s)
      | None => Fault
      end
  end.

(** The outer [for (;;)] loop. *)
Fixpoint read_loop (fuel : nat) (s : AudioFileImpl)
  : Run (Z * AudioFileImpl) :=
  match fuel with
  | O => OutOfFuel
  | S fuel' =>
      '(d, s) <- decode_packet fuel' s ;;
      match d with
      | FrameReady samples => Done (samples, s)
      | PacketDone =>
          '(res, s) <- next_packet fuel' (release_packet s) ;;
          if res <? 0 then Done (0, s) else read_loop fuel' s
      end
  end.

Definition read (fuel : nat) (s : AudioFileImpl) : Run (Z * AudioFileImpl) :=
  if negb (not_error (error s)) then Done (-1, s)
  else read_loop fuel s.

(** [n] calls of [read] in a row: the values returned and the session after
    the last call. *)
Fixpoint read_many (fuel : nat) (n : nat) (s : AudioFileImpl)
  : Run (list Z * AudioFileImpl) :=
  match n with
  | O => Done ([], s)
  | S n' =>
      '(v, s) <- read fuel s ;;
      '(vs, s) <- read_many fuel n' s ;;
      Done (v :: vs, s)
  end.

(** The demuxer in state [fc] hands out, after [n - 1] packets of other
    streams, the packet [p] of stream [index] with result [res], and is then
    in state [fc']. *)
Inductive delivers (index : Z)
  : LibAV.AVFormatContext Demuxer Decoder -> LibAV.AVPacket -> Z ->
    LibAV.AVFormatContext Demuxer Decoder -> nat -> Prop :=
| delivers_now fc res p fc' :
    LibAV.av_read_frame lib fc = (res, p, fc') ->
    0 <= res ->
    LibAV.stream_index p = index ->
    delivers index fc p res fc' 1
| delivers_later fc res0 p0 fc0 p res fc' n :
    LibAV.av_read_frame lib fc = (res0, p0, fc0) ->
    0 <= res0 ->
    LibAV.stream_index p0 <> index ->
    delivers index fc0 p res fc' n ->
    delivers index fc p res fc' (S n).

(** ** [Audio::open] *)

(** The calls [open] makes into the library, in order. *)
Inductive LibCall : Set :=
| CallFindInputFormat
| CallOpenInput
| CallFindStreamInfo
| CallFindDecoder
| CallOpen2
| CallDumpFormat.

(** The local variables of [Audio::open], and the log of library calls. *)
Record Resolve : Type := {
  r_error : AudioError;
  r_file_or_device : string;
  r_file_iformat : option LibAV.AVInputFormat;
  r_format_context : option (LibAV.AVFormatContext Demuxer Decoder);
  r_audio_stream : Z;
  r_streams : Z;
  r_codec : option LibAV.AVCodec;
  r_codec_name : string;
  r_bit_rate : Z;
  r_sample_rate : Z;
  r_bits_per_sample : Z;
  r_channels : Z;
  r_duration : IEEE.double;
  r_log : list LibCall
}.

(** The locals as they are initialised: [error = OK], [audio_stream = -1],
    the stream information at its zero defaults. *)
Definition resolve_init (file_name : string) : Resolve :=
  {| r_error := OK; r_file_or_device := file_name; r_file_iformat := None;
     r_format_context := None; r_audio_stream := -1; r_streams := 0;
     r_codec := None; r_codec_name := EmptyString; r_bit_rate := 0;
     r_sample_rate := 0; r_bits_per_sample := 0; r_channels := 0;
     r_duration := IEEE.f64_zero; r_log := [] |}.

Definition is_empty (s : string) : bool :=
  match s with
  | EmptyString => true
  | _ => false
  end.

(** [if (!device_name.empty())]: a capture device is opened through the
    "alsa" input format. *)
Definition step_device (device_name : string) (r : Resolve) : Resolve :=
  if negb (is_empty device_name) then
    let file_iformat := LibAV.av_find_input_format lib "alsa" in
    {| r_error :=
         match file_iformat with
         | None => CANNOT_OPEN_DEVICE
         | Some _ => r_error r
         end;
       r_file_or_device := "default"; r_file_iformat := file_iformat;
       r_format_context := r_format_context r;
       r_audio_stream := r_audio_stream r; r_streams := r_streams r;
       r_codec := r_codec r; r_codec_name := r_codec_name r;
       r_bit_rate := r_bit_rate r; r_sample_rate := r_sample_rate r;
       r_bits_per_sample := r_bits_per_sample r;
       r_channels := r_channels r; r_duration := r_duration r;
       r_log := r_log r ++ [CallFindInputFormat] |}
  else r.

Definition with_context (e : AudioError)
  (fc : option (LibAV.AVFormatContext Demuxer Decoder)) (c : LibCall)
  (r : Resolve) : Resolve :=
  {| r_error := e; r_file_or_device := r_file_or_device r;
     r_file_iformat := r_file_iformat r; r_format_context := fc;
     r_audio_stream := r_audio_stream r; r_streams := r_streams r;
     r_codec := r_codec r; r_codec_name := r_codec_name r;
     r_bit_rate := r_bit_rate r; r_sample_rate := r_sample_rate r;
     r_bits_per_sample := r_bits_per_sample r;
     r_channels := r_channels r; r_duration := r_duration r;
     r_log := r_log r ++ [c] |}.

(** [avformat_open_input]; on failure the context pointer stays null. *)
Definition step_open_input (r : Resolve) : Resolve :=
  if not_error (r_error r) then
    match
      LibAV.avformat_open_input lib (r_file_or_device r) (r_file_iformat r)
    with
    | Some fc => with_context (r_error r) (Some fc) CallOpenInput r
    | None => with_context CANNOT_OPEN_FILE None CallOpenInput r
    end
  else r.

(** [avformat_find_stream_info]; its failure counts only when the container
    has no stream. *)
Definition step_stream_info (r : Resolve) : Run Resolve :=
  if not_error (r_error r) then
    match r_format_context r with
    | Some fc =>
        let '(ret, fc') := LibAV.avformat_find_stream_info lib fc in
        let e :=
          if ret <? 0 then
            if LibAV.nb_streams fc' <=? 0 then NO_STREAMS else r_error r
          else r_error r in
        Done (with_context e (Some fc') CallFindStreamInfo r)
    | None => Fault
    end
  else Done r.

Definition is_audio (t : LibAV.AVMediaType) : bool :=
  match t with
  | LibAV.AVMEDIA_TYPE_AUDIO => true
  | _ => false
  end.

(** The loop over [format_context->streams], from index [i] on; it returns
    [audio_stream] and [streams].  The library keeps [nb_streams] far below
    [INT_MAX], so [i] and the count are not reduced. *)
Fixpoint select_stream (l : list (LibAV.AVStream Decoder)) (i : Z)
  (stream : Z) (audio_stream streams : Z) : Z * Z :=
  match l with
  | [] => (audio_stream, streams)
  | st :: l' =>
      if is_audio (LibAV.codec_type (LibAV.codec st)) then
        select_stream l' (i + 1) stream
          (if stream =? streams then i else audio_stream) (streams + 1)
      else select_stream l' (i + 1) stream audio_stream streams
  end.

Definition with_selection (e : AudioError) (audio_stream streams : Z)
  (r : Resolve) : Resolve :=
  {| r_error := e; r_file_or_device := r_file_or_device r;
     r_file_iformat := r_file_iformat r;
     r_format_context := r_format_context r;
     r_audio_stream := audio_stream; r_streams := streams;
     r_codec := r_codec r; r_codec_name := r_codec_name r;
     r_bit_rate := r_bit_rate r; r_sample_rate := r_sample_rate r;
     r_bits_per_sample := r_bits_per_sample r;
     r_channels := r_channels r; r_duration := r_duration r;
     r_log := r_log r |}.

Definition step_select (stream : Z) (r : Resolve) : Run Resolve :=
  if not_error (r_error r) then
    match r_format_context r with
    | Some fc =>
        let '(audio_stream, streams) :=
          select_stream (LibAV.streams fc) 0 stream (-1) 0 in
        Done
          (with_selection
             (if audio_stream =? -1 then NO_AUDIO else r_error r)
             audio_stream streams r)
    | None => Fault
    end
  else Done r.

(** [avstream = format_context->streams[audio_stream]]. *)
Definition r_avstream (r : Resolve) : option (LibAV.AVStream Decoder) :=
  match r_format_context r with
  | Some fc => LibAV.stream_at fc (r_audio_stream r)
  | None => None
  end.

Definition with_codec (e : AudioError) (codec : option LibAV.AVCodec)
  (r : Resolve) : Resolve :=
  {| r_error := e; r_file_or_device := r_file_or_device r;
     r_file_iformat := r_file_iformat r;
     r_format_context := r_format_context r;
     r_audio_stream := r_audio_stream r; r_streams := r_streams r;
     r_codec := codec; r_codec_name := r_codec_name r;
     r_bit_rate := r_bit_rate r; r_sample_rate := r_sample_rate r;
     r_bits_per_sample := r_bits_per_sample r;
     r_channels := r_channels r; r_duration := r_duration r;
     r_log := r_log r ++ [CallFindDecoder] |}.

Definition step_find_decoder (r : Resolve) : Run Resolve :=
  if not_error (r_error r) then
    match r_avstream r with
    | Some avstream =>
        let codec :=
          LibAV.avcodec_find_decoder lib
            (LibAV.codec_id (LibAV.codec avstream)) in
        Done
          (with_codec
             match codec with
             | None => NO_DECODER
             | Some _ => r_error r
             end
             codec r)
    | None => Fault
    end
  else Done r.

(** The codecs whose decoders set both the sample width and the bit rate. *)
Definition sets_both (id : LibAV.AVCodecID) : bool :=
  match id with
  | LibAV.AV_CODEC_ID_AAC | LibAV.AV_CODEC_ID_MUSEPACK8
  | LibAV.AV_CODEC_ID_WMAV1 | LibAV.AV_CODEC_ID_WMAV2 => true
  | LibAV.AV_CODEC_ID_other _ => false
  end.

(** The value of [bits_per_sample] after the three statements that set it. *)
Definition resolved_bits_per_sample (ctx : LibAV.AVCodecContext Decoder)
  : Z :=
  let bits_per_sample := LibAV.bits_per_raw_sample ctx in
  let bits_per_sample :=
    if bits_per_sample =? 0 then LibAV.bits_per_coded_sample ctx
    else bits_per_sample in
  if sets_both (LibAV.codec_id ctx) then 0 else bits_per_sample.

(** The value of [bit_rate]: dropped when [bits_per_sample] is known. *)
Definition resolved_bit_rate (ctx : LibAV.AVCodecContext Decoder) : Z :=
  if resolved_bits_per_sample ctx =? 0 then LibAV.bit_rate ctx else 0.

(** The duration in seconds, or the error to report: the duration of the
    stream, else that of the container, else a minute for a device. *)
Definition resolved_duration (device_name : string)
  (fc : LibAV.AVFormatContext Demuxer Decoder)
  (avstream : LibAV.AVStream Decoder) : IEEE.double + AudioError :=
  if negb (LibAV.duration avstream =? LibAV.AV_NOPTS_VALUE) then
    inl (IEEE.f64_mul (IEEE.f64_of_int (LibAV.duration avstream))
           (LibAV.av_q2d (LibAV.time_base avstream)))
  else if negb (LibAV.fc_duration fc =? LibAV.AV_NOPTS_VALUE) then
    inl (IEEE.f64_div (IEEE.f64_of_int (LibAV.fc_duration fc))
           (IEEE.f64_of_int LibAV.AV_TIME_BASE))
  else if negb (is_empty device_name) then inl (IEEE.f64_of_int 60)
  else inr NO_DURATION.

Definition with_info (e : AudioError) (codec_name : string)
  (bit_rate sample_rate bits_per_sample channels : Z)
  (duration : IEEE.double) (r : Resolve) : Resolve :=
  {| r_error := e; r_file_or_device := r_file_or_device r;
     r_file_iformat := r_file_iformat r;
     r_format_context := r_format_context r;
     r_audio_stream := r_audio_stream r; r_streams := r_streams r;
     r_codec := r_codec r; r_codec_name := codec_name;
     r_bit_rate := bit_rate; r_sample_rate := sample_rate;
     r_bits_per_sample := bits_per_sample;
     r_channels := channels; r_duration := duration;
     r_log := r_log r |}.

(** The block that fills in the stream information, before the decoder is
    opened. *)
Definition step_info (device_name : string) (r : Resolve) : Run Resolve :=
  if not_error (r_error r) then
    match r_format_context r, r_avstream r, r_codec r with
    | Some fc, Some avstream, Some codec =>
        let ctx := LibAV.codec avstream in
        let channels := LibAV.channels ctx in
        let '(duration, e) :=
          match resolved_duration device_name fc avstream with
          | inl d => (d, r_error r)
          | inr e => (r_duration r, e)
          end in
        let e :=
          if not_error e && (channels <=? 0) then NO_CHANNELS else e in
        Done
          (with_info e (LibAV.long_name codec) (resolved_bit_rate ctx)
             (LibAV.sample_rate ctx) (resolved_bits_per_sample ctx)
             channels duration r)
    | _, _, _ => Fault
    end
  else Done r.

(** [avcodec_open2]; the codec context it writes belongs to the stream. *)
Definition step_open_decoder (r : Resolve) : Run Resolve :=
  if not_error (r_error r) then
    match r_format_context r, r_avstream r, r_codec r with
    | Some fc, Some avstream, Some codec =>
        let '(ret, ctx) :=
          LibAV.avcodec_open2 lib (LibAV.codec avstream) codec in
        Done
          (with_context
             (if ret <? 0 then CANNOT_OPEN_DECODER else r_error r)
             (Some (LibAV.set_codec fc (r_audio_stream r) ctx))
             CallOpen2 r)
    | _, _, _ => Fault
    end
  else Done r.

(** The eight sample formats the reader converts. *)
Definition recognized (fmt : LibAV.AVSampleFormat) : bool :=
  match fmt with
  | LibAV.AV_SAMPLE_FMT_S16 | LibAV.AV_SAMPLE_FMT_S16P
  | LibAV.AV_SAMPLE_FMT_S32 | LibAV.AV_SAMPLE_FMT_S32P
  | LibAV.AV_SAMPLE_FMT_FLT | LibAV.AV_SAMPLE_FMT_FLTP
  | LibAV.AV_SAMPLE_FMT_DBL | LibAV.AV_SAMPLE_FMT_DBLP => true
  | _ => false
  end.

Definition step_sample_format (r : Resolve) : Run Resolve :=
  if not_error (r_error r) then
    match r_avstream r with
    | Some avstream =>
        let fmt := LibAV.sample_fmt (LibAV.codec avstream) in
        Done
          (with_selection
             (if recognized fmt then r_error r else BAD_SAMPLE_FORMAT)
             (r_audio_stream r) (r_streams r) r)
    | None => Fault
    end
  else Done r.

(** [av_dump_format], when a context was opened. *)
Definition step_dump (r : Resolve) : Resolve :=
  match r_format_context r with
  | Some fc => with_context (r_error r) (Some fc) CallDumpFormat r
  | None => r
  end.

(** The session object built by the [return] statement. *)
Definition resolved (r : Resolve) : AudioFileImpl :=
  new_AudioFileImpl (r_error r) (r_format_context r) (r_audio_stream r)
    (r_codec_name r) (r_bit_rate r) (r_sample_rate r) (r_bits_per_sample r)
    (r_streams r) (r_channels r) (r_duration r).

(** The statements of [open] from the probing of the streams on, run on the
    locals [r]. *)
Definition resolve_from (device_name : string) (stream : Z) (r : Resolve)
  : Run Resolve :=
  r <- step_stream_info r ;;
  r <- step_select stream r ;;
  r <- step_find_decoder r ;;
  r <- step_info device_name r ;;
  r <- step_open_decoder r ;;
  r <- step_sample_format r ;;
  Done (step_dump r).

(** The locals of [open] at its [return] statement.  (The one-time
    registration of the capture backends at the top of [open] does not bear
    on the result and is left out.) *)
Definition resolve (file_name device_name : string) (stream : Z)
  : Run Resolve :=
  resolve_from device_name stream
    (step_open_input (step_device device_name (resolve_init file_name))).

(** [Audio::open]: the session and the library calls made. *)
Definition open (file_name device_name : string) (stream : Z)
  : Run (AudioFileImpl * list LibCall) :=
  r <- resolve file_name device_name stream ;;
  Done (resolved r, r_log r).

(** ** Vocabulary for the statements about [open] *)

(** The name under which the source is opened. *)
Definition source_name (file_name device_name : string) : string :=
  if is_empty device_name then file_name else "default".

(** The input format the source is opened with: none for a file, the
    "alsa" format for a device. *)
Definition input_format (device_name : string)
  (fmt : option LibAV.AVInputFormat) : Prop :=
  if is_empty device_name then fmt = None
  else fmt <> None /\ LibAV.av_find_input_format lib "alsa" = fmt.

(** The source is opened as the container [fc]. *)
Definition opens (file_name device_name : string)
  (fc : LibAV.AVFormatContext Demuxer Decoder) : Prop :=
  exists fmt,
    input_format device_name fmt /\
    LibAV.avformat_open_input lib (source_name file_name device_name) fmt
    = Some fc.

(** Probing [fc] leaves the container [fc'] and is accepted: it succeeds,
    or it fails on a container that has streams all the same. *)
Definition probes (fc fc' : LibAV.AVFormatContext Demuxer Decoder) : Prop :=
  exists ret,
    LibAV.avformat_find_stream_info lib fc = (ret, fc') /\
    (0 <= ret \/ 0 < LibAV.nb_streams fc').

(** The number of audio streams among [l]. *)
Fixpoint count_audio (l : list (LibAV.AVStream Decoder)) : Z :=
  match l with
  | [] => 0
  | st :: l' =>
      (if is_audio (LibAV.codec_type (LibAV.codec st)) then 1 else 0)
      + count_audio l'
  end.

(** The source opens and probes to the container [fc'], in which the stream
    loop picks index [a], the stream [st]. *)
Definition selects (file_name device_name : string) (stream : Z)
  (fc' : LibAV.AVFormatContext Demuxer Decoder) (a : Z)
  (st : LibAV.AVStream Decoder) : Prop :=
  (exists fc, opens file_name device_name fc /\ probes fc fc') /\
  fst (select_stream (LibAV.streams fc') 0 stream (-1) 0) = a /\
  LibAV.stream_at fc' a = Some st.

(** No stream is selected in a session. *)
Definition unselected (s : AudioFileImpl) : Prop :=
  audio_stream s = -1.

(** The stream information of a session is at its zero defaults (the count
    of audio streams apart). *)
Definition info_defaults (s : AudioFileImpl) : Prop :=
  codec_name s = EmptyString /\ bit_rate s = 0 /\ sample_rate s = 0 /\
  bits_per_sample s = 0 /\ channels s = 0 /\ duration s = IEEE.f64_zero.

(** The stream information of a session is filled in from the codec context
    [ctx] of the selected stream and from the decoder [codec] (the duration
    apart). *)
Definition info_filled (s : AudioFileImpl)
  (ctx : LibAV.AVCodecContext Decoder) (codec : LibAV.AVCodec) : Prop :=
  codec_name s = LibAV.long_name codec /\
  bit_rate s = resolved_bit_rate ctx /\
  sample_rate s = LibAV.sample_rate ctx /\
  bits_per_sample s = resolved_bits_per_sample ctx /\
  channels s = LibAV.channels ctx.

(** The library calls of a resolution that ends with error [e]
    ([device] tells whether a device name was given). *)
Definition calls_until (device : bool) (e : AudioError) : list LibCall :=
  (if device then [CallFindInputFormat] else []) ++
  match e with
  | CANNOT_OPEN_DEVICE => []
  | CANNOT_OPEN_FILE => [CallOpenInput]
  | NO_STREAMS | NO_AUDIO =>
      [CallOpenInput; CallFindStreamInfo; CallDumpFormat]
  | NO_DECODER | NO_DURATION | NO_CHANNELS =>
      [CallOpenInput; CallFindStreamInfo; CallFindDecoder; CallDumpFormat]
  | CANNOT_OPEN_DECODER | BAD_SAMPLE_FORMAT | OK =>
      [CallOpenInput; CallFindStreamInfo; CallFindDecoder; CallOpen2;
       CallDumpFormat]
  end.

(** The ways a resolution ends: for each, what the library answered and
    what the session holds. *)
Inductive Resolution (file_name device_name : string) (stream : Z)
  (s : AudioFileImpl) : Prop :=
| res_no_device :
    is_empty device_name = false ->
    LibAV.av_find_input_format lib "alsa" = None ->
    error s = CANNOT_OPEN_DEVICE ->
    format_context s = None -> unselected s -> streams s = 0 ->
    info_defaults s ->
    Resolution file_name device_name stream s
| res_no_file fmt :
    input_format device_name fmt ->
    LibAV.avformat_open_input lib (source_name file_name device_name) fmt
    = None ->
    error s = CANNOT_OPEN_FILE ->
    format_context s = None -> unselected s -> streams s = 0 ->
    info_defaults s ->
    Resolution file_name device_name stream s
| res_no_streams fc ret fc' :
    opens file_name device_name fc ->
    LibAV.avformat_find_stream_info lib fc = (ret, fc') ->
    ret < 0 -> LibAV.nb_streams fc' <= 0 ->
    error s = NO_STREAMS ->
    format_context s = Some fc' -> unselected s -> streams s = 0 ->
    info_defaults s ->
    Resolution file_name device_name stream s
| res_no_audio fc fc' :
    opens file_name device_name fc -> probes fc fc' ->
    fst (select_stream (LibAV.streams fc') 0 stream (-1) 0) = -1 ->
    error s = NO_AUDIO ->
    format_context s = Some fc' -> unselected s ->
    streams s = count_audio (LibAV.streams fc') ->
    info_defaults s ->
    Resolution file_name device_name stream s
| res_no_decoder fc' st :
    selects file_name device_name stream fc' (audio_stream s) st ->
    LibAV.avcodec_find_decoder lib (LibAV.codec_id (LibAV.codec st)) = None ->
    error s = NO_DECODER ->
    format_context s = Some fc' ->
    streams s = count_audio (LibAV.streams fc') ->
    info_defaults s ->
    Resolution file_name device_name stream s
| res_no_duration fc' st codec :
    selects file_name device_name stream fc' (audio_stream s) st ->
    LibAV.avcodec_find_decoder lib (LibAV.codec_id (LibAV.codec st))
    = Some codec ->
    resolved_duration device_name fc' st = inr NO_DURATION ->
    error s = NO_DURATION ->
    format_context s = Some fc' ->
    streams s = count_audio (LibAV.streams fc') ->
    info_filled s (LibAV.codec st) codec ->
    duration s = IEEE.f64_zero ->
    Resolution file_name device_name stream s
| res_no_channels fc' st codec d :
    selects file_name device_name stream fc' (audio_stream s) st ->
    LibAV.avcodec_find_decoder lib (LibAV.codec_id (LibAV.codec st))
    = Some codec ->
    resolved_duration device_name fc' st = inl d ->
    LibAV.channels (LibAV.codec st) <= 0 ->
    error s = NO_CHANNELS ->
    format_context s = Some fc' ->
    streams s = count_audio (LibAV.streams fc') ->
    info_filled s (LibAV.codec st) codec ->
    duration s = d ->
    Resolution file_name device_name stream s
| res_decoder fc' st codec d ret ctx :
    selects file_name device_name stream fc' (audio_stream s) st ->
    LibAV.avcodec_find_decoder lib (LibAV.codec_id (LibAV.codec st))
    = Some codec ->
    resolved_duration device_name fc' st = inl d ->
    0 < LibAV.channels (LibAV.codec st) ->
    LibAV.avcodec_open2 lib (LibAV.codec st) codec = (ret, ctx) ->
    error s
    = (if ret <? 0 then CANNOT_OPEN_DECODER
       else if recognized (LibAV.sample_fmt ctx) then OK
       else BAD_SAMPLE_FORMAT) ->
    format_context s = Some (LibAV.set_codec fc' (audio_stream s) ctx) ->
    streams s = count_audio (LibAV.streams fc') ->
    info_filled s (LibAV.codec st) codec ->
    duration s = d ->
    Resolution file_name device_name stream s.

End Spek.


Arguments error {Demuxer Decoder}.
Arguments format_context {Demuxer Decoder}.
Arguments audio_stream {Demuxer Decoder}.
Arguments codec_name {Demuxer Decoder}.
Arguments bit_rate {Demuxer Decoder}.
Arguments sample_rate {Demuxer Decoder}.
Arguments bits_per_sample {Demuxer Decoder}.
Arguments streams {Demuxer Decoder}.
Arguments channels {Demuxer Decoder}.
Arguments duration {Demuxer Decoder}.
Arguments channel {Demuxer Decoder}.
Arguments packet {Demuxer Decoder}.
Arguments offset {Demuxer Decoder}.
Arguments frame {Demuxer Decoder}.
Arguments buffer_len {Demuxer Decoder}.
Arguments buffer {Demuxer Decoder}.
Arguments frames_per_interval {Demuxer Decoder}.
Arguments error_per_interval {Demuxer Decoder}.
Arguments error_base {Demuxer Decoder}.
Arguments new_AudioFileImpl {Demuxer Decoder}.
Arguments set_error {Demuxer Decoder}.
Arguments set_channel {Demuxer Decoder}.
Arguments set_plan {Demuxer Decoder}.
Arguments set_packet {Demuxer Decoder}.
Arguments set_decoded {Demuxer Decoder}.
Arguments set_buffer {Demuxer Decoder}.
Arguments session_stream {Demuxer Decoder}.
Arguments start {Demuxer Decoder}.
Arguments planned_frames {Demuxer Decoder}.
Arguments store_frame {Demuxer Decoder}.
Arguments consume {Demuxer Decoder}.
Arguments release_packet {Demuxer Decoder}.
Arguments decode_packet {Demuxer Decoder}.
Arguments next_packet {Demuxer Decoder}.
Arguments read_loop {Demuxer Decoder}.
Arguments read {Demuxer Decoder}.
Arguments r_error {Demuxer Decoder}.
Arguments r_file_or_device {Demuxer Decoder}.
Arguments r_file_iformat {Demuxer Decoder}.
Arguments r_format_context {Demuxer Decoder}.
Arguments r_audio_stream {Demuxer Decoder}.
Arguments r_streams {Demuxer Decoder}.
Arguments r_codec {Demuxer Decoder}.
Arguments r_codec_name {Demuxer Decoder}.
Arguments r_bit_rate {Demuxer Decoder}.
Arguments r_sample_rate {Demuxer Decoder}.
Arguments r_bits_per_sample {Demuxer Decoder}.
Arguments r_channels {Demuxer Decoder}.
Arguments r_duration {Demuxer Decoder}.
Arguments r_log {Demuxer Decoder}.
Arguments resolve_init {Demuxer Decoder}.
Arguments step_device {Demuxer Decoder}.
Arguments with_context {Demuxer Decoder}.
Arguments step_open_input {Demuxer Decoder}.
Arguments step_stream_info {Demuxer Decoder}.
Arguments with_selection {Demuxer Decoder}.
Arguments step_select {Demuxer Decoder}.
Arguments r_avstream {Demuxer Decoder}.
Arguments step_find_decoder {Demuxer Decoder}.
Arguments resolved_duration {Demuxer Decoder}.
Arguments step_info {Demuxer Decoder}.
Arguments step_open_decoder {Demuxer Decoder}.
Arguments step_sample_format {Demuxer Decoder}.
Arguments step_dump {Demuxer Decoder}.
Arguments resolved {Demuxer Decoder}.
Arguments resolve {Demuxer Decoder}.
Arguments open {Demuxer Decoder}.
Arguments delivers {Demuxer Decoder}.
Arguments with_codec {Demuxer Decoder}.
Arguments with_info {Demuxer Decoder}.
Arguments resolve_from {Demuxer Decoder}.
Arguments source_name file_name device_name : simpl never.
Arguments input_format {Demuxer Decoder}.
Arguments selects {Demuxer Decoder}.
Arguments unselected {Demuxer Decoder}.
Arguments Resolution {Demuxer Decoder}.
Arguments read_many {Demuxer Decoder}.
Arguments opens {Demuxer Decoder}.
Arguments probes {Demuxer Decoder}.
Arguments info_defaults {Demuxer Decoder}.
Arguments info_filled {Demuxer Decoder}.
Arguments count_audio {Decoder}.
Arguments select_stream {Decoder}.
Arguments resolved_bits_per_sample {Decoder}.
Arguments resolved_bit_rate {Decoder}.
Arguments res_no_device {Demuxer Decoder}.
Arguments res_no_file {Demuxer Decoder}.
Arguments res_no_streams {Demuxer Decoder}.
Arguments res_no_audio {Demuxer Decoder}.
Arguments res_no_decoder {Demuxer Decoder}.
Arguments res_no_duration {Demuxer Decoder}.
Arguments res_no_channels {Demuxer Decoder}.
Arguments res_decoder {Demuxer Decoder}.
Arguments delivers_now {Demuxer Decoder}.
Arguments delivers_later {Demuxer Decoder}.

(** ** [AudioFileImpl::~AudioFileImpl] and the rest of the reader's
       vocabulary *)

Section Teardown.

Variables Demuxer Decoder : Type.
Variable lib : LibAV.Library Demuxer Decoder.

(** What the destructor hands back to the library, in order. *)
Inductive Release : Set :=
| FreeBuffer
| FreeFrame
| UnrefPacket (p : LibAV.AVPacket)
| CloseCodec (index : Z)
| CloseInput.

(** The packet as the statements
    [packet.data -= offset; packet.size += offset] leave it: this is what
    [av_packet_unref] receives, in [read] and in the destructor. *)
Definition restored_packet (s : AudioFileImpl Demuxer Decoder)
  : LibAV.AVPacket :=
  {| LibAV.buf := LibAV.buf (packet s);
     LibAV.pos := LibAV.pos (packet s) - offset s;
     LibAV.size := Int.wrap32 (LibAV.size (packet s) + offset s);
     LibAV.stream_index := LibAV.stream_index (packet s) |}.

(** The destructor.  The buffer pointer is null exactly as long as
    [buffer_len] is 0 (the constructor and [read] set the two together);
    the frame and the codec context of a stream are never null. *)
Definition destroy (s : AudioFileImpl Demuxer Decoder) : Run (list Release) :=
  let buffer := if 0 <? buffer_len s then [FreeBuffer] else [] in
  let frame := [FreeFrame] in
  let packet :=
    match LibAV.buf (packet s) with
    | Some _ => [UnrefPacket (restored_packet s)]
    | None => []
    end in
  match format_context s with
  | Some fc =>
      if 0 <=? audio_stream s then
        match LibAV.stream_at fc (audio_stream s) with
        | Some _ =>
            Done (buffer ++ frame ++ packet
                  ++ [CloseCodec (audio_stream s); CloseInput])
        | None => Fault
        end
      else Done (buffer ++ frame ++ packet ++ [CloseInput])
  | None => Done (buffer ++ frame ++ packet)
  end.

(** What the destructor closes, by the error of the session. *)
Definition closes_for (s : AudioFileImpl Demuxer Decoder) : list Release :=
  match error s with
  | CANNOT_OPEN_DEVICE | CANNOT_OPEN_FILE => []
  | NO_STREAMS | NO_AUDIO => [CloseInput]
  | _ => [CloseCodec (audio_stream s); CloseInput]
  end.

(** The fields of a session that [read] has no statement to assign. *)
Definition settled (s : AudioFileImpl Demuxer Decoder)
  : AudioError * Z * string * (Z * Z * Z * Z * Z) * IEEE.double * Z
    * (Z * Z * Z) :=
  (error s, audio_stream s, codec_name s,
   (bit_rate s, sample_rate s, bits_per_sample s, streams s, channels s),
   duration s, channel s,
   (frames_per_interval s, error_per_interval s, error_base s)).

(** The buffer holds [buffer_len] cells. *)
Definition buffer_sized (s : AudioFileImpl Demuxer Decoder) : Prop :=
  Z.of_nat (List.length (buffer s)) = buffer_len s.

(** From [s] to [s'] the settled fields are kept and the buffer does not
    shrink. *)
Definition stable (s s' : AudioFileImpl Demuxer Decoder) : Prop :=
  settled s' = settled s /\
  buffer_len s <= buffer_len s' /\
  (buffer_sized s -> buffer_sized s').

(** What a call returns with a frame: the session comes out of
    [store_frame]. *)
Definition frame_stored (s : AudioFileImpl Demuxer Decoder) (v : Z)
  (s' : AudioFileImpl Demuxer Decoder) : Prop :=
  exists s1,
    s' = store_frame s1 /\ v = LibAV.nb_samples (frame s1) /\
    settled s1 = settled s.

(** The packet in flight and the bytes consumed from it stay within what
    an [int] counts. *)
Definition packet_in_range (s : AudioFileImpl Demuxer Decoder) : Prop :=
  0 <= offset s /\ 0 <= LibAV.size (packet s) /\
  offset s + LibAV.size (packet s) <= Int.INT32_MAX.

(** The decoder consumes no more than the packet holds. *)
Definition decoder_bounded : Prop :=
  forall ctx p,
    0 < LibAV.size p ->
    fst (fst (fst (LibAV.avcodec_decode_audio4 lib ctx p))) <= LibAV.size p.

(** Reading a packet does not change the number of streams of the
    container. *)
Definition demuxer_keeps_streams : Prop :=
  forall fc,
    LibAV.nb_streams (snd (LibAV.av_read_frame lib fc)) = LibAV.nb_streams fc.

(** The session has a container, and its stream index names a stream of
    it. *)
Definition stream_in_range (s : AudioFileImpl Demuxer Decoder) : Prop :=
  exists fc,
    format_context s = Some fc /\
    0 <= audio_stream s < LibAV.nb_streams fc.

(** The demuxer in state [fc] hands out [n - 1] packets of streams other
    than [index], then fails with result [res], leaving packet [p] and
    state [fc']. *)
Inductive runs_dry (index : Z)
  : LibAV.AVFormatContext Demuxer Decoder -> LibAV.AVPacket -> Z ->
    LibAV.AVFormatContext Demuxer Decoder -> nat -> Prop :=
| dry_now fc res p fc' :
    LibAV.av_read_frame lib fc = (res, p, fc') ->
    res < 0 ->
    runs_dry index fc p res fc' 1
| dry_later fc res0 p0 fc0 p res fc' n :
    LibAV.av_read_frame lib fc = (res0, p0, fc0) ->
    0 <= res0 ->
    LibAV.stream_index p0 <> index ->
    runs_dry index fc0 p res fc' n ->
    runs_dry index fc p res fc' (S n).

(** The position of the [k]-th audio stream (from 0) among [l], counted
    from position [i]. *)
Fixpoint audio_position (l : list (LibAV.AVStream Decoder)) (i k : Z)
  : option Z :=
  match l with
  | [] => None
  | st :: l' =>
      if is_audio (LibAV.codec_type (LibAV.codec st)) then
        if k =? 0 then Some i else audio_position l' (i + 1) (k - 1)
      else audio_position l' (i + 1) k
  end.

End Teardown.

Arguments restored_packet {Demuxer Decoder}.
Arguments destroy {Demuxer Decoder}.
Arguments closes_for {Demuxer Decoder}.
Arguments settled {Demuxer Decoder}.
Arguments buffer_sized {Demuxer Decoder}.
Arguments demuxer_keeps_streams {Demuxer Decoder}.
Arguments stream_in_range {Demuxer Decoder}.
Arguments stable {Demuxer Decoder}.
Arguments frame_stored {Demuxer Decoder}.
Arguments packet_in_range {Demuxer Decoder}.
Arguments decoder_bounded {Demuxer Decoder}.
Arguments runs_dry {Demuxer Decoder}.
Arguments dry_now {Demuxer Decoder}.
Arguments dry_later {Demuxer Decoder}.
Arguments audio_position {Decoder}.

(** ** Vocabulary of the statements about ticks and samples *)

(** The tick count as the spec defines it (spec 4.4), to be compared with
    [duration_ticks], the expression of [start]: [durationTicks] is
    [round (durationSeconds * timeBaseDen / timeBaseNum)], the integer
    nearest to that quotient (halves away from zero), for the exact value of
    the duration and a positive [timeBaseNum]. *)
Definition spec_duration_ticks (d : IEEE.double) (tb : LibAV.AVRational)
  : option Z :=
  match d with
  | S754_zero _ => Some 0
  | S754_finite s m e =>
      let n := Z.pos m * 2 ^ Z.max e 0 * LibAV.den tb in
      let q := 2 ^ Z.max (- e) 0 * LibAV.num tb in
      let a := (2 * n + q) / (2 * q) in
      Some (if s then - a else a)
  | _ => None
  end.

(** The bytes of [data] from position [addr] on begin with [bs]. *)
Definition bytes_at (data : list byte) (addr : Z) (bs : list byte) : Prop :=
  0 <= addr /\
  firstn (List.length bs) (skipn (Z.to_nat addr) data) = bs.

(** The unsigned number whose bytes, least significant first, are [bs]. *)
Definition le_value (bs : list byte) : Z :=
  fold_right (fun b acc => Z.of_N (Byte.to_N b) + 256 * acc) 0 bs.

(** The signed number of [w] bits whose bit pattern is the unsigned [u]. *)
Definition twos_complement (w u : Z) : Z :=
  if u <? 2 ^ (w - 1) then u else u - 2 ^ w.

(** IEEE 754: the value of a binary interchange format with [mw] fraction
    bits and [ew] exponent bits, from the sign, the biased exponent field
    [E] and the fraction field [F]. *)
Definition ieee_value (mw ew : Z) (sign : bool) (E F : Z) : spec_float :=
  if E =? 0 then
    if F =? 0 then S754_zero sign
    else S754_finite sign (Z.to_pos F) (2 - 2 ^ (ew - 1) - mw)
  else if E =? 2 ^ ew - 1 then
    if F =? 0 then S754_infinity sign else S754_nan
  else S754_finite sign (Z.to_pos (2 ^ mw + F)) (E + 1 - 2 ^ (ew - 1) - mw).

(** The word of a binary interchange format with the fields [sign], [E]
    and [F]. *)
Definition ieee_word (mw ew : Z) (sign : bool) (E F : Z) : Z :=
  (if sign then 2 ^ (mw + ew) else 0) + E * 2 ^ mw + F.

(** ** Example streams and sessions *)

Module Example.

(** A codec context of a stereo stream sampled at 44.1 kHz. *)
Definition stereo_context (id : LibAV.AVCodecID)
  (fmt : LibAV.AVSampleFormat) : LibAV.AVCodecContext unit :=
  {| LibAV.codec_type := LibAV.AVMEDIA_TYPE_AUDIO;
     LibAV.codec_id := id;
     LibAV.bit_rate := 1411200;
     LibAV.sample_rate := 44100;
     LibAV.bits_per_raw_sample := 0;
     LibAV.bits_per_coded_sample := 16;
     LibAV.channels := 2;
     LibAV.sample_fmt := fmt;
     LibAV.priv_data := tt |}.

Definition milliseconds : LibAV.AVRational :=
  {| LibAV.num := 1; LibAV.den := 1000 |}.

(** An audio stream timed in milliseconds. *)
Definition audio_stream_ms (duration : Z) : LibAV.AVStream unit :=
  {| LibAV.codec :=
       stereo_context (LibAV.AV_CODEC_ID_other 65536) LibAV.AV_SAMPLE_FMT_S16;
     LibAV.duration := duration;
     LibAV.time_base := milliseconds |}.

(** A container holding that one stream; [D] is the state of its demuxer. *)
Definition container {D : Type} (duration : Z) (d : D)
  : LibAV.AVFormatContext D unit :=
  {| LibAV.streams := [audio_stream_ms duration];
     LibAV.fc_duration := LibAV.AV_NOPTS_VALUE;
     LibAV.priv_demux := d |}.

(** An eighth of a second, as a [double]. *)
Definition eighth : IEEE.double :=
  IEEE.f64_div (IEEE.f64_of_int 1) (IEEE.f64_of_int 8).

(** A resolved session on that container, 125 ms long. *)
Definition session : AudioFileImpl unit unit :=
  new_AudioFileImpl OK (Some (container 125 tt)) 0 "PCM signed 16-bit"
    0 44100 16 1 2 eighth.

(** A packed frame of two stereo samples of 16 bits: left 1000 and 2000,
    right -1000 and -2000, interleaved in the one plane. *)
Definition packed_stereo : LibAV.AVFrame :=
  {| LibAV.nb_samples := 2;
     LibAV.format := LibAV.AV_SAMPLE_FMT_S16;
     LibAV.data := [[xe8; x03; x18; xfc; xd0; x07; x30; xf8]] |}.

(** The same samples in planar layout: one plane for each channel. *)
Definition planar_stereo : LibAV.AVFrame :=
  {| LibAV.nb_samples := 2;
     LibAV.format := LibAV.AV_SAMPLE_FMT_S16P;
     LibAV.data := [[xe8; x03; xd0; x07]; [x18; xfc; x30; xf8]] |}.

(** A 16-bit sample as [read] stores it. *)
Definition normalized16 (v : Z) : IEEE.float :=
  IEEE.f32_div (IEEE.f32_of_int v) (IEEE.f32_of_int Int.INT16_MAX).

(** A library that opens nothing, finds nothing and delivers nothing. *)
Definition silent : LibAV.Library unit unit :=
  {| LibAV.av_find_input_format := fun _ => None;
     LibAV.avformat_open_input := fun _ _ => None;
     LibAV.avformat_find_stream_info := fun fc => (-1, fc);
     LibAV.avcodec_find_decoder := fun _ => None;
     LibAV.avcodec_open2 := fun ctx _ => (-1, ctx);
     LibAV.av_read_frame := fun fc => (-1, LibAV.blank_packet, fc);
     LibAV.avcodec_decode_audio4 :=
       fun ctx _ => (-1, 0, LibAV.blank_frame, ctx) |}.

(** A demuxer that hands out the packets of a list, then reports the end
    of the file. *)
Definition AVERROR_EOF : Z := -541478725.
Definition AVERROR_INVALIDDATA : Z := -1094995529.

Definition read_queue (fc : LibAV.AVFormatContext (list LibAV.AVPacket) unit)
  : Z * LibAV.AVPacket * LibAV.AVFormatContext (list LibAV.AVPacket) unit :=
  match LibAV.priv_demux fc with
  | [] => (AVERROR_EOF, LibAV.blank_packet, fc)
  | p :: rest =>
      (0, p,
       {| LibAV.streams := LibAV.streams fc;
          LibAV.fc_duration := LibAV.fc_duration fc;
          LibAV.priv_demux := rest |})
  end.

(** What a packet still holds: its bytes from [data] on. *)
Definition payload (p : LibAV.AVPacket) : list byte :=
  match LibAV.buf p with
  | Some b => firstn (Z.to_nat (LibAV.size p)) (skipn (Z.to_nat (LibAV.pos p)) b)
  | None => []
  end.

(** A decoder of raw packed 16-bit stereo: a packet that begins with the
    byte ff is rejected, any other is consumed whole as one frame. *)
Definition decode_raw (ctx : LibAV.AVCodecContext unit) (p : LibAV.AVPacket)
  : Z * Z * LibAV.AVFrame * LibAV.AVCodecContext unit :=
  match payload p with
  | xff :: _ => (AVERROR_INVALIDDATA, 0, LibAV.blank_frame, ctx)
  | bytes =>
      (LibAV.size p, 1,
       {| LibAV.nb_samples := LibAV.size p / 4;
          LibAV.format := LibAV.AV_SAMPLE_FMT_S16;
          LibAV.data := [bytes] |},
       ctx)
  end.

Definition player : LibAV.Library (list LibAV.AVPacket) unit :=
  {| LibAV.av_find_input_format := fun _ => None;
     LibAV.avformat_open_input := fun _ _ => None;
     LibAV.avformat_find_stream_info := fun fc => (0, fc);
     LibAV.avcodec_find_decoder := fun _ => None;
     LibAV.avcodec_open2 := fun ctx _ => (0, ctx);
     LibAV.av_read_frame := read_queue;
     LibAV.avcodec_decode_audio4 := decode_raw |}.

Definition packet_of (index : Z) (bytes : list byte) : LibAV.AVPacket :=
  {| LibAV.buf := Some bytes; LibAV.pos := 0;
     LibAV.size := Z.of_nat (List.length bytes);
     LibAV.stream_index := index |}.

(** A session in the middle of a stream: a corrupt packet is in flight; a
    packet of another stream and a sound packet are to come. *)
Definition playing : AudioFileImpl (list LibAV.AVPacket) unit :=
  set_packet (packet_of 0 [xff; x00; x00; x00]) 0
    (new_AudioFileImpl OK
       (Some (container 125
                [packet_of 1 [x01; x02];
                 packet_of 0 [xe8; x03; x18; xfc; xd0; x07; x30; xf8]]))
       0 "PCM signed 16-bit" 0 44100 16 1 2 eighth).

(** An opened container before it is probed: no stream is known yet. *)
Definition unprobed : LibAV.AVFormatContext unit unit :=
  {| LibAV.streams := []; LibAV.fc_duration := LibAV.AV_NOPTS_VALUE;
     LibAV.priv_demux := tt |}.

Definition pcm_s16le : LibAV.AVCodec :=
  {| LibAV.long_name := "PCM signed 16-bit little-endian" |}.

(** A library in which every source opens, probing answers [probe] and
    finds the streams [found], every codec has the PCM decoder, and the
    decoder opens. *)
Definition recorder (probe : Z) (found : list (LibAV.AVStream unit))
  : LibAV.Library unit unit :=
  {| LibAV.av_find_input_format :=
       fun name => Some {| LibAV.name := name |};
     LibAV.avformat_open_input := fun _ _ => Some unprobed;
     LibAV.avformat_find_stream_info :=
       fun fc =>
         (probe,
          {| LibAV.streams := found;
             LibAV.fc_duration := LibAV.fc_duration fc;
             LibAV.priv_demux := LibAV.priv_demux fc |});
     LibAV.avcodec_find_decoder := fun _ => Some pcm_s16le;
     LibAV.avcodec_open2 := fun ctx _ => (0, ctx);
     LibAV.av_read_frame := fun fc => (AVERROR_EOF, LibAV.blank_packet, fc);
     LibAV.avcodec_decode_audio4 := decode_raw |}.

(** The container that [recorder probe found] leaves after probing. *)
Definition probed (found : list (LibAV.AVStream unit))
  : LibAV.AVFormatContext unit unit :=
  {| LibAV.streams := found; LibAV.fc_duration := LibAV.AV_NOPTS_VALUE;
     LibAV.priv_demux := tt |}.

(** A video stream timed in milliseconds. *)
Definition video_stream : LibAV.AVStream unit :=
  {| LibAV.codec :=
       {| LibAV.codec_type := LibAV.AVMEDIA_TYPE_VIDEO;
          LibAV.codec_id := LibAV.AV_CODEC_ID_other 27;
          LibAV.bit_rate := 0; LibAV.sample_rate := 0;
          LibAV.bits_per_raw_sample := 0; LibAV.bits_per_coded_sample := 0;
          LibAV.channels := 0; LibAV.sample_fmt := LibAV.AV_SAMPLE_FMT_NONE;
          LibAV.priv_data := tt |};
     LibAV.duration := 125;
     LibAV.time_base := milliseconds |}.

(** Video, audio, video, audio. *)
Definition mixed_streams : list (LibAV.AVStream unit) :=
  [video_stream; audio_stream_ms 125; video_stream; audio_stream_ms 125].

(** A session at the end of its stream: nothing in flight, nothing to
    come. *)
Definition finished : AudioFileImpl (list LibAV.AVPacket) unit :=
  new_AudioFileImpl OK (Some (container 125 [packet_of 1 [x01; x02]]))
    0 "PCM signed 16-bit" 0 44100 16 1 2 eighth.

(** A session with a sound packet of two samples in flight. *)
Definition loaded : AudioFileImpl (list LibAV.AVPacket) unit :=
  set_packet (packet_of 0 [xe8; x03; x18; xfc; xd0; x07; x30; xf8]) 0
    (new_AudioFileImpl OK (Some (container 125 []))
       0 "PCM signed 16-bit" 0 44100 16 1 2 eighth).

Definition centiseconds : LibAV.AVRational :=
  {| LibAV.num := 1; LibAV.den := 100 |}.

(** An audio stream timed in hundredths of a second. *)
Definition audio_stream_cs (duration : Z) : LibAV.AVStream unit :=
  {| LibAV.codec :=
       stereo_context (LibAV.AV_CODEC_ID_other 65536) LibAV.AV_SAMPLE_FMT_S16;
     LibAV.duration := duration;
     LibAV.time_base := centiseconds |}.

(** An AAC stream timed in milliseconds. *)
Definition aac_stream (duration : Z) : LibAV.AVStream unit :=
  {| LibAV.codec :=
       stereo_context LibAV.AV_CODEC_ID_AAC LibAV.AV_SAMPLE_FMT_FLTP;
     LibAV.duration := duration;
     LibAV.time_base := milliseconds |}.

(** A time base of three milliseconds, and an audio stream timed in it. *)
Definition three_ms : LibAV.AVRational :=
  {| LibAV.num := 3; LibAV.den := 1000 |}.

Definition audio_stream_3ms (duration : Z) : LibAV.AVStream unit :=
  {| LibAV.codec :=
       stereo_context (LibAV.AV_CODEC_ID_other 65536) LibAV.AV_SAMPLE_FMT_S16;
     LibAV.duration := duration;
     LibAV.time_base := three_ms |}.

(** Three eighths of a second, as a [double]. *)
Definition three_eighths : IEEE.double :=
  IEEE.f64_div (IEEE.f64_of_int 3) (IEEE.f64_of_int 8).

(** A resolved session on a stream of 125 ticks of three milliseconds. *)
Definition session_3ms : AudioFileImpl unit unit :=
  new_AudioFileImpl OK
    (Some {| LibAV.streams := [audio_stream_3ms 125];
             LibAV.fc_duration := LibAV.AV_NOPTS_VALUE;
             LibAV.priv_demux := tt |})
    0 "PCM signed 16-bit" 0 44100 16 1 2 three_eighths.

(** A time base of 2^-30 seconds, and an audio stream timed in it. *)
Definition fine_ticks : LibAV.AVRational :=
  {| LibAV.num := 1; LibAV.den := 1073741824 |}.

Definition audio_stream_fine (duration : Z) : LibAV.AVStream unit :=
  {| LibAV.codec :=
       stereo_context (LibAV.AV_CODEC_ID_other 65536) LibAV.AV_SAMPLE_FMT_S16;
     LibAV.duration := duration;
     LibAV.time_base := fine_ticks |}.

End Example.

(** * Properties *)

(** ** Arithmetic of the embedding *)

Lemma wrap64_small (x : Z) :
  Int.is_int64 x -> Int.wrap64 x = x.
Proof.
  unfold Int.is_int64, Int.INT64_MIN, Int.INT64_MAX, Int.wrap64, Int.wrap.
  intros H. rewrite Z.mod_small; lia.
Qed.

Lemma rem64_nonneg (a b : Z) :
  0 <= a -> 0 < b -> Int.rem64 a b = Some (a mod b).
Proof.
  intros Ha Hb. unfold Int.rem64.
  replace (b =? 0) with false by (symmetry; apply Z.eqb_neq; lia).
  replace (b =? -1) with false by (symmetry; apply Z.eqb_neq; lia).
  rewrite andb_false_r. cbn [orb].
  now rewrite Z.rem_mod_nonneg.
Qed.

Lemma av_rescale_rnd_down (a b c : Z) :
  0 <= a -> 0 <= b -> 0 < c -> a * b / c <= Int.INT64_MAX ->
  LibAV.av_rescale_rnd a b c LibAV.AV_ROUND_DOWN = a * b / c.
Proof.
  intros Ha Hb Hc Hfit. unfold LibAV.av_rescale_rnd, LibAV.div_rnd.
  replace (c <=? 0) with false by (symmetry; apply Z.leb_gt; lia).
  replace (b <? 0) with false by (symmetry; apply Z.ltb_ge; lia).
  cbn [orb]. unfold Int.INT64_MAX in *.
  rewrite Z.max_l by lia.
  assert (0 <= a * b / c) by (apply Z.div_pos; nia).
  rewrite (proj2 (Z.leb_le _ _)) by lia.
  rewrite (proj2 (Z.leb_le _ _)) by lia.
  reflexivity.
Qed.

(** The frames consumed over [n] intervals: [n] times the floor, plus one
    for each time the accumulated error passed [base]. *)
Lemma interval_frames_sum (n : nat) (fpi epi base : Z) :
  0 <= epi < base ->
  forall acc, 0 <= acc < base ->
  sum_frames (interval_frames n fpi epi base acc)
  = Z.of_nat n * fpi + (acc + Z.of_nat n * epi) / base.
Proof.
  intros Hepi. induction n as [|n IH]; intros acc Hacc.
  - cbn. rewrite Z.add_0_r, Z.div_small; lia.
  - cbn [interval_frames]. rewrite Nat2Z.inj_succ.
    destruct (Z.leb_spec base (acc + epi)) as [Hge|Hlt];
      cbn [sum_frames fold_right]; fold (sum_frames
        (interval_frames n fpi epi base (acc + epi - base)));
      fold (sum_frames (interval_frames n fpi epi base (acc + epi))).
    + rewrite IH by lia.
      replace (acc + Z.succ (Z.of_nat n) * epi)
        with (acc + epi - base + Z.of_nat n * epi + 1 * base) by lia.
      rewrite Z.div_add by lia. lia.
    + rewrite IH by lia.
      replace (acc + Z.succ (Z.of_nat n) * epi)
        with (acc + epi + Z.of_nat n * epi) by lia.
      lia.
Qed.

(** No interval differs from the floor by more than one frame. *)
Lemma interval_frames_range (n : nat) (fpi epi base : Z) :
  forall acc x, In x (interval_frames n fpi epi base acc) ->
  x = fpi \/ x = fpi + 1.
Proof.
  induction n as [|n IH]; intros acc x; cbn [interval_frames].
  - intros [].
  - destruct (base <=? acc + epi); intros [<-|Hin]; eauto.
Qed.

(** Splitting a total over [n] intervals of [d] ticks each. *)
Lemma split_total (total n d : Z) :
  0 < n -> 0 < d ->
  n * (total / (n * d)) + n * (total mod (n * d)) / (n * d) = total / d.
Proof.
  intros Hn Hd.
  assert (Hnd : 0 < n * d) by nia.
  rewrite <- (Z.div_mul_cancel_l total d n) by lia.
  rewrite (Z.div_mod total (n * d)) at 3 by lia.
  replace (n * (n * d * (total / (n * d)) + total mod (n * d)))
    with (n * (total mod (n * d)) + n * (total / (n * d)) * (n * d)) by ring.
  rewrite Z.div_add by lia. lia.
Qed.

Section StartProperties.

Context {Demuxer Decoder : Type}.

Implicit Types s : AudioFileImpl Demuxer Decoder.

(** What [start] computes on a session with a selected stream, for values in
    the range of their types and a tick count that [int64_t] can multiply
    by the rate. *)
Lemma start_plan (ndebug : bool) s (st : LibAV.AVStream Decoder)
  (channel samples : Z) :
  session_stream s = Some st ->
  ndebug = true \/ 0 <= channel < channels s ->
  0 <= sample_rate s <= Int.INT32_MAX ->
  0 < LibAV.num (LibAV.time_base st) <= Int.INT32_MAX ->
  0 < LibAV.den (LibAV.time_base st) <= Int.INT32_MAX ->
  1 <= samples <= Int.INT32_MAX ->
  0 <= duration_ticks (duration s) (LibAV.time_base st) ->
  duration_ticks (duration s) (LibAV.time_base st)
    * (sample_rate s * LibAV.num (LibAV.time_base st)) <= Int.INT64_MAX ->
  exists s',
    start ndebug s channel samples = Done s' /\
    error_base s' = samples * LibAV.den (LibAV.time_base st) /\
    frames_per_interval s'
    = duration_ticks (duration s) (LibAV.time_base st)
      * (sample_rate s * LibAV.num (LibAV.time_base st))
      / (samples * LibAV.den (LibAV.time_base st)) /\
    error_per_interval s'
    = (duration_ticks (duration s) (LibAV.time_base st)
       * (sample_rate s * LibAV.num (LibAV.time_base st)))
      mod (samples * LibAV.den (LibAV.time_base st)).
Proof.
  intros Hst Hch Hrate Hnum Hden Hn Hticks Hfit.
  set (tb := LibAV.time_base st) in *.
  set (ticks := duration_ticks (duration s) tb) in *.
  unfold Int.INT32_MAX, Int.INT64_MAX in *.
  assert (Hr : Int.wrap64 (sample_rate s * LibAV.num tb)
               = sample_rate s * LibAV.num tb).
  { apply wrap64_small. unfold Int.is_int64, Int.INT64_MIN, Int.INT64_MAX.
    nia. }
  assert (Hb : Int.wrap64 (samples * LibAV.den tb) = samples * LibAV.den tb).
  { apply wrap64_small. unfold Int.is_int64, Int.INT64_MIN, Int.INT64_MAX.
    nia. }
  assert (Hp : Int.wrap64 (ticks * (sample_rate s * LibAV.num tb))
               = ticks * (sample_rate s * LibAV.num tb)).
  { apply wrap64_small. unfold Int.is_int64, Int.INT64_MIN, Int.INT64_MAX.
    nia. }
  assert (Hbase : 0 < samples * LibAV.den tb) by nia.
  assert (Hprod : 0 <= ticks * (sample_rate s * LibAV.num tb)) by nia.
  unfold start.
  set (misuse := (channel <? 0) || (channels (set_channel channel s) <=? channel)).
  assert (Hgo : misuse && negb ndebug = false).
  { destruct Hch as [->|Hch]; [apply andb_false_r|].
    subst misuse. cbn [channels set_channel].
    replace (channel <? 0) with false by (symmetry; apply Z.ltb_ge; lia).
    replace (channels s <=? channel) with false
      by (symmetry; apply Z.leb_gt; lia).
    reflexivity. }
  rewrite Hgo.
  assert (Hst' : session_stream
                   (if misuse then set_error NO_CHANNELS (set_channel channel s)
                    else set_channel channel s) = Some st)
    by (destruct misuse; exact Hst).
  rewrite Hst'. fold tb.
  replace (sample_rate (if misuse then set_error NO_CHANNELS (set_channel channel s)
                        else set_channel channel s)) with (sample_rate s)
    by (destruct misuse; reflexivity).
  replace (duration (if misuse then set_error NO_CHANNELS (set_channel channel s)
                     else set_channel channel s)) with (duration s)
    by (destruct misuse; reflexivity).
  fold ticks. rewrite Hr, Hb, Hp.
  rewrite rem64_nonneg by assumption.
  eexists. split; [reflexivity|].
  cbn [error_base frames_per_interval error_per_interval set_plan].
  split; [reflexivity|]. split; [|reflexivity].
  apply av_rescale_rnd_down; try lia.
  unfold Int.INT64_MAX.
  apply Z.le_trans with (ticks * (sample_rate s * LibAV.num tb)); [|lia].
  apply Z.div_le_upper_bound; nia.
Qed.

(** X14. The plan of [start] loses nothing of the tick count that [start]
    itself derives from the duration (the cast of
    [duration * den / num] to [int64_t]): the frame counts of the intervals,
    each the floor [frames_per_interval] plus the extra frame that the error
    accumulation grants, add up to the floor of that tick count times
    [rate] over the denominator of the time base.  This holds on a session
    with a selected stream, for values in the range of their C++ types, a
    duration that is not negative, and a product of tick count and rate
    that fits [int64_t], in which the code forms it. *)
Theorem interval_plan_sums_to_total (ndebug : bool) s
  (st : LibAV.AVStream Decoder) (channel samples : Z) :
  session_stream s = Some st ->
  ndebug = true \/ 0 <= channel < channels s ->
  0 <= sample_rate s <= Int.INT32_MAX ->
  0 < LibAV.num (LibAV.time_base st) <= Int.INT32_MAX ->
  0 < LibAV.den (LibAV.time_base st) <= Int.INT32_MAX ->
  1 <= samples <= Int.INT32_MAX ->
  0 <= duration_ticks (duration s) (LibAV.time_base st) ->
  duration_ticks (duration s) (LibAV.time_base st)
    * (sample_rate s * LibAV.num (LibAV.time_base st)) <= Int.INT64_MAX ->
  exists s',
    start ndebug s channel samples = Done s' /\
    error_base s' = samples * LibAV.den (LibAV.time_base st) /\
    frames_per_interval s'
    = duration_ticks (duration s) (LibAV.time_base st)
      * (sample_rate s * LibAV.num (LibAV.time_base st))
      / error_base s' /\
    error_per_interval s'
    = (duration_ticks (duration s) (LibAV.time_base st)
       * (sample_rate s * LibAV.num (LibAV.time_base st)))
      mod error_base s' /\
    planned_frames s' samples
    = duration_ticks (duration s) (LibAV.time_base st)
      * (sample_rate s * LibAV.num (LibAV.time_base st))
      / LibAV.den (LibAV.time_base st).
Proof.
  intros Hst Hch Hrate Hnum Hden Hn Hticks Hfit.
  destruct (start_plan ndebug s st channel samples Hst Hch Hrate Hnum Hden Hn
              Hticks Hfit) as (s' & Hrun & Hbase & Hfpi & Hepi).
  exists s'. rewrite Hbase. repeat split; try assumption.
  unfold planned_frames. rewrite Hbase, Hfpi, Hepi.
  set (total := duration_ticks (duration s) (LibAV.time_base st)
                * (sample_rate s * LibAV.num (LibAV.time_base st))).
  set (d := LibAV.den (LibAV.time_base st)) in *.
  assert (Hnd : 0 < samples * d) by nia.
  rewrite interval_frames_sum
    by (try apply Z.mod_pos_bound; lia).
  rewrite Z2Nat.id by lia. rewrite Z.add_0_l.
  apply split_total; lia.
Qed.

(** C3. With a single interval, on a session whose tick count comes out of
    the cast in [start] as [durationTicks], the rounded
    [durationSeconds * timeBaseDen / timeBaseNum]: [framesPerInterval] is
    the total frame count [floor (durationTicks * rate / timeBaseDen)], and
    [errorPerInterval] is the remainder of that division: it is below
    [errorBase], so the one interval gets no extra frame, and it is 0
    exactly when [timeBaseDen] divides [durationTicks * rate]. *)
Theorem single_interval_plan (ndebug : bool) s
  (st : LibAV.AVStream Decoder) (channel durationTicks : Z) :
  session_stream s = Some st ->
  ndebug = true \/ 0 <= channel < channels s ->
  0 <= sample_rate s <= Int.INT32_MAX ->
  0 < LibAV.num (LibAV.time_base st) <= Int.INT32_MAX ->
  0 < LibAV.den (LibAV.time_base st) <= Int.INT32_MAX ->
  spec_duration_ticks (duration s) (LibAV.time_base st)
  = Some durationTicks ->
  duration_ticks (duration s) (LibAV.time_base st) = durationTicks ->
  0 <= durationTicks ->
  durationTicks * (sample_rate s * LibAV.num (LibAV.time_base st))
    <= Int.INT64_MAX ->
  exists s',
    start ndebug s channel 1 = Done s' /\
    frames_per_interval s'
    = durationTicks * (sample_rate s * LibAV.num (LibAV.time_base st))
      / LibAV.den (LibAV.time_base st) /\
    error_per_interval s'
    = (durationTicks * (sample_rate s * LibAV.num (LibAV.time_base st)))
      mod LibAV.den (LibAV.time_base st) /\
    0 <= error_per_interval s' < error_base s' /\
    (error_per_interval s' = 0 <->
     (LibAV.den (LibAV.time_base st)
      | durationTicks * (sample_rate s * LibAV.num (LibAV.time_base st)))) /\
    planned_frames s' 1 = frames_per_interval s'.
Proof.
  intros Hst Hch Hrate Hnum Hden _ Hcast Hticks Hfit.
  assert (Hone : 1 <= 1 <= Int.INT32_MAX) by (unfold Int.INT32_MAX; lia).
  rewrite <- Hcast in Hticks, Hfit.
  destruct (start_plan ndebug s st channel 1 Hst Hch Hrate Hnum Hden Hone
              Hticks Hfit) as (s' & Hrun & Hbase & Hfpi & Hepi).
  rewrite Z.mul_1_l in Hbase, Hfpi, Hepi.
  rewrite Hcast in Hfpi, Hepi.
  set (total := durationTicks
                * (sample_rate s * LibAV.num (LibAV.time_base st))) in *.
  set (d := LibAV.den (LibAV.time_base st)) in *.
  assert (Hbound : 0 <= total mod d < d) by (apply Z.mod_pos_bound; lia).
  exists s'. split; [exact Hrun|]. split; [exact Hfpi|].
  split; [exact Hepi|]. split; [rewrite Hepi, Hbase; exact Hbound|].
  split.
  - rewrite Hepi. apply Z.mod_divide. lia.
  - unfold planned_frames. rewrite Hbase, Hepi.
    change (Z.to_nat 1) with 1%nat. cbn [interval_frames].
    rewrite Z.add_0_l.
    destruct (Z.leb_spec d (total mod d)) as [Hge|Hlt]; [lia|].
    cbn. lia.
Qed.

End StartProperties.

(** A stream of 125 ticks of three milliseconds, in three intervals. *)
Lemma interval_plan_sums_to_total_witness :
  exists s',
    start true Example.session_3ms 0 3 = Done s' /\
    error_base s' = 3000 /\
    frames_per_interval s' = 5512 /\
    error_per_interval s' = 1500 /\
    planned_frames s' 3 = 16537.
Proof.
  destruct (interval_plan_sums_to_total true Example.session_3ms
              (Example.audio_stream_3ms 125) 0 3)
    as (s' & Hrun & Hbase & Hfpi & Hepi & Hsum).
  - reflexivity.
  - left. reflexivity.
  - vm_compute. split; discriminate.
  - vm_compute. split; [reflexivity | discriminate].
  - vm_compute. split; [reflexivity | discriminate].
  - vm_compute. split; discriminate.
  - vm_compute. discriminate.
  - vm_compute. discriminate.
  - exists s'. rewrite Hfpi, Hepi, Hsum, Hbase.
    repeat split; try exact Hrun; vm_compute; reflexivity.
Defined.

(** C1. The statement is that the frame counts of the intervals of the plan
    add up to [floor (durationTicks * rate / timeBaseDen)], where
    [durationTicks] is the rounded [durationSeconds * den / num].  [start]
    casts that quotient to [int64_t], which cuts the fraction off, and takes
    the remainder of a product formed in [int64_t].  A stream of 29
    hundredths of a second sampled at 44100 Hz is resolved to a duration of
    0.29 seconds, from which [start] derives 28 ticks, not 29: the seven
    intervals of its plan add up to 12348 frames, not to 12789.  A stream of
    2^48 ticks of 2^-30 seconds, all values in range: the product of tick
    count and rate wraps around, the remainder comes out negative, and the
    eleven intervals of the plan add up to three frames less than the
    total. *)
Theorem interval_plan_loses_frames :
  (exists s log s',
     open (Example.recorder 0 [Example.audio_stream_cs 29]) "song.wav" "" 0
     = Done (s, log) /\
     error s = OK /\
     session_stream s = Some (Example.audio_stream_cs 29) /\
     sample_rate s = 44100 /\
     spec_duration_ticks (duration s) Example.centiseconds = Some 29 /\
     duration_ticks (duration s) Example.centiseconds = 28 /\
     (forall ndebug, start ndebug s 0 7 = Done s') /\
     frames_per_interval s' = 1764 /\
     error_per_interval s' = 0 /\
     error_base s' = 700 /\
     planned_frames s' 7 = 12348 /\
     29 * (44100 * 1) / 100 = 12789) /\
  (exists s log s',
     open (Example.recorder 0 [Example.audio_stream_fine (2 ^ 48)])
       "song.wav" "" 0
     = Done (s, log) /\
     error s = OK /\
     session_stream s = Some (Example.audio_stream_fine (2 ^ 48)) /\
     sample_rate s = 44100 /\
     spec_duration_ticks (duration s) Example.fine_ticks = Some (2 ^ 48) /\
     duration_ticks (duration s) Example.fine_ticks = 2 ^ 48 /\
     Int.INT64_MAX < 2 ^ 48 * (44100 * 1) /\
     (forall ndebug, start ndebug s 0 11 = Done s') /\
     frames_per_interval s' = 2 ^ 48 * (44100 * 1) / (11 * 2 ^ 30) /\
     error_per_interval s' = - 2147483648 /\
     (2 ^ 48 * (44100 * 1)) mod (11 * 2 ^ 30) = 3221225472 /\
     error_base s' = 11 * 2 ^ 30 /\
     planned_frames s' 11 = 11560550397 /\
     2 ^ 48 * (44100 * 1) / 2 ^ 30 = 11560550400).
Proof.
  split.
  - eexists. eexists. eexists.
    split; [vm_compute; reflexivity|].
    split; [reflexivity|]. split; [reflexivity|]. split; [reflexivity|].
    split; [vm_compute; reflexivity|]. split; [vm_compute; reflexivity|].
    split; [intros []; vm_compute; reflexivity|].
    repeat split; vm_compute; reflexivity.
  - eexists. eexists. eexists.
    split; [vm_compute; reflexivity|].
    split; [reflexivity|]. split; [reflexivity|]. split; [reflexivity|].
    split; [vm_compute; reflexivity|]. split; [vm_compute; reflexivity|].
    split; [vm_compute; reflexivity|].
    split; [intros []; vm_compute; reflexivity|].
    repeat split; vm_compute; reflexivity.
Qed.

(** A stereo stream of 125 ms timed in milliseconds and sampled at 44.1 kHz
    holds 5512.5 frames: planned as one interval, the remainder is 500
    thousandths of a frame, not 0.  The cast of [start] loses no tick
    here. *)
Lemma single_interval_error_nonzero :
  spec_duration_ticks (duration Example.session) Example.milliseconds
  = Some 125 /\
  duration_ticks (duration Example.session) Example.milliseconds = 125 /\
  exists s',
    start true Example.session 0 1 = Done s' /\
    frames_per_interval s' = 5512 /\
    error_per_interval s' = 500 /\
    error_per_interval s' <> 0.
Proof.
  split; [vm_compute; reflexivity|]. split; [vm_compute; reflexivity|].
  eexists. split; [vm_compute; reflexivity|].
  repeat split; try (vm_compute; reflexivity).
  vm_compute. discriminate.
Qed.

(** A stream of 125 ticks of three milliseconds holds 16537.5 frames. *)
Lemma single_interval_plan_witness :
  exists s',
    start true Example.session_3ms 0 1 = Done s' /\
    frames_per_interval s' = 16537 /\
    error_per_interval s' = 500 /\
    planned_frames s' 1 = 16537.
Proof.
  destruct (single_interval_plan true Example.session_3ms
              (Example.audio_stream_3ms 125) 0 125)
    as (s' & Hrun & Hfpi & Hepi & _ & _ & Hsum).
  - reflexivity.
  - left. reflexivity.
  - vm_compute. split; discriminate.
  - vm_compute. split; [reflexivity | discriminate].
  - vm_compute. split; [reflexivity | discriminate].
  - vm_compute. reflexivity.
  - vm_compute. reflexivity.
  - lia.
  - vm_compute. discriminate.
  - exists s'. rewrite Hsum, Hfpi, Hepi.
    repeat split; try exact Hrun; vm_compute; reflexivity.
Defined.

(** ** The sample loop *)

(** In planar layout the sample loop reads the plane of the selected
    channel at the sample index. *)
Lemma planar_sample_source (channel channels sample : Z) :
  sample_source true channel channels sample = (channel, sample).
Proof. reflexivity. Qed.

(** In packed layout it reads the one plane at [sample * channels],
    whatever the selected channel. *)
Lemma packed_sample_source (channel channels sample : Z) :
  sample_source false channel channels sample
  = (0, Int.wrap32 (sample * channels)).
Proof. reflexivity. Qed.

(** The bit patterns of 1.0 as [float] and as [double], and the narrowing
    of 1.0. *)
Example float_one_of_bits :
  IEEE.f32_of_bits 1065353216 = IEEE.f32_of_int 1 /\
  IEEE.f64_of_bits 4607182418800017408 = IEEE.f64_of_int 1 /\
  IEEE.f32_of_f64 (IEEE.f64_of_int 1) = IEEE.f32_of_int 1.
Proof. repeat split; vm_compute; reflexivity. Qed.

(** The largest 16-bit sample, stored as the bytes ff 7f, is normalized
    to 1.0; [INT32_MAX] becomes 2^31 as a [float], so the largest 32-bit
    sample is normalized to 1.0 as well. *)
Example full_scale_samples :
  sample_value LibAV.AV_SAMPLE_FMT_S16 [xff; x7f] 0 = IEEE.f32_of_int 1 /\
  IEEE.f32_of_int Int.INT32_MAX = IEEE.f32_of_int (2 ^ 31) /\
  sample_value LibAV.AV_SAMPLE_FMT_S32 [xff; xff; xff; x7f] 0
  = IEEE.f32_of_int 1.
Proof. repeat split; vm_compute; reflexivity. Qed.

(** C2. The source offset of a sample: in planar layout the plane of the
    selected channel at [sample]; in packed layout the statement is that the
    single plane is read at [sample * channelCount + channel], but the code
    reads it at [sample * channelCount].  On a packed stereo frame with
    channel 1 selected, the reader stores the samples of channel 0. *)
Theorem packed_read_ignores_channel :
  sample_source true 1 2 1 = (1, 1) /\
  sample_source false 1 2 1 = (0, 2) /\
  sample_source false 1 2 1 <> (0, 1 * 2 + 1) /\
  map (frame_sample Example.planar_stereo 1 2) (sample_indices 2)
  = map Example.normalized16 [-1000; -2000] /\
  map (frame_sample Example.packed_stereo 1 2) (sample_indices 2)
  = map Example.normalized16 [1000; 2000] /\
  map (load_int16 (plane Example.packed_stereo 0)) [1 * 0 + 1; 1 * 2 + 1]
  = [-1000; -2000] /\
  buffer (store_frame
            (set_decoded (Example.container 125 tt) Example.packed_stereo
               (set_channel 1 Example.session)))
  = map Example.normalized16 [1000; 2000].
Proof.
  repeat split; try (vm_compute; reflexivity).
  vm_compute. discriminate.
Qed.

(** The bytes that a load reads. *)
Lemma skipn_cons_nth {A : Type} (k : nat) : forall (l : list A) x rest d,
  skipn k l = x :: rest -> nth k l d = x /\ skipn (S k) l = rest.
Proof.
  induction k as [|k IH]; intros l x rest d H.
  - cbn in H. subst l. split; reflexivity.
  - destruct l as [|y l]; [discriminate H|].
    cbn [skipn] in H. destruct (IH l x rest d H) as [Hn Hs].
    split; [exact Hn | exact Hs].
Qed.

Lemma bytes_at_cons (data : list byte) (addr : Z) (b : byte)
  (bs : list byte) :
  bytes_at data addr (b :: bs) ->
  byte_at data addr = Z.of_N (Byte.to_N b) /\ bytes_at data (addr + 1) bs.
Proof.
  intros [Hpos H]. cbn [List.length firstn] in H.
  destruct (skipn (Z.to_nat addr) data) as [|x rest] eqn:Hskip;
    [discriminate H|].
  injection H as -> Hrest.
  destruct (skipn_cons_nth _ _ _ _ Byte.x00 Hskip) as [Hnth Hnext].
  split.
  - unfold byte_at.
    replace (addr <? 0) with false by (symmetry; apply Z.ltb_ge; exact Hpos).
    rewrite Hnth. reflexivity.
  - split; [lia|].
    replace (Z.to_nat (addr + 1)) with (S (Z.to_nat addr)) by lia.
    rewrite Hnext. exact Hrest.
Qed.

Lemma load_le_bytes (bs : list byte) : forall (data : list byte) (addr : Z),
  bytes_at data addr bs -> load_le data addr (List.length bs) = le_value bs.
Proof.
  induction bs as [|b bs IH]; intros data addr H.
  - reflexivity.
  - destruct (bytes_at_cons _ _ _ _ H) as [Hb Hrest].
    cbn [List.length load_le le_value fold_right].
    rewrite Hb, (IH _ _ Hrest). reflexivity.
Qed.

Lemma byte_range (b : byte) : 0 <= Z.of_N (Byte.to_N b) < 256.
Proof.
  pose proof (Byte.to_N_bounded b). lia.
Qed.

(** The wrap-around of the embedding on a bit pattern is the signed value
    of that pattern. *)
Lemma wrap_twos_complement (w u : Z) :
  0 < w -> 0 <= u < 2 ^ w -> Int.wrap w u = twos_complement w u.
Proof.
  intros Hw Hu. unfold Int.wrap, twos_complement.
  assert (Hp : 2 ^ w = 2 * 2 ^ (w - 1)).
  { rewrite <- Z.pow_succ_r by lia. f_equal. lia. }
  assert (Hh : 0 < 2 ^ (w - 1)) by (apply Z.pow_pos_nonneg; lia).
  destruct (Z.ltb_spec u (2 ^ (w - 1))) as [Hlt|Hge].
  - rewrite Z.mod_small; lia.
  - replace (u + 2 ^ (w - 1)) with (u - 2 ^ (w - 1) + 1 * 2 ^ w) by lia.
    rewrite Z.mod_add by lia. rewrite Z.mod_small; lia.
Qed.

(** The masks and shifts of [of_bits] take a word apart into the fields of
    its format. *)
Lemma of_bits_fields (mw ew : Z) (sign : bool) (E F : Z) :
  0 < mw -> 0 < ew -> 0 <= E < 2 ^ ew -> 0 <= F < 2 ^ mw ->
  IEEE.of_bits mw ew (ieee_word mw ew sign E F) = ieee_value mw ew sign E F.
Proof.
  intros Hmw Hew HE HF.
  set (S := if sign then 1 else 0).
  assert (Hpm : 0 < 2 ^ mw) by (apply Z.pow_pos_nonneg; lia).
  assert (Hpe : 0 < 2 ^ ew) by (apply Z.pow_pos_nonneg; lia).
  assert (Hword : ieee_word mw ew sign E F
                  = F + (E + S * 2 ^ ew) * 2 ^ mw).
  { unfold ieee_word, S. rewrite Z.pow_add_r by lia.
    destruct sign; ring. }
  assert (Hm : Z.land (ieee_word mw ew sign E F) (2 ^ mw - 1) = F).
  { rewrite Z.sub_1_r, <- Z.ones_equiv, Z.land_ones by lia.
    rewrite Hword, Z.mod_add by lia. apply Z.mod_small. exact HF. }
  assert (He : Z.land (Z.shiftr (ieee_word mw ew sign E F) mw) (2 ^ ew - 1)
               = E).
  { rewrite Z.sub_1_r, <- Z.ones_equiv, Z.land_ones by lia.
    rewrite Z.shiftr_div_pow2 by lia.
    rewrite Hword, Z.div_add by lia. rewrite (Z.div_small F) by exact HF.
    rewrite Z.add_0_l, Z.mod_add by lia. apply Z.mod_small. exact HE. }
  assert (Hs : Z.testbit (ieee_word mw ew sign E F) (mw + ew) = sign).
  { rewrite Z.testbit_odd, Z.shiftr_div_pow2 by lia.
    replace (ieee_word mw ew sign E F)
      with (E * 2 ^ mw + F + S * 2 ^ (mw + ew))
      by (unfold ieee_word, S; destruct sign; ring).
    rewrite Z.div_add by (apply Z.pow_nonzero; lia).
    rewrite Z.div_small by (rewrite Z.pow_add_r by lia; nia).
    unfold S. destruct sign; reflexivity. }
  unfold IEEE.of_bits. cbv zeta. rewrite Hs, He, Hm. unfold ieee_value.
  destruct (E =? 0).
  - destruct F as [|p|p]; [reflexivity | | lia].
    cbn [Z.eqb Z.to_pos]. f_equal. lia.
  - destruct (E =? 2 ^ ew - 1); [reflexivity|].
    destruct (F + 2 ^ mw) as [|p|p] eqn:Hsum; [lia | | lia].
    rewrite Z.add_comm, Hsum. cbn [Z.to_pos]. f_equal. lia.
Qed.

(** The signed integer that an integer load reads. *)
Lemma load_int16_bytes (data : list byte) (offset : Z) (b0 b1 : byte) :
  bytes_at data (2 * offset) [b0; b1] ->
  load_int16 data offset = twos_complement 16 (le_value [b0; b1]).
Proof.
  intros H. unfold load_int16, Int.wrap16.
  pose proof (load_le_bytes [b0; b1] data (2 * offset) H) as Hload.
  cbn [List.length] in Hload. rewrite Hload.
  apply wrap_twos_complement; [lia|].
  cbn [le_value fold_right].
  pose proof (byte_range b0). pose proof (byte_range b1).
  change (2 ^ 16) with 65536. lia.
Qed.

Lemma load_int32_bytes (data : list byte) (offset : Z)
  (b0 b1 b2 b3 : byte) :
  bytes_at data (4 * offset) [b0; b1; b2; b3] ->
  load_int32 data offset = twos_complement 32 (le_value [b0; b1; b2; b3]).
Proof.
  intros H. unfold load_int32, Int.wrap32.
  pose proof (load_le_bytes [b0; b1; b2; b3] data (4 * offset) H) as Hload.
  cbn [List.length] in Hload. rewrite Hload.
  apply wrap_twos_complement; [lia|].
  cbn [le_value fold_right].
  pose proof (byte_range b0). pose proof (byte_range b1).
  pose proof (byte_range b2). pose proof (byte_range b3).
  change (2 ^ 32) with 4294967296. lia.
Qed.

(** C8. The sample normalizer is a function of the storage format and of
    the bytes of the raw sample alone.  A signed 16-bit sample, the two's
    complement number in its two bytes, is converted to [float] and divided
    by 32767 as a [float]; a signed 32-bit sample, in four bytes, is
    converted to [float] and divided by 2147483647 as a [float]; both
    quotients are the correctly rounded division of IEEE 754 binary32.  A
    [float] sample is the binary32 value of the word in its four bytes,
    unchanged.  A [double] sample is the binary64 value of the word in its
    eight bytes, rounded to binary32.  Any format other than the eight
    gives 0.0. *)
Theorem sample_value_by_format (data : list byte) (offset : Z) :
  (forall fmt b0 b1,
     fmt = LibAV.AV_SAMPLE_FMT_S16 \/ fmt = LibAV.AV_SAMPLE_FMT_S16P ->
     bytes_at data (2 * offset) [b0; b1] ->
     sample_value fmt data offset
     = SFdiv 24 128
         (binary_normalize 24 128
            (twos_complement 16 (le_value [b0; b1])) 0 false)
         (binary_normalize 24 128 32767 0 false)) /\
  (forall fmt b0 b1 b2 b3,
     fmt = LibAV.AV_SAMPLE_FMT_S32 \/ fmt = LibAV.AV_SAMPLE_FMT_S32P ->
     bytes_at data (4 * offset) [b0; b1; b2; b3] ->
     sample_value fmt data offset
     = SFdiv 24 128
         (binary_normalize 24 128
            (twos_complement 32 (le_value [b0; b1; b2; b3])) 0 false)
         (binary_normalize 24 128 2147483647 0 false)) /\
  (forall fmt b0 b1 b2 b3 sign E F,
     fmt = LibAV.AV_SAMPLE_FMT_FLT \/ fmt = LibAV.AV_SAMPLE_FMT_FLTP ->
     bytes_at data (4 * offset) [b0; b1; b2; b3] ->
     le_value [b0; b1; b2; b3] = ieee_word 23 8 sign E F ->
     0 <= E < 2 ^ 8 -> 0 <= F < 2 ^ 23 ->
     sample_value fmt data offset = ieee_value 23 8 sign E F) /\
  (forall fmt b0 b1 b2 b3 b4 b5 b6 b7 sign E F,
     fmt = LibAV.AV_SAMPLE_FMT_DBL \/ fmt = LibAV.AV_SAMPLE_FMT_DBLP ->
     bytes_at data (8 * offset) [b0; b1; b2; b3; b4; b5; b6; b7] ->
     le_value [b0; b1; b2; b3; b4; b5; b6; b7] = ieee_word 52 11 sign E F ->
     0 <= E < 2 ^ 11 -> 0 <= F < 2 ^ 52 ->
     sample_value fmt data offset
     = match ieee_value 52 11 sign E F with
       | S754_finite s m e => binary_round 24 128 s m e
       | x => x
       end) /\
  (forall fmt,
     fmt <> LibAV.AV_SAMPLE_FMT_S16 -> fmt <> LibAV.AV_SAMPLE_FMT_S16P ->
     fmt <> LibAV.AV_SAMPLE_FMT_S32 -> fmt <> LibAV.AV_SAMPLE_FMT_S32P ->
     fmt <> LibAV.AV_SAMPLE_FMT_FLT -> fmt <> LibAV.AV_SAMPLE_FMT_FLTP ->
     fmt <> LibAV.AV_SAMPLE_FMT_DBL -> fmt <> LibAV.AV_SAMPLE_FMT_DBLP ->
     sample_value fmt data offset = S754_zero false).
Proof.
  split; [|split; [|split; [|split]]].
  - intros fmt b0 b1 Hfmt H.
    rewrite <- (load_int16_bytes _ _ _ _ H).
    destruct Hfmt as [-> | ->]; reflexivity.
  - intros fmt b0 b1 b2 b3 Hfmt H.
    rewrite <- (load_int32_bytes _ _ _ _ _ _ H).
    destruct Hfmt as [-> | ->]; reflexivity.
  - intros fmt b0 b1 b2 b3 sign E F Hfmt H Hword HE HF.
    pose proof (load_le_bytes [b0; b1; b2; b3] _ _ H) as Hload.
    cbn [List.length] in Hload.
    rewrite <- (of_bits_fields 23 8 sign E F) by lia.
    rewrite <- Hword, <- Hload.
    destruct Hfmt as [-> | ->]; reflexivity.
  - intros fmt b0 b1 b2 b3 b4 b5 b6 b7 sign E F Hfmt H Hword HE HF.
    pose proof (load_le_bytes [b0; b1; b2; b3; b4; b5; b6; b7] _ _ H)
      as Hload.
    cbn [List.length] in Hload.
    rewrite <- (of_bits_fields 52 11 sign E F) by lia.
    rewrite <- Hword, <- Hload.
    destruct Hfmt as [-> | ->];
      unfold sample_value, IEEE.f32_of_f64, load_double, IEEE.f64_of_bits;
      destruct (IEEE.of_bits 52 11 (load_le data (8 * offset) 8));
      reflexivity.
  - intros fmt H1 H2 H3 H4 H5 H6 H7 H8.
    destruct fmt; try reflexivity; congruence.
Qed.

(** Samples of each format: half of full scale and the smallest step in
    16 bits, with the test that the stored [float] is within half a unit in
    the last place of the exact quotient; a 32-bit sample that [float]
    cannot hold exactly; -0.5, the smallest subnormal and infinity as
    [float]; 0.1 and a value beyond the range of [float] as [double]; an
    unsigned 8-bit format. *)
Lemma sample_value_by_format_witness :
  sample_value LibAV.AV_SAMPLE_FMT_S16 [x00; x40] 0
  = S754_finite false 8388864 (-24) /\
  2 * Z.abs (8388864 * 32767 - 16384 * 2 ^ 24) <= 32767 /\
  sample_value LibAV.AV_SAMPLE_FMT_S16 [xff; x7f; x01; x00] 1
  = S754_finite false 8388864 (-38) /\
  2 * Z.abs (8388864 * 32767 - 1 * 2 ^ 38) <= 32767 /\
  sample_value LibAV.AV_SAMPLE_FMT_S16P [x00; x80] 0
  = S754_finite true 8388864 (-23) /\
  2 * Z.abs (8388864 * 32767 - 32768 * 2 ^ 23) <= 32767 /\
  sample_value LibAV.AV_SAMPLE_FMT_S32 [x01; x00; x00; x01] 0
  = S754_finite false 8388608 (-30) /\
  sample_value LibAV.AV_SAMPLE_FMT_S32P [x00; x00; x00; xc0] 0
  = S754_finite true 8388608 (-24) /\
  sample_value LibAV.AV_SAMPLE_FMT_FLT [x00; x00; x00; xbf] 0
  = S754_finite true 8388608 (-24) /\
  sample_value LibAV.AV_SAMPLE_FMT_FLTP [x01; x00; x00; x00] 0
  = S754_finite false 1 (-149) /\
  sample_value LibAV.AV_SAMPLE_FMT_FLT [x00; x00; x80; x7f] 0
  = S754_infinity false /\
  sample_value LibAV.AV_SAMPLE_FMT_DBL
    [x9a; x99; x99; x99; x99; x99; xb9; x3f] 0
  = S754_finite false 13421773 (-27) /\
  sample_value LibAV.AV_SAMPLE_FMT_DBLP
    [x3c; xe4; x37; x7e; xc3; xac; x37; x7e] 0
  = S754_infinity false /\
  sample_value LibAV.AV_SAMPLE_FMT_U8 [xff; x7f] 0 = S754_zero false.
Proof.
  assert (Hat : forall (bs : list byte), bytes_at bs 0 bs).
  { intros bs. split; [lia|]. apply firstn_all. }
  split.
  { rewrite (proj1 (sample_value_by_format [x00; x40] 0)
               LibAV.AV_SAMPLE_FMT_S16 x00 x40 (or_introl eq_refl)
               (Hat _)).
    vm_compute. reflexivity. }
  split; [vm_compute; discriminate|].
  split.
  { rewrite (proj1 (sample_value_by_format [xff; x7f; x01; x00] 1)
               LibAV.AV_SAMPLE_FMT_S16 x01 x00 (or_introl eq_refl)
               (conj (Z.lt_le_incl 0 (2 * 1) eq_refl) eq_refl)).
    vm_compute. reflexivity. }
  split; [vm_compute; discriminate|].
  split.
  { rewrite (proj1 (sample_value_by_format [x00; x80] 0)
               LibAV.AV_SAMPLE_FMT_S16P x00 x80 (or_intror eq_refl)
               (Hat _)).
    vm_compute. reflexivity. }
  split; [vm_compute; discriminate|].
  split.
  { rewrite (proj1 (proj2 (sample_value_by_format [x01; x00; x00; x01] 0))
               LibAV.AV_SAMPLE_FMT_S32 x01 x00 x00 x01 (or_introl eq_refl)
               (Hat _)).
    vm_compute. reflexivity. }
  split.
  { rewrite (proj1 (proj2 (sample_value_by_format [x00; x00; x00; xc0] 0))
               LibAV.AV_SAMPLE_FMT_S32P x00 x00 x00 xc0 (or_intror eq_refl)
               (Hat _)).
    vm_compute. reflexivity. }
  split.
  { rewrite (proj1 (proj2 (proj2
               (sample_value_by_format [x00; x00; x00; xbf] 0)))
               LibAV.AV_SAMPLE_FMT_FLT x00 x00 x00 xbf true 126 0
               (or_introl eq_refl) (Hat _));
      [reflexivity | reflexivity | vm_compute | vm_compute];
      split; try discriminate; reflexivity. }
  split.
  { rewrite (proj1 (proj2 (proj2
               (sample_value_by_format [x01; x00; x00; x00] 0)))
               LibAV.AV_SAMPLE_FMT_FLTP x01 x00 x00 x00 false 0 1
               (or_intror eq_refl) (Hat _));
      [reflexivity | reflexivity | vm_compute | vm_compute];
      split; try discriminate; reflexivity. }
  split.
  { rewrite (proj1 (proj2 (proj2
               (sample_value_by_format [x00; x00; x80; x7f] 0)))
               LibAV.AV_SAMPLE_FMT_FLT x00 x00 x80 x7f false 255 0
               (or_introl eq_refl) (Hat _));
      [reflexivity | reflexivity | vm_compute | vm_compute];
      split; try discriminate; reflexivity. }
  split.
  { rewrite (proj1 (proj2 (proj2 (proj2
               (sample_value_by_format
                  [x9a; x99; x99; x99; x99; x99; xb9; x3f] 0))))
               LibAV.AV_SAMPLE_FMT_DBL
               x9a x99 x99 x99 x99 x99 xb9 x3f false 1019 2702159776422298
               (or_introl eq_refl) (Hat _));
      [vm_compute; reflexivity | reflexivity | vm_compute | vm_compute];
      split; try discriminate; reflexivity. }
  split.
  { rewrite (proj1 (proj2 (proj2 (proj2
               (sample_value_by_format
                  [x3c; xe4; x37; x7e; xc3; xac; x37; x7e] 0))))
               LibAV.AV_SAMPLE_FMT_DBLP
               x3c xe4 x37 x7e xc3 xac x37 x7e false 2019 2160280473166908
               (or_intror eq_refl) (Hat _));
      [vm_compute; reflexivity | reflexivity | vm_compute | vm_compute];
      split; try discriminate; reflexivity. }
  apply (proj2 (proj2 (proj2 (proj2
           (sample_value_by_format [xff; x7f] 0))))); discriminate.
Defined.

(** ** The error state *)

Section ReadProperties.

Context {Demuxer Decoder : Type}.
Variable lib : LibAV.Library Demuxer Decoder.

Implicit Types s : AudioFileImpl Demuxer Decoder.

(** With an error set, [read] answers -1 and leaves the session as it is. *)
Lemma read_in_error (fuel : nat) s :
  error s <> OK -> read lib fuel s = Done (-1, s).
Proof.
  intros He. unfold read. destruct (error s); try reflexivity.
  now elim He.
Qed.

(** So does every call of a series. *)
Lemma read_many_in_error (fuel n : nat) s :
  error s <> OK -> read_many lib fuel n s = Done (repeat (-1) n, s).
Proof.
  intros He. induction n as [|n IH]; cbn [read_many repeat].
  - reflexivity.
  - rewrite read_in_error by assumption. cbn [bind].
    rewrite IH. reflexivity.
Qed.

(** C4. On a session with a selected stream (a positive denominator of its
    time base and at least one interval, so that [start] has a divisor),
    [start] with a channel index outside [0, channels) aborts at
    [assert(false)] when assertions are live; when they are compiled out it
    returns with the error of the session set to [NO_CHANNELS], whatever
    the error was.  On every session whose error is set, by resolution or
    by that misuse, every later call of [read] returns -1 and leaves the
    session, with the state of the library in it, untouched. *)
Theorem misuse_and_errors_are_terminal s (st : LibAV.AVStream Decoder)
  (channel samples : Z) :
  session_stream s = Some st ->
  channel < 0 \/ channels s <= channel ->
  0 < LibAV.den (LibAV.time_base st) <= Int.INT32_MAX ->
  1 <= samples <= Int.INT32_MAX ->
  start false s channel samples = Fault /\
  (exists s',
     start true s channel samples = Done s' /\
     error s' = NO_CHANNELS /\
     format_context s' = format_context s /\
     forall fuel n, read_many lib fuel n s' = Done (repeat (-1) n, s')) /\
  (forall s0 : AudioFileImpl Demuxer Decoder,
     error s0 <> OK ->
     forall fuel n, read_many lib fuel n s0 = Done (repeat (-1) n, s0)).
Proof.
  intros Hst Hch Hden Hn.
  assert (Hmis : (channel <? 0) || (channels (set_channel channel s) <=? channel)
                 = true).
  { cbn [channels set_channel]. apply orb_true_iff.
    destruct Hch as [H|H]; [left; apply Z.ltb_lt | right; apply Z.leb_le];
      exact H. }
  split; [unfold start; rewrite Hmis; reflexivity|].
  split.
  2: { intros s0 He fuel n. now apply read_many_in_error. }
  unfold start.
  rewrite Hmis. cbn [negb andb].
  change (session_stream (set_error NO_CHANNELS (set_channel channel s)))
    with (session_stream s).
  rewrite Hst.
  assert (Hbase : 0 < Int.wrap64 (samples * LibAV.den (LibAV.time_base st))).
  { rewrite wrap64_small; unfold Int.is_int64, Int.INT64_MIN, Int.INT64_MAX,
      Int.INT32_MAX in *; nia. }
  unfold Int.rem64.
  replace (Int.wrap64 (samples * LibAV.den (LibAV.time_base st)) =? 0)
    with false by (symmetry; apply Z.eqb_neq; lia).
  replace (Int.wrap64 (samples * LibAV.den (LibAV.time_base st)) =? -1)
    with false by (symmetry; apply Z.eqb_neq; lia).
  rewrite andb_false_r. cbn [orb].
  eexists. split; [reflexivity|]. split; [reflexivity|].
  split; [reflexivity|].
  intros fuel n. apply read_many_in_error. cbn. discriminate.
Qed.

(** ** Skipping a packet that fails to decode *)

Lemma delivers_result (index : Z) fc p res fc' (n : nat) :
  delivers lib index fc p res fc' n -> 0 <= res /\ (1 <= n)%nat.
Proof.
  induction 1 as [| ? ? ? ? ? ? ? ? ? ? ? ? IH]; [split; [assumption | lia]|].
  destruct IH. split; [assumption | lia].
Qed.

(** The fetch loop returns the packet that the demuxer delivers. *)
Lemma next_packet_delivers (index : Z) fc p res fc' (n : nat) :
  delivers lib index fc p res fc' n ->
  forall s (fuel : nat),
    format_context s = Some fc -> audio_stream s = index ->
    (n <= fuel)%nat ->
    next_packet lib fuel s
    = Done (res, set_packet p (offset s) (set_decoded fc' (frame s) s)).
Proof.
  induction 1 as [fc res p fc' Hread Hres Hidx
                 |fc res0 p0 fc0 p res fc' n Hread Hres Hidx Hnext IH];
    intros s fuel Hfc Hs Hfuel.
  - destruct fuel as [|fuel]; [lia|]. cbn [next_packet].
    rewrite Hfc, Hread.
    rewrite (proj2 (Z.leb_le 0 res)) by exact Hres.
    cbn [audio_stream set_packet set_decoded].
    rewrite Hidx, Hs, Z.eqb_refl. reflexivity.
  - destruct fuel as [|fuel]; [lia|]. cbn [next_packet].
    rewrite Hfc, Hread.
    rewrite (proj2 (Z.leb_le 0 res0)) by exact Hres.
    cbn [audio_stream set_packet set_decoded].
    rewrite Hs.
    replace (LibAV.stream_index p0 =? index) with false
      by (symmetry; apply Z.eqb_neq; exact Hidx).
    rewrite IH; [reflexivity | reflexivity | exact Hs | lia].
Qed.


End ReadProperties.

(** Channel 2 of a two-channel stream, in a build with assertions: the
    call aborts and no session with [NO_CHANNELS] comes back. *)
Lemma misuse_aborts_under_assertions :
  channels Example.session = 2 /\
  start false Example.session 2 3 = Fault /\
  ~ (exists s', start false Example.session 2 3 = Done s' /\
                error s' = NO_CHANNELS).
Proof.
  split; [reflexivity|]. split; [reflexivity|].
  intros (s' & Hrun & _). vm_compute in Hrun. discriminate Hrun.
Qed.

(** The same call in a build without assertions, then four reads. *)
Lemma misuse_and_errors_are_terminal_witness :
  start false Example.session 2 3 = Fault /\
  exists s',
    start true Example.session 2 3 = Done s' /\
    error s' = NO_CHANNELS /\
    read_many Example.silent 5 4 s' = Done ([-1; -1; -1; -1], s').
Proof.
  destruct (misuse_and_errors_are_terminal Example.silent Example.session
              (Example.audio_stream_ms 125) 2 3)
    as (Habort & (s' & Hrun & Herr & _ & Hread) & _).
  - reflexivity.
  - right. vm_compute. discriminate.
  - vm_compute. split; [reflexivity | discriminate].
  - vm_compute. split; discriminate.
  - split; [exact Habort|].
    exists s'. split; [exact Hrun|]. split; [exact Herr|].
    exact (Hread 5%nat 4%nat).
Defined.


(** ** Stream selection *)

Section SelectionProperties.

Context {Demuxer Decoder : Type}.

Implicit Types l : list (LibAV.AVStream Decoder).

Lemma count_audio_nonneg l : 0 <= count_audio l.
Proof.
  induction l as [|st l IH]; cbn [count_audio]; [lia|].
  destruct (is_audio _); lia.
Qed.

(** The loop counts the audio streams. *)
Lemma select_stream_count l (i stream a n : Z) :
  snd (select_stream l i stream a n) = n + count_audio l.
Proof.
  revert i a n. induction l as [|st l IH]; intros i a n;
    cbn [select_stream count_audio].
  - cbn. lia.
  - destruct (is_audio _); rewrite IH; lia.
Qed.

(** An index below the count reached so far, or not below the final count,
    matches no stream. *)
Lemma select_stream_unmatched l (i stream a n : Z) :
  stream < n \/ n + count_audio l <= stream ->
  fst (select_stream l i stream a n) = a.
Proof.
  revert i a n. induction l as [|st l IH]; intros i a n H;
    cbn [select_stream count_audio] in *; [reflexivity|].
  pose proof (count_audio_nonneg l) as Hc.
  destruct (is_audio _).
  - replace (stream =? n) with false by (symmetry; apply Z.eqb_neq; lia).
    apply IH. lia.
  - apply IH. lia.
Qed.

(** The index the loop picks is the one it began with or that of a stream
    it went over. *)
Lemma select_stream_index l (i stream a n : Z) :
  fst (select_stream l i stream a n) = a \/
  i <= fst (select_stream l i stream a n) < i + Z.of_nat (List.length l).
Proof.
  revert i a n. induction l as [|st l IH]; intros i a n;
    cbn [select_stream]; [left; reflexivity|].
  cbn [List.length]. rewrite Nat2Z.inj_succ.
  destruct (is_audio _).
  - destruct (IH (i + 1) (if stream =? n then i else a) (n + 1)) as [H|H].
    + rewrite H. destruct (stream =? n); [right; lia | left; reflexivity].
    + right. lia.
  - destruct (IH (i + 1) a n) as [H|H]; [left; exact H | right; lia].
Qed.

(** A picked index names a stream of the container. *)
Lemma select_stream_some (fc : LibAV.AVFormatContext Demuxer Decoder)
  (stream : Z) :
  fst (select_stream (LibAV.streams fc) 0 stream (-1) 0) <> -1 ->
  exists st,
    LibAV.stream_at fc (fst (select_stream (LibAV.streams fc) 0 stream (-1) 0))
    = Some st.
Proof.
  intros Hsel.
  destruct (select_stream_index (LibAV.streams fc) 0 stream (-1) 0)
    as [H|H]; [contradiction|].
  set (a := fst _) in *. unfold LibAV.stream_at.
  replace (a <? 0) with false by (symmetry; apply Z.ltb_ge; lia).
  destruct (nth_error (LibAV.streams fc) (Z.to_nat a)) as [st|] eqn:Hn.
  - now exists st.
  - apply nth_error_None in Hn. lia.
Qed.

Lemma nth_error_update_nth {A : Type} (f : A -> A) (xs : list A) (n : nat) :
  nth_error (LibAV.update_nth n f xs) n = option_map f (nth_error xs n).
Proof.
  revert n. induction xs as [|x xs IH]; intros [|n]; cbn; auto.
Qed.

(** Writing the codec context of a stream leaves the stream in place. *)
Lemma stream_at_set_codec (fc : LibAV.AVFormatContext Demuxer Decoder)
  (a : Z) (st : LibAV.AVStream Decoder) (c : LibAV.AVCodecContext Decoder) :
  LibAV.stream_at fc a = Some st ->
  LibAV.stream_at (LibAV.set_codec fc a c) a
  = Some (LibAV.set_stream_codec st c).
Proof.
  unfold LibAV.stream_at, LibAV.set_codec. cbn [LibAV.streams].
  destruct (a <? 0); [discriminate|].
  rewrite nth_error_update_nth. intros ->. reflexivity.
Qed.

End SelectionProperties.

(** ** Resolution *)

Section OpenProperties.

Context {Demuxer Decoder : Type}.
Variable lib : LibAV.Library Demuxer Decoder.

Ltac run_step :=
  cbn [bind r_error r_file_or_device r_file_iformat r_format_context
       r_audio_stream r_streams r_codec r_codec_name r_bit_rate
       r_sample_rate r_bits_per_sample r_channels r_duration r_log
       with_context with_selection with_codec with_info not_error
       r_avstream andb negb].

Ltac settle :=
  first [ assumption
        | reflexivity
        | unfold unselected; cbn; first [assumption | reflexivity]
        | cbn; repeat split; reflexivity ].

Ltac pick_session :=
  match goal with
  | |- exists s, Done (?x, _) = _ /\ _ => exists x; split; [reflexivity|]
  end.

Ltac log_eq := cbn; rewrite <- ?app_assoc; reflexivity.

(** The statements of [open] after the source was opened as [fc]. *)
Lemma resolve_from_opened (file_name device_name : string) (stream : Z)
  (name : string) (fmt : option LibAV.AVInputFormat)
  (fc : LibAV.AVFormatContext Demuxer Decoder) (log0 : list LibCall)
  (r1 : Resolve Demuxer Decoder) :
  r1 = {| r_error := OK; r_file_or_device := name; r_file_iformat := fmt;
          r_format_context := Some fc; r_audio_stream := -1; r_streams := 0;
          r_codec := None; r_codec_name := EmptyString; r_bit_rate := 0;
          r_sample_rate := 0; r_bits_per_sample := 0; r_channels := 0;
          r_duration := IEEE.f64_zero; r_log := log0 ++ [CallOpenInput] |} ->
  opens lib file_name device_name fc ->
  exists r,
    resolve_from lib device_name stream r1 = Done r /\
    r_log r = log0 ++ calls_until false (r_error r) /\
    Resolution lib file_name device_name stream (resolved r).
Proof.
  intros -> Hopen. unfold resolve_from.
  (* probing *)
  unfold step_stream_info at 1. run_step.
  destruct (LibAV.avformat_find_stream_info lib fc) as [ret fc'] eqn:Hprobe.
  run_step.
  destruct (Z.ltb_spec ret 0) as [Hret|Hret];
    [destruct (Z.leb_spec (LibAV.nb_streams fc') 0) as [Hnb|Hnb]|].
  { (* no stream *)
    eexists. split; [reflexivity|]. split; [log_eq|].
    apply (res_no_streams lib _ _ _ _ fc ret fc'); settle. }
  all: assert (Hprobes : probes lib fc fc')
         by (exists ret; split; [exact Hprobe | lia]).
  all: unfold step_select at 1; run_step.
  all: pose proof (select_stream_count (LibAV.streams fc') 0 stream (-1) 0)
         as Hcount.
  all: pose proof (select_stream_some fc' stream) as Hsome.
  all: destruct (select_stream (LibAV.streams fc') 0 stream (-1) 0)
         as [a n] eqn:Hsel.
  all: cbn [fst snd] in Hcount, Hsome; rewrite Z.add_0_l in Hcount.
  all: assert (Hfst : fst (select_stream (LibAV.streams fc') 0 stream (-1) 0)
                      = a) by (rewrite Hsel; reflexivity).
  all: run_step.
  all: destruct (Z.eqb_spec a (-1)) as [Ha|Ha].
  1, 3: (* no audio stream at that index *)
    (eexists; split; [reflexivity|]; split; [log_eq|];
     apply (res_no_audio lib _ _ _ _ fc fc'); try settle; congruence).
  all: destruct (Hsome Ha) as [st Hst].
  all: assert (Hselects : selects lib file_name device_name stream fc' a st)
         by (split; [exists fc; split; assumption
                    |split; [exact Hfst | exact Hst]]).
  all: unfold step_find_decoder at 1; run_step; rewrite Hst; run_step.
  all: destruct (LibAV.avcodec_find_decoder lib
                   (LibAV.codec_id (LibAV.codec st))) as [codec|] eqn:Hfind.
  2, 4: (* no decoder *)
    (eexists; split; [reflexivity|]; split; [log_eq|];
     apply (res_no_decoder lib _ _ _ _ fc' st); settle).
  all: unfold step_info at 1; run_step; rewrite Hst; run_step.
  all: destruct (resolved_duration device_name fc' st) as [dur|e] eqn:Hdur.
  2, 4: (* no duration *)
    (assert (e = NO_DURATION) as ->
       by (unfold resolved_duration in Hdur;
           repeat match type of Hdur with
                  | (if ?c then _ else _) = _ => destruct c
                  end; congruence);
     eexists; split; [reflexivity|]; split; [log_eq|];
     apply (res_no_duration lib _ _ _ _ fc' st codec); settle).
  all: run_step.
  all: destruct (Z.leb_spec (LibAV.channels (LibAV.codec st)) 0) as [Hch|Hch].
  1, 3: (* no channel *)
    (eexists; split; [reflexivity|]; split; [log_eq|];
     apply (res_no_channels lib _ _ _ _ fc' st codec dur); settle).
  (* the decoder is opened *)
  all: unfold step_open_decoder at 1; run_step; rewrite Hst; run_step.
  all: destruct (LibAV.avcodec_open2 lib (LibAV.codec st) codec)
         as [ret2 ctx] eqn:Hopen2.
  all: run_step.
  all: pose proof (stream_at_set_codec fc' a st ctx Hst) as Hst2.
  all: unfold step_sample_format at 1; run_step.
  all: destruct (Z.ltb_spec ret2 0) as [Hret2|Hret2]; run_step.
  2, 4: rewrite Hst2; run_step; cbn [LibAV.codec LibAV.set_stream_codec].
  all: eexists; (split; [reflexivity|]); split.
  all: try (cbn; destruct (recognized (LibAV.sample_fmt ctx)); log_eq).
  all: apply (res_decoder lib _ _ _ _ fc' st codec dur ret2 ctx); try settle.
  all: cbn; try (rewrite (proj2 (Z.ltb_lt _ _) Hret2); reflexivity).
  all: rewrite (proj2 (Z.ltb_ge _ _) Hret2);
         destruct (recognized (LibAV.sample_fmt ctx)); reflexivity.
Qed.

(** Once an error is set, no statement but the dump does anything. *)
Lemma resolve_from_error (device_name : string) (stream : Z)
  (r : Resolve Demuxer Decoder) :
  not_error (r_error r) = false ->
  resolve_from lib device_name stream r = Done (step_dump r).
Proof.
  intros He.
  unfold resolve_from, step_stream_info, step_select, step_find_decoder,
    step_info, step_open_decoder, step_sample_format.
  rewrite He. cbn [bind]. rewrite He. cbn [bind]. rewrite He. cbn [bind].
  rewrite He. cbn [bind]. rewrite He. cbn [bind]. rewrite He. reflexivity.
Qed.

(** Every resolution returns a session; the session and the library calls
    made are those of one of the eight ways a resolution ends. *)
Lemma open_cases (file_name device_name : string) (stream : Z) :
  exists s,
    open lib file_name device_name stream
    = Done (s, calls_until (negb (is_empty device_name)) (error s)) /\
    Resolution lib file_name device_name stream s.
Proof.
  unfold open, resolve, step_device.
  destruct (is_empty device_name) eqn:Hd; cbn [negb].
  - (* a file *)
    unfold step_open_input. cbn [r_error resolve_init not_error
      r_file_or_device r_file_iformat].
    destruct (LibAV.avformat_open_input lib file_name None) as [fc|] eqn:Ho.
    + assert (Hopens : opens lib file_name device_name fc).
      { exists None. unfold input_format, source_name. rewrite Hd.
        split; [reflexivity | exact Ho]. }
      match goal with
      | |- context [resolve_from lib _ _ ?R] =>
          destruct (resolve_from_opened file_name device_name stream
                      file_name None fc [] R eq_refl Hopens)
            as (r & Hr & Hlog & Hres)
      end.
      rewrite Hr. cbn [bind]. exists (resolved r).
      split; [|exact Hres]. rewrite Hlog. reflexivity.
    + rewrite resolve_from_error by reflexivity.
      cbn [bind]. pick_session.
      apply (res_no_file lib _ _ _ _ None); try settle.
      * unfold input_format. rewrite Hd. reflexivity.
      * unfold source_name. rewrite Hd. exact Ho.
  - (* a device *)
    destruct (LibAV.av_find_input_format lib "alsa") as [fmt|] eqn:Hfmt.
    + unfold step_open_input. cbn [r_error resolve_init not_error
        r_file_or_device r_file_iformat].
      destruct (LibAV.avformat_open_input lib "default" (Some fmt))
        as [fc|] eqn:Ho.
      * assert (Hopens : opens lib file_name device_name fc).
        { exists (Some fmt). unfold input_format, source_name. rewrite Hd.
          split; [split; [discriminate | exact Hfmt] | exact Ho]. }
        match goal with
        | |- context [resolve_from lib _ _ ?R] =>
            destruct (resolve_from_opened file_name device_name stream
                        "default" (Some fmt) fc [CallFindInputFormat] R
                        eq_refl Hopens)
              as (r & Hr & Hlog & Hres)
        end.
        rewrite Hr. cbn [bind]. exists (resolved r).
        split; [|exact Hres]. rewrite Hlog. reflexivity.
      * rewrite resolve_from_error by reflexivity.
        cbn [bind]. pick_session.
        apply (res_no_file lib _ _ _ _ (Some fmt)); try settle.
        -- unfold input_format. rewrite Hd.
           split; [discriminate | exact Hfmt].
        -- unfold source_name. rewrite Hd. exact Ho.
    + unfold step_open_input. cbn [r_error not_error].
      rewrite resolve_from_error by reflexivity.
      cbn [bind]. pick_session.
      apply res_no_device; settle.
Qed.

(** *** The answers of the library determine the way a resolution ends *)

Lemma input_format_fun (device_name : string)
  (fmt1 fmt2 : option LibAV.AVInputFormat) :
  input_format lib device_name fmt1 -> input_format lib device_name fmt2 ->
  fmt1 = fmt2.
Proof.
  unfold input_format. destruct (is_empty device_name).
  - congruence.
  - intros [_ H1] [_ H2]. congruence.
Qed.

Lemma opens_fun (file_name device_name : string)
  (fc1 fc2 : LibAV.AVFormatContext Demuxer Decoder) :
  opens lib file_name device_name fc1 -> opens lib file_name device_name fc2 ->
  fc1 = fc2.
Proof.
  intros (fmt1 & Hf1 & H1) (fmt2 & Hf2 & H2).
  rewrite (input_format_fun _ _ _ Hf1 Hf2) in H1. congruence.
Qed.

Lemma probes_fun (fc fc1 fc2 : LibAV.AVFormatContext Demuxer Decoder) :
  probes lib fc fc1 -> probes lib fc fc2 -> fc1 = fc2.
Proof.
  intros (r1 & H1 & _) (r2 & H2 & _). congruence.
Qed.

Lemma selects_fun (file_name device_name : string) (stream : Z)
  (fc1 fc2 : LibAV.AVFormatContext Demuxer Decoder) (a1 a2 : Z)
  (st1 st2 : LibAV.AVStream Decoder) :
  selects lib file_name device_name stream fc1 a1 st1 ->
  selects lib file_name device_name stream fc2 a2 st2 ->
  fc1 = fc2 /\ a1 = a2 /\ st1 = st2.
Proof.
  intros [(fc & Ho1 & Hp1) [Ha1 Hs1]] [(fc0 & Ho2 & Hp2) [Ha2 Hs2]].
  rewrite (opens_fun _ _ _ _ Ho2 Ho1) in Hp2.
  pose proof (probes_fun _ _ _ Hp1 Hp2) as <-.
  assert (a1 = a2) as <- by congruence.
  repeat split. congruence.
Qed.

(** A source that opens is not reported as missing. *)
Lemma opens_not_missing (file_name device_name : string)
  (fc : LibAV.AVFormatContext Demuxer Decoder) :
  opens lib file_name device_name fc ->
  (is_empty device_name = false ->
   LibAV.av_find_input_format lib "alsa" <> None) /\
  (forall fmt, input_format lib device_name fmt ->
     LibAV.avformat_open_input lib (source_name file_name device_name) fmt
     <> None).
Proof.
  intros (fmt & Hf & Ho). split.
  - intros Hd. unfold input_format in Hf. rewrite Hd in Hf.
    destruct Hf as [Hne Heq]. congruence.
  - intros fmt' Hf'. rewrite (input_format_fun _ _ _ Hf' Hf). congruence.
Qed.

(** A source that opens and probes to [fc'] resolves to one of the ways
    that follow the probing. *)
Lemma resolution_probed (file_name device_name : string) (stream : Z)
  (fc fc' : LibAV.AVFormatContext Demuxer Decoder)
  (s : AudioFileImpl Demuxer Decoder) :
  opens lib file_name device_name fc -> probes lib fc fc' ->
  Resolution lib file_name device_name stream s ->
  streams s = count_audio (LibAV.streams fc') /\
  ((fst (select_stream (LibAV.streams fc') 0 stream (-1) 0) = -1 /\
    error s = NO_AUDIO /\ format_context s = Some fc' /\
    unselected s /\ info_defaults s) \/
   (exists st,
      selects lib file_name device_name stream fc' (audio_stream s) st /\
      error s <> NO_AUDIO /\ error s <> NO_STREAMS /\
      error s <> CANNOT_OPEN_FILE /\ error s <> CANNOT_OPEN_DEVICE)).
Proof.
  intros Hopen Hprobe Hres.
  destruct (opens_not_missing _ _ _ Hopen) as [Hdev Hfile].
  destruct Hres as
    [Hd Hnone _ _ _ _ _
    |fmt Hfmt Hnone _ _ _ _ _
    |fc0 ret fc1 Ho Hp Hret Hnb _ _ _ _ _
    |fc0 fc1 Ho Hp Hsel He Hfc Hun Hn Hinfo
    |fc1 st Hsel Hfind He Hfc Hn Hinfo
    |fc1 st codec Hsel Hfind Hdur He Hfc Hn Hinfo Hd
    |fc1 st codec d Hsel Hfind Hdur Hch He Hfc Hn Hinfo Hd
    |fc1 st codec d ret ctx Hsel Hfind Hdur Hch Hopen2 He Hfc Hn Hinfo Hd].
  - elim (Hdev Hd Hnone).
  - elim (Hfile fmt Hfmt Hnone).
  - rewrite (opens_fun _ _ _ _ Ho Hopen) in Hp.
    destruct Hprobe as (ret' & Hp' & Hok).
    assert (ret' = ret /\ fc' = fc1) as [-> ->] by (split; congruence).
    lia.
  - rewrite (opens_fun _ _ _ _ Ho Hopen) in Hp.
    pose proof (probes_fun _ _ _ Hp Hprobe) as ->.
    split; [exact Hn|]. left.
    repeat (split; [assumption|]). assumption.
  - assert (fc1 = fc') as ->.
    { destruct Hsel as [(fc0 & Ho & Hp) _].
      rewrite (opens_fun _ _ _ _ Ho Hopen) in Hp.
      exact (probes_fun _ _ _ Hp Hprobe). }
    split; [exact Hn|]. right. exists st. rewrite He.
    split; [assumption|]. repeat split; discriminate.
  - assert (fc1 = fc') as ->.
    { destruct Hsel as [(fc0 & Ho & Hp) _].
      rewrite (opens_fun _ _ _ _ Ho Hopen) in Hp.
      exact (probes_fun _ _ _ Hp Hprobe). }
    split; [exact Hn|]. right. exists st. rewrite He.
    split; [assumption|]. repeat split; discriminate.
  - assert (fc1 = fc') as ->.
    { destruct Hsel as [(fc0 & Ho & Hp) _].
      rewrite (opens_fun _ _ _ _ Ho Hopen) in Hp.
      exact (probes_fun _ _ _ Hp Hprobe). }
    split; [exact Hn|]. right. exists st. rewrite He.
    split; [assumption|]. repeat split; discriminate.
  - assert (fc1 = fc') as ->.
    { destruct Hsel as [(fc0 & Ho & Hp) _].
      rewrite (opens_fun _ _ _ _ Ho Hopen) in Hp.
      exact (probes_fun _ _ _ Hp Hprobe). }
    split; [exact Hn|]. right. exists st. rewrite He.
    split; [assumption|].
    repeat split; destruct (ret <? 0); try discriminate;
      destruct (recognized _); discriminate.
Qed.

(** A source whose stream is selected and has a decoder resolves to one of
    the ways that follow the filling in of the stream information. *)
Lemma resolution_informed (file_name device_name : string) (stream : Z)
  (fc' : LibAV.AVFormatContext Demuxer Decoder) (a : Z)
  (st : LibAV.AVStream Decoder) (codec : LibAV.AVCodec)
  (s : AudioFileImpl Demuxer Decoder) :
  selects lib file_name device_name stream fc' a st ->
  LibAV.avcodec_find_decoder lib (LibAV.codec_id (LibAV.codec st))
  = Some codec ->
  Resolution lib file_name device_name stream s ->
  audio_stream s = a /\
  streams s = count_audio (LibAV.streams fc') /\
  info_filled s (LibAV.codec st) codec /\
  match resolved_duration device_name fc' st with
  | inr _ =>
      error s = NO_DURATION /\ duration s = IEEE.f64_zero /\
      format_context s = Some fc'
  | inl d => duration s = d /\ error s <> NO_DURATION
  end.
Proof.
  intros Hsel Hfind Hres.
  pose proof Hsel as [(fc & Ho & Hp) [Ha Hst]].
  destruct (resolution_probed _ _ _ _ _ _ Ho Hp Hres)
    as [Hn [(Hm & _)|(st0 & Hsel0 & Hne1 & Hne2 & Hne3 & Hne4)]].
  { rewrite Hm in Ha. subst a. discriminate Hst. }
  destruct (selects_fun _ _ _ _ _ _ _ _ _ Hsel0 Hsel) as (_ & Haa & _).
  split; [exact Haa|]. split; [exact Hn|].
  destruct Hres as
    [_ _ He _ _ _ _
    |fmt _ _ He _ _ _ _
    |fc0 ret fc1 _ _ _ _ He _ _ _ _
    |fc0 fc1 _ _ _ He _ _ _ _
    |fc1 st1 Hsel1 Hfind1 He Hfc _ Hinfo
    |fc1 st1 codec1 Hsel1 Hfind1 Hdur He Hfc _ Hinfo Hd
    |fc1 st1 codec1 d Hsel1 Hfind1 Hdur Hch He Hfc _ Hinfo Hd
    |fc1 st1 codec1 d ret ctx Hsel1 Hfind1 Hdur Hch Hopen2 He Hfc _ Hinfo Hd];
    try congruence;
    destruct (selects_fun _ _ _ _ _ _ _ _ _ Hsel1 Hsel0) as (-> & _ & ->);
    destruct (selects_fun _ _ _ _ _ _ _ _ _ Hsel0 Hsel) as (_ & _ & ->);
    try congruence;
    assert (codec1 = codec) as -> by congruence;
    (split; [exact Hinfo|]); rewrite Hdur.
  - repeat split; assumption.
  - split; [exact Hd|]. rewrite He. discriminate.
  - split; [exact Hd|]. rewrite He.
    destruct (ret <? 0); try discriminate;
      destruct (recognized _); discriminate.
Qed.

(** Of the two rates, the resolver keeps one at most. *)
Lemma resolved_rates (ctx : LibAV.AVCodecContext Decoder) :
  resolved_bit_rate ctx = 0 \/ resolved_bits_per_sample ctx = 0.
Proof.
  unfold resolved_bit_rate.
  destruct (Z.eqb_spec (resolved_bits_per_sample ctx) 0); auto.
Qed.

(** A stream index that matches no audio stream: no stream is selected. *)
Lemma unmatched_index_is_no_audio (file_name device_name : string)
  (stream : Z) (fc fc' : LibAV.AVFormatContext Demuxer Decoder) :
  opens lib file_name device_name fc -> probes lib fc fc' ->
  stream < 0 \/ count_audio (LibAV.streams fc') <= stream ->
  exists s,
    open lib file_name device_name stream
    = Done (s, calls_until (negb (is_empty device_name)) NO_AUDIO) /\
    error s = NO_AUDIO /\ audio_stream s = -1 /\
    streams s = count_audio (LibAV.streams fc') /\ info_defaults s.
Proof.
  intros Ho Hp Hidx.
  destruct (open_cases file_name device_name stream) as (s & Hrun & Hres).
  exists s.
  destruct (resolution_probed _ _ _ _ _ _ Ho Hp Hres)
    as [Hn [(_ & He & _ & Hun & Hinfo)|(st & Hsel & _)]].
  - rewrite He in Hrun. repeat (split; [assumption|]). assumption.
  - destruct Hsel as [_ [Ha Hst]].
    rewrite select_stream_unmatched in Ha by lia.
    rewrite <- Ha in Hst. discriminate Hst.
Qed.

(** C10. On every container that opens and probes, a negative stream index
    selects no stream: resolution ends with [NO_AUDIO], as it does for an
    index that is not below the number of audio streams. *)
Theorem negative_stream_index_is_no_audio (file_name device_name : string)
  (stream : Z) (fc fc' : LibAV.AVFormatContext Demuxer Decoder) :
  opens lib file_name device_name fc -> probes lib fc fc' ->
  stream < 0 ->
  (exists s,
     open lib file_name device_name stream
     = Done (s, calls_until (negb (is_empty device_name)) NO_AUDIO) /\
     error s = NO_AUDIO /\ audio_stream s = -1 /\
     streams s = count_audio (LibAV.streams fc') /\ info_defaults s) /\
  (forall k, count_audio (LibAV.streams fc') <= k ->
     exists s,
       open lib file_name device_name k
       = Done (s, calls_until (negb (is_empty device_name)) NO_AUDIO) /\
       error s = NO_AUDIO /\ audio_stream s = -1).
Proof.
  intros Ho Hp Hneg. split.
  - apply (unmatched_index_is_no_audio _ _ _ fc fc'); auto.
  - intros k Hk.
    destruct (unmatched_index_is_no_audio file_name device_name k fc fc')
      as (s & Hrun & He & Ha & _); auto.
    exists s. auto.
Qed.

(** C6. A container that opens with no stream: when probing fails, the
    resolution ends with [NO_STREAMS]; when probing succeeds, it ends with
    [NO_AUDIO]; either way the stream information stays at its zero
    defaults.  A probing failure on a container with streams does not give
    [NO_STREAMS]. *)
Theorem empty_container_resolution (file_name device_name : string)
  (stream : Z) (fc fc' : LibAV.AVFormatContext Demuxer Decoder) (ret : Z) :
  opens lib file_name device_name fc ->
  LibAV.avformat_find_stream_info lib fc = (ret, fc') ->
  exists s log,
    open lib file_name device_name stream = Done (s, log) /\
    (LibAV.streams fc' = [] ->
     info_defaults s /\ streams s = 0 /\ audio_stream s = -1 /\
     (ret < 0 -> error s = NO_STREAMS) /\
     (0 <= ret -> error s = NO_AUDIO)) /\
    (LibAV.streams fc' <> [] -> error s <> NO_STREAMS).
Proof.
  intros Ho Hprobe.
  destruct (open_cases file_name device_name stream) as (s & Hrun & Hres).
  exists s, (calls_until (negb (is_empty device_name)) (error s)).
  split; [exact Hrun|].
  assert (Hnb : LibAV.nb_streams fc' = Z.of_nat (List.length (LibAV.streams fc')))
    by reflexivity.
  destruct (Z.ltb_spec ret 0) as [Hret|Hret];
    [destruct (LibAV.streams fc') as [|st0 l] eqn:Hl|].
  - (* probing fails, no stream *)
    destruct (opens_not_missing _ _ _ Ho) as [Hdev Hfile].
    cbn [List.length] in Hnb.
    assert (Hcase : error s = NO_STREAMS /\ info_defaults s /\ streams s = 0
                    /\ audio_stream s = -1).
    { destruct Hres as
        [Hd Hnone _ _ _ _ _
        |fmt Hfmt Hnone _ _ _ _ _
        |fc0 ret0 fc1 _ _ _ _ He _ Hun Hn Hinfo
        |fc0 fc1 Ho1 Hp _ _ _ _ _ _
        |fc1 st [(fc0 & Ho1 & Hp) _] _ _ _ _ _
        |fc1 st codec [(fc0 & Ho1 & Hp) _] _ _ _ _ _ _ _
        |fc1 st codec d [(fc0 & Ho1 & Hp) _] _ _ _ _ _ _ _ _
        |fc1 st codec d r ctx [(fc0 & Ho1 & Hp) _] _ _ _ _ _ _ _ _ _];
        try (rewrite (opens_fun _ _ _ _ Ho1 Ho) in Hp;
             destruct Hp as (ret1 & Hp1 & Hok);
             assert (ret1 = ret /\ fc1 = fc') as [-> ->]
               by (split; congruence);
             lia).
      - elim (Hdev Hd Hnone).
      - elim (Hfile fmt Hfmt Hnone).
      - auto. }
    destruct Hcase as (He & Hinfo & Hn & Ha).
    split; [|intros Hne; now elim Hne].
    intros _. repeat (split; [assumption|]). split; [auto | lia].
  - (* probing fails, streams all the same *)
    assert (Hp : probes lib fc fc').
    { exists ret. split; [exact Hprobe|]. right. rewrite Hnb.
      cbn [List.length]. lia. }
    split; [discriminate|]. intros _.
    destruct (resolution_probed _ _ _ _ _ _ Ho Hp Hres)
      as [_ [(_ & He & _)|(st & _ & _ & He & _)]]; [rewrite He|];
      congruence.
  - (* probing succeeds *)
    assert (Hp : probes lib fc fc')
      by (exists ret; split; [exact Hprobe | lia]).
    destruct (resolution_probed _ _ _ _ _ _ Ho Hp Hres)
      as [Hn [(_ & He & _ & Hun & Hinfo)|(st & Hsel & _ & He & _)]].
    + split; [|intros _; rewrite He; discriminate].
      intros Hl. rewrite Hl in Hn. cbn in Hn.
      repeat (split; [assumption|]). split; [lia | auto].
    + split; [|intros _; exact He].
      intros Hl. destruct Hsel as [_ [Ha Hst]].
      rewrite Hl in Ha. cbn in Ha. rewrite <- Ha in Hst.
      discriminate Hst.
Qed.


(** C9. In every session that resolution returns, the bit rate or the
    sample width is 0.  In a session resolved without error they follow the
    rule of the resolver on the codec context of the selected stream: when
    the codec is AAC, Musepack SV8, WMA v1 or WMA v2 the sample width is 0
    and the bit rate is that of the codec context; for any other codec the
    sample width is that of the codec context (raw, else coded), and the
    bit rate is 0 unless that width is 0. *)
Theorem one_rate_at_most (file_name device_name : string) (stream : Z)
  (s : AudioFileImpl Demuxer Decoder) (log : list LibCall) :
  open lib file_name device_name stream = Done (s, log) ->
  (bit_rate s = 0 \/ bits_per_sample s = 0) /\
  (error s = OK ->
   exists fc' st,
     selects lib file_name device_name stream fc' (audio_stream s) st /\
     (LibAV.codec_id (LibAV.codec st) = LibAV.AV_CODEC_ID_AAC \/
      LibAV.codec_id (LibAV.codec st) = LibAV.AV_CODEC_ID_MUSEPACK8 \/
      LibAV.codec_id (LibAV.codec st) = LibAV.AV_CODEC_ID_WMAV1 \/
      LibAV.codec_id (LibAV.codec st) = LibAV.AV_CODEC_ID_WMAV2 ->
      bits_per_sample s = 0 /\
      bit_rate s = LibAV.bit_rate (LibAV.codec st)) /\
     (forall id,
        LibAV.codec_id (LibAV.codec st) = LibAV.AV_CODEC_ID_other id ->
        bits_per_sample s
        = (if LibAV.bits_per_raw_sample (LibAV.codec st) =? 0
           then LibAV.bits_per_coded_sample (LibAV.codec st)
           else LibAV.bits_per_raw_sample (LibAV.codec st)) /\
        (bits_per_sample s <> 0 -> bit_rate s = 0) /\
        (bits_per_sample s = 0 ->
         bit_rate s = LibAV.bit_rate (LibAV.codec st)))).
Proof.
  intros Hrun.
  destruct (open_cases file_name device_name stream) as (s0 & Hrun0 & Hres).
  rewrite Hrun in Hrun0. injection Hrun0 as -> _.
  assert (Hfilled : forall ctx codec, info_filled s0 ctx codec ->
            bit_rate s0 = 0 \/ bits_per_sample s0 = 0).
  { intros ctx codec (_ & Hb & _ & Hs & _). rewrite Hb, Hs.
    apply resolved_rates. }
  assert (Hdefault : info_defaults s0 ->
            bit_rate s0 = 0 \/ bits_per_sample s0 = 0).
  { intros (_ & Hb & _). now left. }
  split.
  - destruct Hres; eauto.
  - intros He.
    destruct Hres as
      [_ _ He' _ _ _ _
      |fmt _ _ He' _ _ _ _
      |fc0 ret fc1 _ _ _ _ He' _ _ _ _
      |fc0 fc1 _ _ _ He' _ _ _ _
      |fc1 st1 Hsel1 Hfind1 He' Hfc _ Hinfo
      |fc1 st1 codec1 Hsel1 Hfind1 Hdur He' Hfc _ Hinfo Hd
      |fc1 st1 codec1 d Hsel1 Hfind1 Hdur Hch He' Hfc _ Hinfo Hd
      |fc1 st1 codec1 d ret ctx Hsel1 Hfind1 Hdur Hch Hopen2 He' Hfc _ Hinfo
         Hd];
      try congruence.
    exists fc1, st1. split; [exact Hsel1|].
    destruct Hinfo as (_ & Hb & _ & Hs & _).
    rewrite Hb, Hs. unfold resolved_bit_rate, resolved_bits_per_sample.
    split.
    + intros [Hid|[Hid|[Hid|Hid]]]; rewrite Hid; split; reflexivity.
    + intros id Hid. rewrite Hid. cbn [sets_both].
      split; [reflexivity|].
      split; intros Hz.
      * apply Z.eqb_neq in Hz. rewrite Hz. reflexivity.
      * rewrite Hz. reflexivity.
Qed.

End OpenProperties.

(** ** The statements at work on the example library *)

Lemma recorder_opens (probe : Z) (found : list (LibAV.AVStream unit))
  (file_name : string) :
  opens (Example.recorder probe found) file_name "" Example.unprobed.
Proof. exists None. split; reflexivity. Qed.

(** Index -1 on a container with one audio stream. *)
Lemma negative_stream_index_is_no_audio_witness :
  exists s,
    open (Example.recorder 0 [Example.audio_stream_ms 125]) "song.wav" "" (-1)
    = Done (s, [CallOpenInput; CallFindStreamInfo; CallDumpFormat]) /\
    error s = NO_AUDIO /\ audio_stream s = -1 /\ streams s = 1.
Proof.
  destruct (negative_stream_index_is_no_audio
              (Example.recorder 0 [Example.audio_stream_ms 125])
              "song.wav" "" (-1) Example.unprobed
              (Example.probed [Example.audio_stream_ms 125]))
    as [(s & Hrun & He & Ha & Hn & _) _].
  - apply recorder_opens.
  - exists 0. split; [reflexivity | left; lia].
  - lia.
  - exists s. auto.
Defined.

(** A container without streams on which probing succeeds: the error is
    [NO_AUDIO], not [NO_STREAMS]. *)
Lemma empty_container_probed_is_no_audio :
  exists s log,
    open (Example.recorder 0 []) "empty.bin" "" 0 = Done (s, log) /\
    LibAV.nb_streams (Example.probed []) = 0 /\
    error s = NO_AUDIO /\ error s <> NO_STREAMS.
Proof.
  eexists. eexists. split; [vm_compute; reflexivity|].
  repeat split; try reflexivity. discriminate.
Qed.

(** A container without streams on which probing fails. *)
Lemma empty_container_resolution_witness :
  exists s log,
    open (Example.recorder (-1) []) "empty.bin" "" 0 = Done (s, log) /\
    error s = NO_STREAMS /\ info_defaults s /\ streams s = 0.
Proof.
  destruct (empty_container_resolution (Example.recorder (-1) [])
              "empty.bin" "" 0 Example.unprobed (Example.probed []) (-1))
    as (s & log & Hrun & Hempty & _).
  - apply recorder_opens.
  - reflexivity.
  - destruct (Hempty eq_refl) as (Hinfo & Hn & _ & He & _).
    exists s, log.
    split; [exact Hrun|]. split; [apply He; lia|]. split; assumption.
Defined.


(** An AAC stream whose codec context reports 16 bits and 1411200 bits per
    second: the sample width is dropped, the bit rate is kept.  A PCM
    stream with the same codec context: the sample width is kept, the bit
    rate is dropped. *)
Lemma one_rate_at_most_witness :
  (exists s log,
     open (Example.recorder 0 [Example.aac_stream 125]) "song.m4a" "" 0
     = Done (s, log) /\
     error s = OK /\ bits_per_sample s = 0 /\ bit_rate s = 1411200 /\
     (bit_rate s = 0 \/ bits_per_sample s = 0)) /\
  (exists s log,
     open (Example.recorder 0 [Example.audio_stream_ms 125]) "song.wav" "" 0
     = Done (s, log) /\
     error s = OK /\ bits_per_sample s = 16 /\ bit_rate s = 0 /\
     (bit_rate s = 0 \/ bits_per_sample s = 0)).
Proof.
  split.
  - destruct (open (Example.recorder 0 [Example.aac_stream 125])
                "song.m4a" "" 0) as [[s log]| |] eqn:Hrun;
      try (vm_compute in Hrun; discriminate Hrun).
    exists s, log. split; [reflexivity|].
    pose proof (one_rate_at_most _ _ _ _ s log Hrun) as [Hone Hrule].
    vm_compute in Hrun. injection Hrun as <- <-.
    destruct (Hrule eq_refl) as (fc' & st & Hsel & Haac & _).
    destruct Hsel as ((fc0 & (fmt & _ & Hopen) & (ret & Hprobe & _))
                      & _ & Hat).
    cbn in Hopen. injection Hopen as <-.
    cbn in Hprobe. injection Hprobe as _ <-.
    cbn in Hat. injection Hat as <-.
    destruct (Haac (or_introl eq_refl)) as [Hbits Hrate].
    split; [reflexivity|]. split; [exact Hbits|]. split; [exact Hrate|].
    exact Hone.
  - destruct (open (Example.recorder 0 [Example.audio_stream_ms 125])
                "song.wav" "" 0) as [[s log]| |] eqn:Hrun;
      try (vm_compute in Hrun; discriminate Hrun).
    exists s, log. split; [reflexivity|].
    pose proof (one_rate_at_most _ _ _ _ s log Hrun) as [Hone _].
    vm_compute in Hrun. injection Hrun as <- <-.
    split; [reflexivity|]. split; [reflexivity|]. split; [reflexivity|].
    exact Hone.
Defined.

(** * Further properties *)

(** ** Which stream [open] selects *)

Section SelectedStream.

Context {Demuxer Decoder : Type}.
Variable lib : LibAV.Library Demuxer Decoder.

Implicit Types l : list (LibAV.AVStream Decoder).

(** [audio_position] finds an audio stream that has exactly [k] audio
    streams before it. *)
Lemma audio_position_spec l : forall (i k p : Z),
  audio_position l i k = Some p ->
  i <= p /\
  exists st,
    nth_error l (Z.to_nat (p - i)) = Some st /\
    is_audio (LibAV.codec_type (LibAV.codec st)) = true /\
    count_audio (firstn (Z.to_nat (p - i)) l) = k.
Proof.
  induction l as [|st l IH]; intros i k p; cbn [audio_position];
    [discriminate|].
  destruct (is_audio (LibAV.codec_type (LibAV.codec st))) eqn:Haudio.
  - destruct (Z.eqb_spec k 0) as [->|Hk].
    + intros [= <-]. split; [lia|]. exists st. rewrite Z.sub_diag.
      cbn. auto.
    + intros Hp. destruct (IH _ _ _ Hp) as (Hle & st' & Hnth & Ha & Hc).
      split; [lia|]. exists st'.
      replace (Z.to_nat (p - i)) with (S (Z.to_nat (p - (i + 1)))) by lia.
      cbn [nth_error firstn count_audio]. rewrite Haudio.
      repeat split; [exact Hnth | exact Ha | lia].
  - intros Hp. destruct (IH _ _ _ Hp) as (Hle & st' & Hnth & Ha & Hc).
    split; [lia|]. exists st'.
    replace (Z.to_nat (p - i)) with (S (Z.to_nat (p - (i + 1)))) by lia.
    cbn [nth_error firstn count_audio]. rewrite Haudio.
    repeat split; [exact Hnth | exact Ha | lia].
Qed.

Lemma audio_position_some l : forall (i k : Z),
  0 <= k < count_audio l -> exists p, audio_position l i k = Some p.
Proof.
  induction l as [|st l IH]; intros i k Hk; cbn [audio_position count_audio]
    in *; [lia|].
  destruct (is_audio (LibAV.codec_type (LibAV.codec st))).
  - destruct (Z.eqb_spec k 0); [eauto|]. apply IH. lia.
  - apply IH. lia.
Qed.

(** The stream loop of [open] ends on the position of the audio stream
    number [stream], when there is one. *)
Lemma select_stream_position l : forall (i stream a n : Z),
  n <= stream ->
  fst (select_stream l i stream a n)
  = match audio_position l i (stream - n) with
    | Some p => p
    | None => a
    end.
Proof.
  induction l as [|st l IH]; intros i stream a n Hn;
    cbn [select_stream audio_position]; [reflexivity|].
  destruct (is_audio (LibAV.codec_type (LibAV.codec st))).
  - destruct (Z.eqb_spec stream n) as [->|Hne].
    + rewrite Z.sub_diag. cbn [Z.eqb].
      apply select_stream_unmatched. lia.
    + replace (stream - n =? 0) with false
        by (symmetry; apply Z.eqb_neq; lia).
      rewrite IH by lia. replace (stream - (n + 1)) with (stream - n - 1)
        by lia. reflexivity.
  - apply IH. exact Hn.
Qed.

(** X1. When the container holds more than [stream] audio streams, [open]
    selects the audio stream that has exactly [stream] audio streams before
    it in container order, whatever other streams lie between. *)
Theorem open_selects_nth_audio_stream (file_name device_name : string)
  (stream : Z) (fc fc' : LibAV.AVFormatContext Demuxer Decoder)
  (s : AudioFileImpl Demuxer Decoder) (log : list LibCall) :
  opens lib file_name device_name fc -> probes lib fc fc' ->
  0 <= stream < count_audio (LibAV.streams fc') ->
  open lib file_name device_name stream = Done (s, log) ->
  error s <> NO_AUDIO /\
  streams s = count_audio (LibAV.streams fc') /\
  exists st,
    nth_error (LibAV.streams fc') (Z.to_nat (audio_stream s)) = Some st /\
    0 <= audio_stream s /\
    is_audio (LibAV.codec_type (LibAV.codec st)) = true /\
    count_audio (firstn (Z.to_nat (audio_stream s)) (LibAV.streams fc'))
    = stream.
Proof.
  intros Ho Hp Hidx Hrun.
  destruct (open_cases lib file_name device_name stream)
    as (s0 & Hrun0 & Hres).
  rewrite Hrun in Hrun0. injection Hrun0 as -> _.
  destruct (audio_position_some (LibAV.streams fc') 0 stream Hidx)
    as (p & Hpos).
  pose proof (select_stream_position (LibAV.streams fc') 0 stream (-1) 0)
    as Hsel.
  rewrite Z.sub_0_r, Hpos in Hsel. specialize (Hsel (proj1 Hidx)).
  destruct (audio_position_spec _ _ _ _ Hpos) as (Hle & st & Hnth & Ha & Hc).
  rewrite Z.sub_0_r in Hnth, Hc.
  destruct (resolution_probed lib _ _ _ _ _ _ Ho Hp Hres)
    as [Hn [(Hm & _)|(st0 & Hsel0 & Hne & _)]].
  - rewrite Hm in Hsel. lia.
  - destruct Hsel0 as [_ [Hfst _]].
    assert (Hpa : p = audio_stream s0) by congruence.
    clear Hsel Hfst. subst p.
    split; [exact Hne|]. split; [exact Hn|].
    exists st. split; [exact Hnth|]. split; [exact Hle|].
    split; [exact Ha | exact Hc].
Qed.

End SelectedStream.

(** The second audio stream of a container that begins with a video
    stream. *)
Lemma open_selects_nth_audio_stream_witness :
  exists s log,
    open (Example.recorder 0 Example.mixed_streams) "film.mkv" "" 1
    = Done (s, log) /\
    audio_stream s = 3 /\ streams s = 2.
Proof.
  destruct (open (Example.recorder 0 Example.mixed_streams) "film.mkv" "" 1)
    as [[s log]| |] eqn:Hrun;
    try (vm_compute in Hrun; discriminate Hrun).
  exists s, log. split; [reflexivity|].
  destruct (open_selects_nth_audio_stream
              (Example.recorder 0 Example.mixed_streams) "film.mkv" "" 1
              Example.unprobed (Example.probed Example.mixed_streams) s log)
    as (_ & Hn & _).
  - apply recorder_opens.
  - exists 0. split; [reflexivity | left; lia].
  - vm_compute. split; [discriminate | reflexivity].
  - exact Hrun.
  - vm_compute in Hrun. injection Hrun as <- <-.
    split; [reflexivity | exact Hn].
Defined.

(** ** The session that [open] returns *)

Section OpenedSession.

Context {Demuxer Decoder : Type}.
Variable lib : LibAV.Library Demuxer Decoder.

Implicit Types s : AudioFileImpl Demuxer Decoder.

(** A session comes out of [open] with nothing in flight. *)
Lemma open_fresh (file_name device_name : string) (stream : Z) s
  (log : list LibCall) :
  open lib file_name device_name stream = Done (s, log) ->
  packet s = LibAV.blank_packet /\ offset s = 0 /\
  frame s = LibAV.blank_frame /\ buffer_len s = 0 /\ buffer s = [] /\
  frames_per_interval s = 0 /\ error_per_interval s = 0 /\ error_base s = 0.
Proof.
  unfold open.
  destruct (resolve lib file_name device_name stream) as [r| |];
    cbn [bind]; try discriminate.
  intros [= <- _]. repeat split.
Qed.

(** A stream position that holds a stream is not negative. *)
Lemma stream_at_nonneg (fc : LibAV.AVFormatContext Demuxer Decoder) (a : Z)
  (st : LibAV.AVStream Decoder) :
  LibAV.stream_at fc a = Some st -> 0 <= a.
Proof.
  unfold LibAV.stream_at. destruct (Z.ltb_spec a 0); [discriminate | lia].
Qed.

(** X2. A session that [open] returns without error has an open container
    with a selected stream in it, at an index that is not negative; the
    decoder of that stream has one of the eight sample formats that [read]
    converts; the channel count is positive; the requested index is below
    the count of audio streams; and no packet, frame or buffer is held. *)
Theorem open_ok_session (file_name device_name : string) (stream : Z) s
  (log : list LibCall) :
  open lib file_name device_name stream = Done (s, log) ->
  error s = OK ->
  (exists st,
     session_stream s = Some st /\
     recognized (LibAV.sample_fmt (LibAV.codec st)) = true) /\
  0 <= audio_stream s /\
  0 < channels s /\
  0 <= stream < streams s /\
  packet s = LibAV.blank_packet /\ offset s = 0 /\ buffer_len s = 0.
Proof.
  intros Hrun He.
  destruct (open_fresh _ _ _ _ _ Hrun) as (Hpkt & Hoff & _ & Hlen & _).
  destruct (open_cases lib file_name device_name stream)
    as (s0 & Hrun0 & Hres).
  rewrite Hrun in Hrun0. injection Hrun0 as -> _.
  destruct Hres as
    [_ _ He' _ _ _ _
    |fmt _ _ He' _ _ _ _
    |fc0 ret fc1 _ _ _ _ He' _ _ _ _
    |fc0 fc1 _ _ _ He' _ _ _ _
    |fc1 st1 Hsel1 Hfind1 He' Hfc _ Hinfo
    |fc1 st1 codec1 Hsel1 Hfind1 Hdur He' Hfc _ Hinfo Hd
    |fc1 st1 codec1 d Hsel1 Hfind1 Hdur Hch He' Hfc _ Hinfo Hd
    |fc1 st1 codec1 d ret ctx Hsel1 Hfind1 Hdur Hch Hopen2 He' Hfc Hn Hinfo
       Hd];
    try congruence.
  destruct Hsel1 as [_ [Hfst Hst]].
  pose proof (stream_at_nonneg _ _ _ Hst) as Hpos.
  assert (Hfmt : (ret <? 0) = false
                 /\ recognized (LibAV.sample_fmt ctx) = true).
  { rewrite He in He'. destruct (ret <? 0); [discriminate|].
    destruct (recognized _); [auto | discriminate]. }
  split; [|split; [exact Hpos|split; [|split]]].
  - exists (LibAV.set_stream_codec st1 ctx). split; [|exact (proj2 Hfmt)].
    unfold session_stream. rewrite Hfc.
    apply stream_at_set_codec. exact Hst.
  - destruct Hinfo as (_ & _ & _ & _ & ->). exact Hch.
  - rewrite Hn.
    destruct (Z.lt_ge_cases stream 0) as [Hneg|Hnn];
      [|destruct (Z.lt_ge_cases stream (count_audio (LibAV.streams fc1)))
          as [Hlt|Hge]; [lia|]];
      rewrite select_stream_unmatched in Hfst by lia;
      rewrite <- Hfst in Hpos; lia.
  - auto.
Qed.

(** X3. A capture device never fails for want of a duration: when neither
    the stream nor the container reports one, the session lasts 60
    seconds. *)
Theorem device_always_has_duration (file_name device_name : string)
  (stream : Z) s (log : list LibCall) :
  is_empty device_name = false ->
  open lib file_name device_name stream = Done (s, log) ->
  error s <> NO_DURATION /\
  (forall fc' st codec,
     selects lib file_name device_name stream fc' (audio_stream s) st ->
     LibAV.avcodec_find_decoder lib (LibAV.codec_id (LibAV.codec st))
     = Some codec ->
     LibAV.duration st = LibAV.AV_NOPTS_VALUE ->
     LibAV.fc_duration fc' = LibAV.AV_NOPTS_VALUE ->
     duration s = IEEE.f64_of_int 60).
Proof.
  intros Hd Hrun.
  destruct (open_cases lib file_name device_name stream)
    as (s0 & Hrun0 & Hres).
  rewrite Hrun in Hrun0. injection Hrun0 as -> _.
  assert (Hnever : forall (fc' : LibAV.AVFormatContext Demuxer Decoder)
                     (st : LibAV.AVStream Decoder),
            resolved_duration device_name fc' st <> inr NO_DURATION).
  { intros fc' st. unfold resolved_duration. rewrite Hd. cbn [negb].
    destruct (negb _); [discriminate|]. destruct (negb _); discriminate. }
  split.
  - destruct Hres as
      [_ _ He' _ _ _ _
      |fmt _ _ He' _ _ _ _
      |fc0 ret fc1 _ _ _ _ He' _ _ _ _
      |fc0 fc1 _ _ _ He' _ _ _ _
      |fc1 st1 Hsel1 Hfind1 He' Hfc _ Hinfo
      |fc1 st1 codec1 Hsel1 Hfind1 Hdur He' Hfc _ Hinfo Hdu
      |fc1 st1 codec1 d Hsel1 Hfind1 Hdur Hch He' Hfc _ Hinfo Hdu
      |fc1 st1 codec1 d ret ctx Hsel1 Hfind1 Hdur Hch Hopen2 He' Hfc Hn Hinfo
         Hdu];
      rewrite He'; try discriminate.
    + elim (Hnever _ _ Hdur).
    + destruct (ret <? 0); [discriminate|].
      destruct (recognized _); discriminate.
  - intros fc' st codec Hsel Hfind Hsd Hcd.
    destruct (resolution_informed lib _ _ _ _ _ _ _ _ Hsel Hfind Hres)
      as (_ & _ & _ & Hdur).
    unfold resolved_duration in Hdur.
    rewrite Hsd, Hcd, Hd, !Z.eqb_refl in Hdur. cbn [negb] in Hdur.
    exact (proj1 Hdur).
Qed.

(** X4. Destroying a session as [open] returned it never dereferences a
    missing stream.  It frees the frame; it closes the container exactly
    when one was opened; and, before that, it closes the codec context of
    the selected stream exactly when a stream was selected, whether or not
    the decoder was ever opened. *)
Theorem destroy_after_open (file_name device_name : string) (stream : Z) s
  (log : list LibCall) :
  open lib file_name device_name stream = Done (s, log) ->
  destroy s = Done (FreeFrame :: closes_for s) /\
  (format_context s = None <-> ~ In CloseInput (closes_for s)) /\
  (audio_stream s = -1 <-> ~ In (CloseCodec (audio_stream s)) (closes_for s)).
Proof.
  intros Hrun.
  destruct (open_fresh _ _ _ _ _ Hrun) as (Hpkt & _ & _ & Hlen & _).
  destruct (open_cases lib file_name device_name stream)
    as (s0 & Hrun0 & Hres).
  rewrite Hrun in Hrun0. injection Hrun0 as -> _.
  unfold destroy, closes_for. rewrite Hpkt, Hlen. cbn [LibAV.buf
    LibAV.blank_packet Z.ltb Z.compare app].
  destruct Hres as
    [_ _ He Hfc Hun _ _
    |fmt _ _ He Hfc Hun _ _
    |fc0 ret fc1 _ _ _ _ He Hfc Hun _ _
    |fc0 fc1 _ _ _ He Hfc Hun _ _
    |fc1 st1 Hsel1 Hfind1 He Hfc _ Hinfo
    |fc1 st1 codec1 Hsel1 Hfind1 Hdur He Hfc _ Hinfo Hdu
    |fc1 st1 codec1 d Hsel1 Hfind1 Hdur Hch He Hfc _ Hinfo Hdu
    |fc1 st1 codec1 d ret ctx Hsel1 Hfind1 Hdur Hch Hopen2 He Hfc Hn Hinfo
       Hdu].
  1-4: unfold unselected in Hun; rewrite He, Hfc, ?Hun; cbn;
    (split; [reflexivity|]); split; split; try tauto; try discriminate;
    try (intros _; intros [H|[]]; discriminate H);
    intros H; elim H; left; reflexivity.
  all: destruct Hsel1 as [_ [_ Hst]];
    pose proof (stream_at_nonneg _ _ _ Hst) as Hpos;
    try (pose proof (stream_at_set_codec fc1 _ st1 ctx Hst) as Hst2);
    assert (Hclose : closes_for s0 = [CloseCodec (audio_stream s0); CloseInput])
      by (unfold closes_for; rewrite He;
          try (destruct (ret <? 0); [|destruct (recognized _)]);
          reflexivity);
    unfold closes_for in Hclose; rewrite Hclose, Hfc;
    rewrite (proj2 (Z.leb_le 0 _) Hpos), ?Hst, ?Hst2;
    (split; [reflexivity|]); split; split;
    try discriminate; try lia;
    intros H; elim H; cbn; auto.
Qed.

End OpenedSession.

(** ** Edges of [start] *)

Section StartEdges.

Context {Demuxer Decoder : Type}.
Variable lib : LibAV.Library Demuxer Decoder.

Implicit Types s : AudioFileImpl Demuxer Decoder.

(** X5. [start] does not return when asked for 0 intervals, nor on a stream
    whose time base has denominator 0: the remainder it takes has divisor
    0. *)
Theorem start_zero_error_base_faults (ndebug : bool) s (channel samples : Z) :
  samples = 0 \/
  (forall st, session_stream s = Some st ->
              LibAV.den (LibAV.time_base st) = 0) ->
  start ndebug s channel samples = Fault.
Proof.
  intros Hzero. unfold start.
  destruct (_ && negb ndebug); [reflexivity|].
  match goal with
  | |- context [session_stream ?x] =>
      replace (session_stream x) with (session_stream s)
        by (destruct ((channel <? 0) || _); reflexivity)
  end.
  destruct (session_stream s) as [st|] eqn:Hst; [|reflexivity].
  assert (Hbase : samples * LibAV.den (LibAV.time_base st) = 0).
  { destruct Hzero as [->|Hden]; [lia|]. rewrite (Hden st eq_refl). lia. }
  rewrite Hbase. reflexivity.
Qed.

(** X6. [start] does not return on a session that [open] gave back with an
    error set before a stream was selected: there is no stream whose time
    base it could read. *)
Theorem start_without_stream_faults (file_name device_name : string)
  (stream : Z) s (log : list LibCall) (ndebug : bool)
  (channel samples : Z) :
  open lib file_name device_name stream = Done (s, log) ->
  error s = CANNOT_OPEN_DEVICE \/ error s = CANNOT_OPEN_FILE \/
  error s = NO_STREAMS \/ error s = NO_AUDIO ->
  start ndebug s channel samples = Fault.
Proof.
  intros Hrun He.
  destruct (open_cases lib file_name device_name stream)
    as (s0 & Hrun0 & Hres).
  rewrite Hrun in Hrun0. injection Hrun0 as -> _.
  assert (Hnone : session_stream s0 = None).
  { unfold session_stream.
    destruct Hres as
      [_ _ He' Hfc Hun _ _
      |fmt _ _ He' Hfc Hun _ _
      |fc0 ret fc1 _ _ _ _ He' Hfc Hun _ _
      |fc0 fc1 _ _ _ He' Hfc Hun _ _
      |fc1 st1 Hsel1 Hfind1 He' Hfc _ Hinfo
      |fc1 st1 codec1 Hsel1 Hfind1 Hdur He' Hfc _ Hinfo Hdu
      |fc1 st1 codec1 d Hsel1 Hfind1 Hdur Hch He' Hfc _ Hinfo Hdu
      |fc1 st1 codec1 d ret ctx Hsel1 Hfind1 Hdur Hch Hopen2 He' Hfc Hn Hinfo
         Hdu];
      rewrite Hfc; try reflexivity;
      try (unfold unselected in Hun; rewrite Hun; reflexivity);
      exfalso; rewrite He' in He;
      try (destruct (ret <? 0); [|destruct (recognized _)]);
      intuition discriminate. }
  unfold start.
  destruct (_ && negb ndebug); [reflexivity|].
  match goal with
  | |- context [session_stream ?x] =>
      replace (session_stream x) with (session_stream s0)
        by (destruct ((channel <? 0) || _); reflexivity)
  end.
  rewrite Hnone. reflexivity.
Qed.

(** X7. Calling [start] again with the same arguments changes nothing: the
    plan depends on fields that [start] does not assign. *)
Theorem start_twice (ndebug : bool) s s' (chan samples : Z) :
  start ndebug s chan samples = Done s' ->
  start ndebug s' chan samples = Done s'.
Proof.
  intros H. unfold start in H.
  destruct s as [e fc a nm br sr bps n ch du c p off f bl b fpi epi base].
  cbn [set_channel channels] in H.
  destruct ((chan <? 0) || (ch <=? chan)) eqn:Hmis;
    destruct ndebug; cbn [andb negb] in H; try discriminate H.
  all: unfold session_stream, set_error, set_channel in H;
       cbn [format_context audio_stream sample_rate duration] in H.
  all: destruct (match fc with
                 | Some fc0 => LibAV.stream_at fc0 a
                 | None => None
                 end) as [st|] eqn:Hst; try discriminate H.
  all: match type of H with
       | context [Int.rem64 ?x ?y] =>
           destruct (Int.rem64 x y) as [r|] eqn:Hrem; try discriminate H
       end.
  all: injection H as <-.
  all: unfold start.
  all: cbn [set_plan set_channel set_error channels error format_context
            audio_stream codec_name bit_rate sample_rate bits_per_sample
            streams duration channel packet offset frame buffer_len buffer
            session_stream].
  all: rewrite Hmis; cbn [andb negb].
  all: unfold session_stream, set_plan, set_error, set_channel;
       cbn [channels error format_context
            audio_stream codec_name bit_rate sample_rate bits_per_sample
            streams duration channel packet offset frame buffer_len buffer].
  all: rewrite Hst, Hrem.
  all: reflexivity.
Qed.

End StartEdges.

(** ** What [read] keeps *)

Section ReadInvariants.

Context {Demuxer Decoder : Type}.
Variable lib : LibAV.Library Demuxer Decoder.

Implicit Types s : AudioFileImpl Demuxer Decoder.

Lemma stable_refl s : stable s s.
Proof. unfold stable. split; [reflexivity|]. split; [lia | auto]. Qed.

Lemma stable_trans s1 s2 s3 : stable s1 s2 -> stable s2 s3 -> stable s1 s3.
Proof.
  intros (Ha & Hb & Hc) (Ha' & Hb' & Hc'). unfold stable.
  split; [congruence|]. split; [lia | auto].
Qed.

Lemma stable_set_decoded fc f s : stable s (set_decoded fc f s).
Proof. unfold stable. split; [reflexivity|]. split; [cbn; lia | auto]. Qed.

Lemma stable_set_packet p off s : stable s (set_packet p off s).
Proof. unfold stable. split; [reflexivity|]. split; [cbn; lia | auto]. Qed.

Lemma stable_consume len s : stable s (consume len s).
Proof. apply stable_set_packet. Qed.

Lemma stable_release_packet s : stable s (release_packet s).
Proof.
  unfold release_packet. destruct (LibAV.buf (packet s));
    [apply stable_set_packet | apply stable_refl].
Qed.

Lemma sample_indices_length (n : Z) :
  List.length (sample_indices n) = Z.to_nat n.
Proof. unfold sample_indices. now rewrite length_map, length_seq. Qed.

(** The buffer grows to the frame when the frame is longer, and is reused
    as it is otherwise. *)
Lemma stable_store_frame s : stable s (store_frame s).
Proof.
  unfold stable, store_frame. split; [reflexivity|].
  cbn [buffer_len set_buffer]. split.
  - destruct (Z.ltb_spec (buffer_len s) (LibAV.nb_samples (frame s))); lia.
  - unfold buffer_sized. cbn [buffer buffer_len set_buffer]. intros Hsz.
    rewrite length_app, length_map, sample_indices_length, length_skipn.
    destruct (Z.ltb_spec (buffer_len s) (LibAV.nb_samples (frame s))); lia.
Qed.

(** The first cells of the buffer after a frame was stored. *)
Lemma store_frame_prefix s :
  firstn (Z.to_nat (LibAV.nb_samples (frame s))) (buffer (store_frame s))
  = map (frame_sample (frame s) (channel s) (channels s))
      (sample_indices (LibAV.nb_samples (frame s))).
Proof.
  unfold store_frame. cbn [buffer set_buffer].
  rewrite firstn_app, length_map, sample_indices_length, Nat.sub_diag.
  cbn [firstn]. rewrite app_nil_r. apply firstn_all2.
  rewrite length_map, sample_indices_length. lia.
Qed.

Lemma decode_packet_stable (fuel : nat) : forall s d s',
  decode_packet lib fuel s = Done (d, s') ->
  stable s s' /\
  match d with
  | FrameReady v => frame_stored s v s'
  | PacketDone => True
  end.
Proof.
  induction fuel as [|fuel IH]; intros s d s'; cbn [decode_packet];
    [discriminate|].
  destruct (0 <? LibAV.size (packet s)).
  2: { intros [= <- <-]. split; [apply stable_refl | exact I]. }
  destruct (format_context s) as [fc|]; [|discriminate].
  destruct (session_stream s) as [st|]; [|discriminate].
  destruct (LibAV.avcodec_decode_audio4 lib (LibAV.codec st) (packet s))
    as [[[len got] f] ctx].
  set (s1 := set_decoded (LibAV.set_codec fc (audio_stream s) ctx) f s).
  assert (H1 : stable s s1) by apply stable_set_decoded.
  destruct (len <? 0).
  { intros [= <- <-]. split; [exact H1 | exact I]. }
  assert (H2 : stable s (consume len s1))
    by (eapply stable_trans; [exact H1 | apply stable_consume]).
  destruct (got =? 0).
  - intros Hrec. destruct (IH _ _ _ Hrec) as [H3 Hd].
    split; [exact (stable_trans _ _ _ H2 H3)|].
    destruct d as [v|]; [|exact I].
    destruct Hd as (s2 & -> & -> & Hs2). exists s2.
    repeat split. rewrite Hs2. exact (proj1 H2).
  - intros [= <- <-].
    split; [eapply stable_trans; [exact H2 | apply stable_store_frame]|].
    exists (consume len s1). repeat split.
Qed.

(** X10. The fetch loop of [read] ends on a failure of the demuxer or on a
    packet of the selected stream, never on a packet of another stream; it
    leaves the offset, the frame and the buffer alone. *)
Theorem next_packet_of_selected_stream (fuel : nat) : forall s (res : Z) s',
  next_packet lib fuel s = Done (res, s') ->
  (res < 0 \/ LibAV.stream_index (packet s') = audio_stream s) /\
  stable s s' /\
  offset s' = offset s /\ frame s' = frame s /\ buffer s' = buffer s.
Proof.
  induction fuel as [|fuel IH]; intros s res s'; cbn [next_packet];
    [discriminate|].
  destruct (format_context s) as [fc|]; [|discriminate].
  destruct (LibAV.av_read_frame lib fc) as [[r p] fc'].
  destruct (Z.leb_spec 0 r) as [Hr|Hr].
  - cbn [audio_stream set_packet set_decoded].
    destruct (Z.eqb_spec (LibAV.stream_index p) (audio_stream s)) as [Hi|Hi].
    + intros [= <- <-]. split; [right; exact Hi|].
      split; [|repeat split].
      eapply stable_trans; [apply stable_set_decoded|apply stable_set_packet].
    + intros Hrec. destruct (IH _ _ _ Hrec) as (Hres & Hst & Ho & Hf & Hb).
      split; [exact Hres|]. split; [|auto].
      eapply stable_trans; [|exact Hst].
      eapply stable_trans; [apply stable_set_decoded|].
      eapply stable_trans; apply stable_set_packet.
  - intros [= <- <-]. split; [left; exact Hr|].
    split; [|repeat split].
    eapply stable_trans; [apply stable_set_decoded|apply stable_set_packet].
Qed.

Lemma read_loop_stable (fuel : nat) : forall s (v : Z) s',
  read_loop lib fuel s = Done (v, s') ->
  stable s s' /\ (v = 0 \/ frame_stored s v s').
Proof.
  induction fuel as [|fuel IH]; intros s v s'; cbn [read_loop];
    [discriminate|].
  destruct (decode_packet lib fuel s) as [[d s1]| |] eqn:Hdec;
    cbn [bind]; try discriminate.
  destruct (decode_packet_stable _ _ _ _ Hdec) as [H1 Hd].
  destruct d as [n|].
  - intros [= <- <-]. split; [exact H1 | right; exact Hd].
  - destruct (next_packet lib fuel (release_packet s1)) as [[res s2]| |]
      eqn:Hnext; cbn [bind]; try discriminate.
    destruct (next_packet_of_selected_stream _ _ _ _ Hnext)
      as (_ & H2 & _).
    assert (H12 : stable s s2).
    { eapply stable_trans; [exact H1|].
      eapply stable_trans; [apply stable_release_packet | exact H2]. }
    destruct (res <? 0).
    + intros [= <- <-]. split; [exact H12 | left; reflexivity].
    + intros Hrec. destruct (IH _ _ _ Hrec) as [H3 Hv].
      split; [exact (stable_trans _ _ _ H12 H3)|].
      destruct Hv as [->|(s3 & -> & -> & Hs3)]; [left; reflexivity|].
      right. exists s3. repeat split. rewrite Hs3. exact (proj1 H12).
Qed.

(** X8. Whatever the library answers, a call of [read] that returns leaves
    the error, the selected stream and channel, the stream information and
    the interval plan as they were, and the buffer at least as long as it
    was, with as many cells as [buffer_len] says if that held before. *)
Theorem read_keeps_session (fuel : nat) s (v : Z) s' :
  read lib fuel s = Done (v, s') ->
  settled s' = settled s /\
  buffer_len s <= buffer_len s' /\
  (buffer_sized s -> buffer_sized s').
Proof.
  unfold read. destruct (negb (not_error (error s))).
  - intros [= <- <-]. apply stable_refl.
  - intros Hloop. exact (proj1 (read_loop_stable _ _ _ _ Hloop)).
Qed.

(** X9. When [read] returns a positive count, that is the sample count of
    the frame it holds, the buffer has at least that many cells, and the
    first of them are the samples of the frame as the sample loop converts
    them for the channel chosen by [start]. *)
Theorem read_fills_buffer (fuel : nat) s (v : Z) s' :
  read lib fuel s = Done (v, s') ->
  0 < v ->
  v = LibAV.nb_samples (frame s') /\
  v <= buffer_len s' /\
  firstn (Z.to_nat v) (buffer s')
  = map (frame_sample (frame s') (channel s) (channels s))
      (sample_indices v).
Proof.
  unfold read. destruct (negb (not_error (error s))).
  - intros [= <- <-]. lia.
  - intros Hloop Hv.
    destruct (read_loop_stable _ _ _ _ Hloop) as [_ [->|(s1 & -> & -> & Hs)]];
      [lia|].
    assert (Hch : channel s1 = channel s /\ channels s1 = channels s).
    { unfold settled in Hs. injection Hs. intros. split; assumption. }
    destruct Hch as [<- <-].
    change (frame (store_frame s1)) with (frame s1).
    split; [reflexivity|]. split; [|apply store_frame_prefix].
    unfold store_frame. cbn [buffer_len set_buffer].
    destruct (Z.ltb_spec (buffer_len s1) (LibAV.nb_samples (frame s1))); lia.
Qed.

End ReadInvariants.

(** ** The end of the stream, and the packet handed back *)

Section Packets.

Context {Demuxer Decoder : Type}.
Variable lib : LibAV.Library Demuxer Decoder.

Implicit Types s : AudioFileImpl Demuxer Decoder.

Lemma runs_dry_result (index : Z) fc p res fc' (n : nat) :
  runs_dry lib index fc p res fc' n -> res < 0 /\ (1 <= n)%nat.
Proof.
  induction 1 as [| ? ? ? ? ? ? ? ? ? ? ? ? IH]; [split; [assumption | lia]|].
  destruct IH. split; [assumption | lia].
Qed.

(** The fetch loop gives up when the demuxer does. *)
Lemma next_packet_runs_dry (index : Z) fc p res fc' (n : nat) :
  runs_dry lib index fc p res fc' n ->
  forall s (fuel : nat),
    format_context s = Some fc -> audio_stream s = index ->
    (n <= fuel)%nat ->
    next_packet lib fuel s
    = Done (res, set_packet p (offset s) (set_decoded fc' (frame s) s)).
Proof.
  induction 1 as [fc res p fc' Hread Hres
                 |fc res0 p0 fc0 p res fc' n Hread Hres Hidx Hnext IH];
    intros s fuel Hfc Hs Hfuel.
  - destruct fuel as [|fuel]; [lia|]. cbn [next_packet].
    rewrite Hfc, Hread.
    replace (0 <=? res) with false by (symmetry; apply Z.leb_gt; exact Hres).
    reflexivity.
  - destruct fuel as [|fuel]; [lia|]. cbn [next_packet].
    rewrite Hfc, Hread.
    rewrite (proj2 (Z.leb_le 0 res0)) by exact Hres.
    cbn [audio_stream set_packet set_decoded].
    rewrite Hs.
    replace (LibAV.stream_index p0 =? index) with false
      by (symmetry; apply Z.eqb_neq; exact Hidx).
    rewrite IH; [reflexivity | reflexivity | exact Hs | lia].
Qed.

(** X11. With no bytes left in the packet in flight, when the demuxer
    fails, at once or after packets of other streams only, [read] returns 0;
    a read error and the end of the file are not told apart, and no error is
    set on the session. *)
Theorem read_end_of_stream s fc (p : LibAV.AVPacket) (res : Z) fc' (n : nat) :
  error s = OK ->
  LibAV.size (packet s) <= 0 ->
  format_context s = Some fc ->
  runs_dry lib (audio_stream s) fc p res fc' n ->
  forall fuel, (n + 1 <= fuel)%nat ->
    exists s',
      read lib fuel s = Done (0, s') /\
      error s' = OK /\ packet s' = p /\ format_context s' = Some fc' /\
      buffer s' = buffer s.
Proof.
  intros He Hsize Hfc Hdry fuel Hfuel.
  destruct (runs_dry_result _ _ _ _ _ _ Hdry) as [Hres Hn].
  unfold read. rewrite He. cbn [not_error negb].
  destruct fuel as [|fuel]; [lia|]. cbn [read_loop].
  destruct fuel as [|fuel]; [lia|]. cbn [decode_packet].
  replace (0 <? LibAV.size (packet s)) with false
    by (symmetry; apply Z.ltb_ge; exact Hsize).
  cbn [bind].
  assert (Hrel : format_context (release_packet s) = Some fc /\
                 audio_stream (release_packet s) = audio_stream s /\
                 error (release_packet s) = OK /\
                 buffer (release_packet s) = buffer s).
  { unfold release_packet. destruct (LibAV.buf (packet s)); auto. }
  destruct Hrel as (Hrfc & Hridx & Hre & Hrb).
  rewrite (next_packet_runs_dry (audio_stream s) _ p res fc' n Hdry
             (release_packet s) (S fuel) Hrfc Hridx) by lia.
  cbn [bind]. rewrite (proj2 (Z.ltb_lt res 0) Hres).
  eexists. split; [reflexivity|].
  cbn [error packet format_context buffer set_packet set_decoded]. auto.
Qed.

Lemma wrap32_small (x : Z) :
  Int.is_int32 x -> Int.wrap32 x = x.
Proof.
  unfold Int.is_int32, Int.INT32_MIN, Int.INT32_MAX, Int.wrap32, Int.wrap.
  intros H. rewrite Z.mod_small; lia.
Qed.

(** Advancing the packet by the bytes the decoder consumed does not change
    the packet that will be handed back. *)
Lemma consume_restored (len : Z) s :
  packet_in_range s -> 0 <= len <= LibAV.size (packet s) ->
  restored_packet (consume len s) = restored_packet s /\
  packet_in_range (consume len s).
Proof.
  unfold packet_in_range, restored_packet, consume.
  intros (Ho & Hs & Hsum) Hlen.
  cbn [packet offset set_packet LibAV.buf LibAV.pos LibAV.size
       LibAV.stream_index].
  unfold Int.INT32_MAX in *.
  rewrite (wrap32_small (LibAV.size (packet s) - len))
    by (unfold Int.is_int32, Int.INT32_MIN, Int.INT32_MAX; lia).
  rewrite (wrap32_small (offset s + len))
    by (unfold Int.is_int32, Int.INT32_MIN, Int.INT32_MAX; lia).
  split; [|lia].
  f_equal; [lia | f_equal; lia].
Qed.

(** X12. When the decoder consumes no more than a packet holds, the decode
    loop of [read], however many bytes it went through, leaves the packet
    such that undoing the offset gives back the packet as it was fetched:
    that packet is the one released. *)
Theorem decode_keeps_packet (fuel : nat) : forall s (d : Decoded) s',
  decoder_bounded lib ->
  packet_in_range s ->
  decode_packet lib fuel s = Done (d, s') ->
  restored_packet s' = restored_packet s /\ packet_in_range s'.
Proof.
  induction fuel as [|fuel IH]; intros s d s' Hlib Hinv; cbn [decode_packet];
    [discriminate|].
  destruct (Z.ltb_spec 0 (LibAV.size (packet s))) as [Hsize|Hsize].
  2: { intros [= <- <-]. auto. }
  destruct (format_context s) as [fc|]; [|discriminate].
  destruct (session_stream s) as [st|]; [|discriminate].
  pose proof (Hlib (LibAV.codec st) (packet s) Hsize) as Hbound.
  destruct (LibAV.avcodec_decode_audio4 lib (LibAV.codec st) (packet s))
    as [[[len got] f] ctx].
  cbn [fst] in Hbound.
  set (s1 := set_decoded (LibAV.set_codec fc (audio_stream s) ctx) f s).
  destruct (Z.ltb_spec len 0) as [Hlen|Hlen].
  { intros [= <- <-]. auto. }
  destruct (consume_restored len s1 Hinv (conj Hlen Hbound)) as [Hr Hi].
  destruct (got =? 0).
  - intros Hrec. destruct (IH _ _ _ Hlib Hi Hrec) as [Hr' Hi'].
    split; [rewrite Hr', Hr; reflexivity | exact Hi'].
  - intros [= <- <-]. split; [exact Hr | exact Hi].
Qed.

End Packets.

(** ** [read] on a session of [open] *)

Section ReadSafety.

Context {Demuxer Decoder : Type}.
Variable lib : LibAV.Library Demuxer Decoder.

Implicit Types s : AudioFileImpl Demuxer Decoder.

Lemma stream_in_range_some s :
  stream_in_range s ->
  exists fc st, format_context s = Some fc /\ session_stream s = Some st.
Proof.
  intros (fc & Hfc & Hidx). exists fc.
  unfold session_stream, LibAV.stream_at. rewrite Hfc.
  replace (audio_stream s <? 0) with false by (symmetry; apply Z.ltb_ge; lia).
  destruct (nth_error (LibAV.streams fc) (Z.to_nat (audio_stream s)))
    as [st|] eqn:Hn; [eauto|].
  apply nth_error_None in Hn. unfold LibAV.nb_streams in Hidx. lia.
Qed.

Lemma some_stream_in_range s (st : LibAV.AVStream Decoder) :
  session_stream s = Some st -> stream_in_range s.
Proof.
  unfold session_stream, stream_in_range.
  destruct (format_context s) as [fc|]; [|discriminate].
  intros Hst. exists fc. split; [reflexivity|].
  pose proof (stream_at_nonneg _ _ _ Hst) as Hpos.
  unfold LibAV.stream_at in Hst.
  replace (audio_stream s <? 0) with false in Hst
    by (symmetry; apply Z.ltb_ge; lia).
  assert (Hlt : (Z.to_nat (audio_stream s)
                 < List.length (LibAV.streams fc))%nat)
    by (apply nth_error_Some; congruence).
  unfold LibAV.nb_streams. lia.
Qed.

Lemma update_nth_length {A : Type} (f : A -> A) (l : list A) (n : nat) :
  List.length (LibAV.update_nth n f l) = List.length l.
Proof.
  revert n. induction l as [|x l IH]; intros [|n]; cbn; auto.
Qed.

Lemma nb_streams_set_codec (fc : LibAV.AVFormatContext Demuxer Decoder)
  (i : Z) (c : LibAV.AVCodecContext Decoder) :
  LibAV.nb_streams (LibAV.set_codec fc i c) = LibAV.nb_streams fc.
Proof.
  unfold LibAV.nb_streams, LibAV.set_codec. cbn [LibAV.streams].
  now rewrite update_nth_length.
Qed.

Lemma decode_packet_safe (fuel : nat) : forall s,
  stream_in_range s ->
  decode_packet lib fuel s <> Fault /\
  forall d s', decode_packet lib fuel s = Done (d, s') -> stream_in_range s'.
Proof.
  induction fuel as [|fuel IH]; intros s Hin; cbn [decode_packet].
  { split; [discriminate | intros ? ? [=]]. }
  destruct (0 <? LibAV.size (packet s)).
  2: { split; [discriminate|]. intros d s' [= <- <-]. exact Hin. }
  destruct (stream_in_range_some s Hin) as (fc & st & Hfc & Hst).
  rewrite Hfc, Hst.
  destruct (LibAV.avcodec_decode_audio4 lib (LibAV.codec st) (packet s))
    as [[[len got] f] ctx].
  assert (H1 : forall s1,
            format_context s1 = Some (LibAV.set_codec fc (audio_stream s) ctx)
            -> audio_stream s1 = audio_stream s -> stream_in_range s1).
  { intros s1 Hfc1 Ha1. exists (LibAV.set_codec fc (audio_stream s) ctx).
    split; [exact Hfc1|]. rewrite Ha1, nb_streams_set_codec.
    destruct Hin as (fc0 & Hfc0 & Hidx). congruence. }
  destruct (len <? 0).
  { split; [discriminate|]. intros d s' [= <- <-]. now apply H1. }
  destruct (got =? 0).
  - apply IH. now apply H1.
  - split; [discriminate|]. intros d s' [= <- <-]. now apply H1.
Qed.

Lemma next_packet_safe (fuel : nat) : forall s,
  demuxer_keeps_streams lib ->
  stream_in_range s ->
  next_packet lib fuel s <> Fault /\
  forall res s', next_packet lib fuel s = Done (res, s') -> stream_in_range s'.
Proof.
  induction fuel as [|fuel IH]; intros s Hlib Hin; cbn [next_packet].
  { split; [discriminate | intros ? ? [=]]. }
  destruct Hin as (fc & Hfc & Hidx). rewrite Hfc.
  pose proof (Hlib fc) as Hkeep.
  destruct (LibAV.av_read_frame lib fc) as [[r p] fc']. cbn [snd] in Hkeep.
  assert (H1 : forall s1,
            format_context s1 = Some fc' ->
            audio_stream s1 = audio_stream s -> stream_in_range s1).
  { intros s1 Hfc1 Ha1. exists fc'. split; [exact Hfc1|].
    rewrite Ha1, Hkeep. exact Hidx. }
  destruct (0 <=? r).
  - cbn [audio_stream set_packet set_decoded].
    destruct (LibAV.stream_index p =? audio_stream s).
    + split; [discriminate|]. intros res s' [= <- <-]. now apply H1.
    + apply IH; [exact Hlib | now apply H1].
  - split; [discriminate|]. intros res s' [= <- <-]. now apply H1.
Qed.

Lemma release_packet_in_range s :
  stream_in_range s -> stream_in_range (release_packet s).
Proof.
  unfold release_packet. destruct (LibAV.buf (packet s)); auto.
Qed.

Lemma read_loop_safe (fuel : nat) : forall s,
  demuxer_keeps_streams lib ->
  stream_in_range s ->
  read_loop lib fuel s <> Fault.
Proof.
  induction fuel as [|fuel IH]; intros s Hlib Hin; cbn [read_loop];
    [discriminate|].
  destruct (decode_packet_safe fuel s Hin) as [Hnf Hnext].
  destruct (decode_packet lib fuel s) as [[d s1]| |]; cbn [bind];
    [|contradiction|discriminate].
  specialize (Hnext d s1 eq_refl).
  destruct d as [v|]; [discriminate|].
  destruct (next_packet_safe fuel (release_packet s1) Hlib
              (release_packet_in_range _ Hnext)) as [Hnf2 Hnext2].
  destruct (next_packet lib fuel (release_packet s1)) as [[res s2]| |];
    cbn [bind]; [|contradiction|discriminate].
  destruct (res <? 0); [discriminate|].
  apply IH; [exact Hlib | exact (Hnext2 res s2 eq_refl)].
Qed.

(** X13. As long as the demuxer keeps the number of streams of the
    container, [read] on a session that [open] returned never reaches a
    container or a stream that is not there, whatever the error of the
    session and however far the loops run. *)
Theorem read_after_open_never_faults (file_name device_name : string)
  (stream : Z) s (log : list LibCall) (fuel : nat) :
  demuxer_keeps_streams lib ->
  open lib file_name device_name stream = Done (s, log) ->
  read lib fuel s <> Fault.
Proof.
  intros Hlib Hrun. unfold read.
  destruct (error s) eqn:He; cbn [not_error negb]; try discriminate.
  destruct (open_ok_session lib _ _ _ _ _ Hrun He) as ((st & Hst & _) & _).
  apply read_loop_safe; [exact Hlib|].
  exact (some_stream_in_range s st Hst).
Qed.

End ReadSafety.

(** ** The further properties at work on the examples *)

Lemma open_ok_session_witness :
  exists s log,
    open (Example.recorder 0 [Example.audio_stream_ms 125]) "song.wav" "" 0
    = Done (s, log) /\
    error s = OK /\ 0 < channels s /\ 0 <= audio_stream s /\
    packet s = LibAV.blank_packet.
Proof.
  destruct (open (Example.recorder 0 [Example.audio_stream_ms 125])
              "song.wav" "" 0) as [[s log]| |] eqn:Hrun;
    try (vm_compute in Hrun; discriminate Hrun).
  assert (He : error s = OK)
    by (vm_compute in Hrun; injection Hrun as <- _; reflexivity).
  destruct (open_ok_session _ _ _ _ s log Hrun He)
    as (_ & Ha & Hch & _ & Hpkt & _).
  exists s, log. auto.
Defined.

(** The default capture device, with a stream and a container that report
    no duration. *)
Lemma device_always_has_duration_witness :
  exists s log,
    open (Example.recorder 0 [Example.audio_stream_ms LibAV.AV_NOPTS_VALUE])
      "" "mic" 0
    = Done (s, log) /\
    error s <> NO_DURATION /\ duration s = IEEE.f64_of_int 60.
Proof.
  destruct (open (Example.recorder 0
                    [Example.audio_stream_ms LibAV.AV_NOPTS_VALUE])
              "" "mic" 0) as [[s log]| |] eqn:Hrun;
    try (vm_compute in Hrun; discriminate Hrun).
  destruct (device_always_has_duration _ "" "mic" 0 s log eq_refl Hrun)
    as [He _].
  exists s, log. split; [reflexivity|]. split; [exact He|].
  vm_compute in Hrun. injection Hrun as <- _. reflexivity.
Defined.

(** A session that failed for want of an audio stream: the container is
    closed, no codec is. *)
Lemma destroy_after_open_witness :
  exists s log,
    open (Example.recorder 0 []) "empty.bin" "" 0 = Done (s, log) /\
    destroy s = Done [FreeFrame; CloseInput].
Proof.
  destruct (open (Example.recorder 0 []) "empty.bin" "" 0)
    as [[s log]| |] eqn:Hrun;
    try (vm_compute in Hrun; discriminate Hrun).
  destruct (destroy_after_open _ _ _ _ s log Hrun) as [Hd _].
  exists s, log. split; [reflexivity|]. rewrite Hd.
  vm_compute in Hrun. injection Hrun as <- _. reflexivity.
Defined.

Lemma start_zero_error_base_faults_witness :
  start true Example.session 0 0 = Fault.
Proof.
  apply start_zero_error_base_faults. left. reflexivity.
Defined.

Lemma start_without_stream_faults_witness :
  exists s log,
    open (Example.recorder 0 []) "empty.bin" "" 0 = Done (s, log) /\
    error s = NO_AUDIO /\ start true s 0 100 = Fault.
Proof.
  destruct (open (Example.recorder 0 []) "empty.bin" "" 0)
    as [[s log]| |] eqn:Hrun;
    try (vm_compute in Hrun; discriminate Hrun).
  assert (He : error s = NO_AUDIO)
    by (vm_compute in Hrun; injection Hrun as <- _; reflexivity).
  exists s, log. split; [reflexivity|]. split; [exact He|].
  apply (start_without_stream_faults _ _ _ _ s log true 0 100 Hrun). auto.
Defined.

Lemma start_twice_witness :
  exists s',
    start true Example.session 1 3 = Done s' /\
    start true s' 1 3 = Done s'.
Proof.
  destruct (start true Example.session 1 3) as [s'| |] eqn:Hrun;
    try (vm_compute in Hrun; discriminate Hrun).
  exists s'. split; [reflexivity|].
  exact (start_twice true Example.session s' 1 3 Hrun).
Defined.

Lemma read_keeps_session_witness :
  exists s',
    read Example.player 4 Example.playing = Done (2, s') /\
    settled s' = settled Example.playing /\
    buffer_len Example.playing <= buffer_len s'.
Proof.
  destruct (read Example.player 4 Example.playing) as [[v s']| |] eqn:Hrun;
    try (vm_compute in Hrun; discriminate Hrun).
  destruct (read_keeps_session _ _ _ _ _ Hrun) as (Hs & Hb & _).
  assert (Hv : v = 2) by (vm_compute in Hrun; congruence).
  subst v. exists s'. auto.
Defined.

Lemma read_fills_buffer_witness :
  exists s',
    read Example.player 4 Example.playing = Done (2, s') /\
    2 <= buffer_len s' /\
    firstn 2 (buffer s')
    = map (frame_sample (frame s') 0 2) (sample_indices 2).
Proof.
  destruct (read Example.player 4 Example.playing) as [[v s']| |] eqn:Hrun;
    try (vm_compute in Hrun; discriminate Hrun).
  assert (Hv : v = 2) by (vm_compute in Hrun; congruence).
  subst v.
  destruct (read_fills_buffer _ _ _ _ _ Hrun) as (_ & Hlen & Hbuf); [lia|].
  exists s'. split; [reflexivity|]. split; [exact Hlen | exact Hbuf].
Defined.

(** The corrupt packet released, the fetch loop goes past the packet of
    stream 1 and ends on the packet of stream 0. *)
Lemma next_packet_of_selected_stream_witness :
  exists s',
    next_packet Example.player 2 (release_packet Example.playing)
    = Done (0, s') /\
    LibAV.stream_index (packet s') = 0.
Proof.
  destruct (next_packet Example.player 2 (release_packet Example.playing))
    as [[res s']| |] eqn:Hrun;
    try (vm_compute in Hrun; discriminate Hrun).
  assert (Hres : res = 0) by (vm_compute in Hrun; congruence).
  subst res.
  destruct (next_packet_of_selected_stream _ _ _ _ _ Hrun)
    as ([Hneg|Hidx] & _); [lia|].
  exists s'. split; [reflexivity | exact Hidx].
Defined.

(** One packet of another stream, then the end of the file. *)
Lemma read_end_of_stream_witness :
  exists s',
    read Example.player 3 Example.finished = Done (0, s') /\ error s' = OK.
Proof.
  destruct (read_end_of_stream Example.player Example.finished
              (Example.container 125 [Example.packet_of 1 [x01; x02]])
              LibAV.blank_packet Example.AVERROR_EOF
              (Example.container 125 []) 2)
    with (fuel := 3%nat) as (s' & Hrun & He & _).
  - reflexivity.
  - vm_compute. discriminate.
  - reflexivity.
  - eapply dry_later with (p0 := Example.packet_of 1 [x01; x02]).
    + reflexivity.
    + lia.
    + vm_compute. discriminate.
    + apply dry_now; [reflexivity | vm_compute; reflexivity].
  - lia.
  - exists s'. auto.
Defined.

Lemma player_decoder_bounded : decoder_bounded Example.player.
Proof.
  intros ctx p Hsize. cbn [LibAV.avcodec_decode_audio4 Example.player].
  unfold Example.decode_raw.
  destruct (Example.payload p) as [|b l]; [cbn; lia|].
  destruct b; cbn [fst]; unfold Example.AVERROR_INVALIDDATA; lia.
Qed.

Lemma decode_keeps_packet_witness :
  exists s',
    decode_packet Example.player 1 Example.loaded = Done (FrameReady 2, s') /\
    offset s' = 8 /\
    restored_packet s' = restored_packet Example.loaded.
Proof.
  destruct (decode_packet Example.player 1 Example.loaded)
    as [[d s']| |] eqn:Hrun;
    try (vm_compute in Hrun; discriminate Hrun).
  destruct (decode_keeps_packet Example.player 1 Example.loaded d s')
    as [Hr _].
  - exact player_decoder_bounded.
  - vm_compute. repeat split; discriminate.
  - exact Hrun.
  - vm_compute in Hrun. injection Hrun as <- <-.
    eexists. split; [reflexivity|]. split; [reflexivity | exact Hr].
Defined.

Lemma read_after_open_never_faults_witness :
  exists s log,
    open (Example.recorder 0 [Example.audio_stream_ms 125]) "song.wav" "" 0
    = Done (s, log) /\
    read (Example.recorder 0 [Example.audio_stream_ms 125]) 10 s <> Fault.
Proof.
  destruct (open (Example.recorder 0 [Example.audio_stream_ms 125])
              "song.wav" "" 0) as [[s log]| |] eqn:Hrun;
    try (vm_compute in Hrun; discriminate Hrun).
  exists s, log. split; [reflexivity|].
  apply (read_after_open_never_faults _ "song.wav" "" 0 s log 10).
  - intros fc. reflexivity.
  - exact Hrun.
Defined.
